(** * Workout logger: session registry, CRUD routes and the workout session
      state machine

    A shallow embedding of
    - [server/routes.ts]  (session registry, [authenticateUser], the routes),
    - the drizzle schema that follows it (tables, keys, cascade rules),
    - the [DatabaseStorage] class (one SQL statement per method),
    - [client/src/lib/api.ts] (the [ApiClient.request] wrapper, the auth
      methods and the reading methods),
    - [client/src/components/WorkoutSession.tsx] (the session state machine
      and [fetchRoutines]; its handlers run in turn in [Session], with
      their awaits interleaved in [Overlap]),
    - the [useAuth] hook, and
    - the [WorkoutHistory] component written over [apiClient].

    Conventions.
    - A [uuid] is a [string]; every id handled here is taken to be a
      syntactically valid uuid.
    - JS integers ([reps], [rpe], [set_number], [planned_sets], the exercise
      cursor) are [Z]; [weight] is a rational [Q]; a timestamp is [Z]
      milliseconds.  An [integer] column holds the 32-bit range and a
      [decimal(5,2)] column rounds to hundredths and holds less than 1000
      in absolute value; a value out of range fails the statement.
    - The store is taken to be reachable: a statement fails only on a key
      or foreign-key violation declared in the schema, or on a value out
      of the range of its column.
    - A request body is the typed record of its route, or an untyped body
      where the route reads a field without validating it
      ([PostSigninUntyped], [PatchWorkoutUntyped]).  What the generated
      insert schemas take of the bodies the client writes is [Wire].
    - [created_at] columns are never read by the code and are left out.
    - What the code obtains from its environment (random uuids, [Math.random],
      [Date.now], the bcrypt salt) is an explicit [Entropy] input.
    - A table is the list of its rows in the order a sequential scan
      returns them: insertion order, with an updated row written last. *)

From Stdlib Require Import String Ascii ZArith NArith QArith List Bool Lia.
From stdpp Require Import base option gmap strings list.
Import ListNotations.
Open Scope Z_scope.
Open Scope string_scope.
Open Scope list_scope.

Definition uuid := string.

(** ** The schema (drizzle [pgTable] declarations) *)
Module Schema.

Record User := mkUser {
  u_id : uuid; u_username : string; u_password : string }.

Record Routine := mkRoutine {
  r_id : uuid; r_user_id : uuid; r_name : string }.

Record RoutineExercise := mkRoutineExercise {
  re_id : uuid; re_routine_id : uuid; re_name : string;
  re_planned_sets : Z; re_order_index : Z }.

Record Workout := mkWorkout {
  w_id : uuid; w_user_id : uuid; w_routine_id : option uuid;
  w_routine_name : string; w_start_time : Z; w_end_time : option Z }.

Record WorkoutSet := mkWorkoutSet {
  ws_id : uuid; ws_workout_id : uuid; ws_exercise_name : string;
  ws_weight : Q; ws_reps : Z; ws_rpe : Z; ws_set_number : Z }.

(** [insertUserSchema] .. [insertWorkoutSetSchema]: the picked columns. *)
Record InsertUser := mkInsertUser {
  iu_username : string; iu_password : string }.

Record InsertRoutine := mkInsertRoutine { ir_name : string }.

Record InsertRoutineExercise := mkInsertRoutineExercise {
  ire_routine_id : uuid; ire_name : string;
  ire_planned_sets : Z; ire_order_index : Z }.

Record InsertWorkout := mkInsertWorkout {
  iw_routine_id : option uuid; iw_routine_name : string;
  iw_start_time : Z; iw_end_time : option Z }.

Record InsertWorkoutSet := mkInsertWorkoutSet {
  iws_workout_id : uuid; iws_exercise_name : string;
  iws_weight : Q; iws_reps : Z; iws_rpe : Z; iws_set_number : Z }.

(** One entry of the body of [PATCH /api/workouts/:id]: a column of
    [workouts] and the value given for it.  The route hands the body to
    [.set(updates)] as a [Partial<Workout>] without validating it, so every
    column can be named.  [SetEndTime] carries the [Date] the route makes of
    an [end_time] string, or [null]; [SetStartTime] stands for a body whose
    [start_time] reaches the store as a timestamp. *)
Inductive Assignment :=
| SetId (id : uuid)
| SetUserId (user_id : uuid)
| SetRoutineId (routine_id : option uuid)
| SetRoutineName (routine_name : string)
| SetStartTime (start_time : Z)
| SetEndTime (end_time : option Z).

(** The body names at least one column ([.set({})] throws); of two values
    given for one column the later counts, as in [JSON.parse]. *)
Record WorkoutUpdates := mkWorkoutUpdates {
  upd_first : Assignment; upd_more : list Assignment }.

Record DB := mkDB {
  users : list User;
  routines : list Routine;
  routine_exercises : list RoutineExercise;
  workouts : list Workout;
  workout_sets : list WorkoutSet }.

Definition emptyDB : DB := mkDB [] [] [] [] [].

End Schema.
Import Schema.

(** What one request draws from outside the program. *)
Record Entropy := mkEntropy {
  e_uuid : uuid;        (* [defaultRandom()] of the inserted row *)
  e_random : string;    (* [Math.random().toString(36).substring(2)] *)
  e_now : N;            (* [Date.now()] *)
  e_salt : string }.    (* the salt [bcrypt.hash] draws *)

(** [bcryptjs], an external library. *)
Class Bcrypt := {
  bcrypt_hash : string -> string -> string;      (* salt, password *)
  bcrypt_compare : string -> string -> bool }.   (* password, hash *)

(** [zod] with [drizzle-zod], external libraries: whether
    [insertWorkoutSchema.parse] and [insertWorkoutSetSchema.parse] return on
    the JSON of a body built by [apiClient] (the parsed value is that body)
    or throw. *)
Class Zod := {
  accepts_workout : InsertWorkout -> bool;
  accepts_workout_set : InsertWorkoutSet -> bool }.

(** ** The repository's insert schemas against the bodies [apiClient] sends *)
Module Wire.

(** [typeof] of a JSON value the client sends. *)
Inductive Kind := KString | KNumber.

(** The column types the schema uses. *)
Inductive ColumnType := CUuid | CText | CInteger | CDecimal | CTimestamp.

(** What [createInsertSchema] asks of the value for a column: a string for
    [uuid], [text] and [decimal] (drizzle reads and writes a [decimal] as a
    string), a number for [integer], and a [Date] for [timestamp], which no
    JSON value is. *)
Definition column_takes (c : ColumnType) (k : Kind) : bool :=
  match c, k with
  | (CUuid | CText | CDecimal), KString => true
  | CInteger, KNumber => true
  | _, _ => false
  end.

(** A field of an insert schema: a picked column, or the
    [z.string().transform(..)] that [.extend] puts in its place.  It is
    optional when the column admits [null] or has a default, or when the
    extension says so. *)
Inductive FieldType := Picked (c : ColumnType) | ExtendedString.

Record Field := mkField {
  f_name : string; f_type : FieldType; f_optional : bool }.

Definition field_takes (t : FieldType) (k : Kind) : bool :=
  match t, k with
  | Picked c, _ => column_takes c k
  | ExtendedString, KString => true
  | ExtendedString, KNumber => false
  end.

Definition insertWorkoutSchema : list Field :=
  [ mkField "routine_id" (Picked CUuid) true;
    mkField "routine_name" (Picked CText) false;
    mkField "start_time" ExtendedString false;
    mkField "end_time" ExtendedString true ].

Definition insertWorkoutSetSchema : list Field :=
  [ mkField "workout_id" (Picked CUuid) false;
    mkField "exercise_name" (Picked CText) false;
    mkField "weight" (Picked CDecimal) true;
    mkField "reps" (Picked CInteger) true;
    mkField "rpe" (Picked CInteger) true;
    mkField "set_number" (Picked CInteger) true ].

(** The bodies of [apiClient.createWorkout] and [apiClient.createWorkoutSet]
    as [JSON.stringify] writes them: the keys, each with the type of its
    value.  [start_time] is [new Date().toISOString()]; [weight], [reps],
    [rpe] and [set_number] are the numbers of the draft. *)
Definition createWorkout_body : list (string * Kind) :=
  [ ("routine_id", KString); ("routine_name", KString); ("start_time", KString) ].

Definition createWorkoutSet_body : list (string * Kind) :=
  [ ("workout_id", KString); ("exercise_name", KString); ("weight", KNumber);
    ("reps", KNumber); ("rpe", KNumber); ("set_number", KNumber) ].

(** [schema.parse(body)] returns: every field the body carries has the type
    the schema asks for, and every field it lacks is optional. *)
Definition parses (schema : list Field) (body : list (string * Kind)) : bool :=
  forallb (fun f =>
             match List.find (fun kv => String.eqb (fst kv) (f_name f)) body with
             | Some kv => field_takes (f_type f) (snd kv)
             | None => f_optional f
             end) schema.

(** The schemas of the repository: the workout body parses; the set body
    does not, its [weight] being a number where the [decimal] column asks
    for a string. *)
Definition repository : Zod :=
  {| accepts_workout _ := parses insertWorkoutSchema createWorkout_body;
     accepts_workout_set _ := parses insertWorkoutSetSchema createWorkoutSet_body |}.

End Wire.

(** ** [DatabaseStorage] *)
Module Storage.

Definition has_id {A} (key : A -> uuid) (id : uuid) (rows : list A) : bool :=
  existsb (fun r => String.eqb (key r) id) rows.

(** An [integer] column holds 32 bits. *)
Definition int4 (z : Z) : bool :=
  (-2147483648 <=? z)%Z && (z <=? 2147483647)%Z.

(** A [decimal(5,2)] column: the store rounds what it is given to two
    decimals, half away from zero, and throws when the result needs more
    than three digits before the point.  [hundredths] is the rounded value
    in hundredths. *)
Definition hundredths (q : Q) : Z :=
  let n := (Qnum q * 100)%Z in
  let d := Zpos (Qden q) in
  (Z.sgn n * ((2 * Z.abs n + d) / (2 * d)))%Z.

Definition decimal_5_2 (q : Q) : option Q :=
  let h := hundredths q in
  if (Z.abs h <? 100000)%Z then Some (Qred (h # 100)) else None.

Definition getUserByUsername (username : string) (db : DB) : option User :=
  List.find (fun u => String.eqb (u_username u) username) (users db).

(** Primary key and [unique()] on [username] make the insert throw. *)
Definition createUser `{Bcrypt} (e : Entropy) (user : InsertUser) (db : DB)
  : option (User * DB) :=
  let hashedPassword := bcrypt_hash (e_salt e) (iu_password user) in
  let row := mkUser (e_uuid e) (iu_username user) hashedPassword in
  if has_id u_id (e_uuid e) (users db)
     || existsb (fun u => String.eqb (u_username u) (iu_username user)) (users db)
  then None
  else Some (row, mkDB (users db ++ [row]) (routines db) (routine_exercises db)
                       (workouts db) (workout_sets db)).

Definition verifyPassword `{Bcrypt} (user : User) (password : string) : bool :=
  bcrypt_compare password (u_password user).

Definition getRoutinesByUserId (userId : uuid) (db : DB) : list Routine :=
  List.filter (fun r => String.eqb (r_user_id r) userId) (routines db).

Definition createRoutine (e : Entropy) (userId : uuid) (routine : InsertRoutine)
  (db : DB) : option (Routine * DB) :=
  let row := mkRoutine (e_uuid e) userId (ir_name routine) in
  if has_id r_id (e_uuid e) (routines db) || negb (has_id u_id userId (users db))
  then None
  else Some (row, mkDB (users db) (routines db ++ [row]) (routine_exercises db)
                       (workouts db) (workout_sets db)).

(** [delete from routines where id = routineId and user_id = userId];
    [routine_exercises.routine_id] is declared [onDelete: "cascade"] and
    [workouts.routine_id] is declared [onDelete: "set null"]. *)
Definition routine_hit (routineId userId : uuid) (r : Routine) : bool :=
  String.eqb (r_id r) routineId && String.eqb (r_user_id r) userId.

Definition deleteRoutine (routineId userId : uuid) (db : DB) : DB :=
  let gone := List.filter (routine_hit routineId userId) (routines db) in
  let dead (id : uuid) := has_id r_id id gone in
  mkDB (users db)
       (List.filter (fun r => negb (routine_hit routineId userId r)) (routines db))
       (List.filter (fun x => negb (dead (re_routine_id x))) (routine_exercises db))
       (map (fun w =>
               match w_routine_id w with
               | Some rid =>
                   if dead rid
                   then mkWorkout (w_id w) (w_user_id w) None (w_routine_name w)
                                  (w_start_time w) (w_end_time w)
                   else w
               | None => w
               end) (workouts db))
       (workout_sets db).

Definition getRoutineExercises (routineId : uuid) (db : DB) : list RoutineExercise :=
  List.filter (fun x => String.eqb (re_routine_id x) routineId) (routine_exercises db).

Definition createRoutineExercise (e : Entropy) (exercise : InsertRoutineExercise)
  (db : DB) : option (RoutineExercise * DB) :=
  let row := mkRoutineExercise (e_uuid e) (ire_routine_id exercise) (ire_name exercise)
               (ire_planned_sets exercise) (ire_order_index exercise) in
  if has_id re_id (e_uuid e) (routine_exercises db)
     || negb (has_id r_id (ire_routine_id exercise) (routines db))
     || negb (int4 (ire_planned_sets exercise) && int4 (ire_order_index exercise))
  then None
  else Some (row, mkDB (users db) (routines db) (routine_exercises db ++ [row])
                       (workouts db) (workout_sets db)).

(** [delete from routine_exercises where id = exerciseId]. *)
Definition deleteRoutineExercise (exerciseId : uuid) (db : DB) : DB :=
  mkDB (users db) (routines db)
       (List.filter (fun x => negb (String.eqb (re_id x) exerciseId)) (routine_exercises db))
       (workouts db) (workout_sets db).

Definition getWorkoutsByUserId (userId : uuid) (db : DB) : list Workout :=
  List.filter (fun w => String.eqb (w_user_id w) userId) (workouts db).

Definition createWorkout (e : Entropy) (userId : uuid) (workout : InsertWorkout)
  (db : DB) : option (Workout * DB) :=
  let row := mkWorkout (e_uuid e) userId (iw_routine_id workout)
               (iw_routine_name workout) (iw_start_time workout) (iw_end_time workout) in
  if has_id w_id (e_uuid e) (workouts db)
     || negb (has_id u_id userId (users db))
     || match iw_routine_id workout with
        | Some rid => negb (has_id r_id rid (routines db))
        | None => false
        end
  then None
  else Some (row, mkDB (users db) (routines db) (routine_exercises db)
                       (workouts db ++ [row]) (workout_sets db)).

(** [update workouts set ... where id = workoutId and user_id = userId
    returning *], then [result[0]]. *)
Definition workout_hit (workoutId userId : uuid) (w : Workout) : bool :=
  String.eqb (w_id w) workoutId && String.eqb (w_user_id w) userId.

Definition assign (w : Workout) (a : Assignment) : Workout :=
  match a with
  | SetId id =>
      mkWorkout id (w_user_id w) (w_routine_id w) (w_routine_name w)
                (w_start_time w) (w_end_time w)
  | SetUserId user_id =>
      mkWorkout (w_id w) user_id (w_routine_id w) (w_routine_name w)
                (w_start_time w) (w_end_time w)
  | SetRoutineId routine_id =>
      mkWorkout (w_id w) (w_user_id w) routine_id (w_routine_name w)
                (w_start_time w) (w_end_time w)
  | SetRoutineName routine_name =>
      mkWorkout (w_id w) (w_user_id w) (w_routine_id w) routine_name
                (w_start_time w) (w_end_time w)
  | SetStartTime start_time =>
      mkWorkout (w_id w) (w_user_id w) (w_routine_id w) (w_routine_name w)
                start_time (w_end_time w)
  | SetEndTime end_time =>
      mkWorkout (w_id w) (w_user_id w) (w_routine_id w) (w_routine_name w)
                (w_start_time w) end_time
  end.

Definition apply_updates (updates : WorkoutUpdates) (w : Workout) : Workout :=
  fold_left assign (upd_first updates :: upd_more updates) w.

(** The constraints the schema declares on [workouts], for the new version
    [w'] of the row [w] beside the rows [others]: the primary key, the
    references to [users] and [routines], and the reference
    [workout_sets.workout_id] that may hold on the old id (it declares no
    action on update).  A column left as it was is not checked again. *)
Definition update_ok (db : DB) (others : list Workout) (w w' : Workout) : bool :=
  (String.eqb (w_id w') (w_id w)
   || negb (has_id w_id (w_id w') others)
      && negb (has_id ws_workout_id (w_id w) (workout_sets db)))
  && (String.eqb (w_user_id w') (w_user_id w)
      || has_id u_id (w_user_id w') (users db))
  && match w_routine_id w' with
     | Some rid =>
         bool_decide (w_routine_id w = Some rid) || has_id r_id rid (routines db)
     | None => true
     end.

(** [None] when the statement throws on a constraint.  The store writes
    the new version of a row behind the rows of the table, so that a
    [select] without [order by] returns it last; [id] being the primary key,
    a reachable store holds at most one row that is hit. *)
Definition updateWorkout (workoutId userId : uuid) (updates : WorkoutUpdates)
  (db : DB) : option (option Workout * DB) :=
  let old := List.filter (workout_hit workoutId userId) (workouts db) in
  let others :=
    List.filter (fun w => negb (workout_hit workoutId userId w)) (workouts db) in
  let new := map (apply_updates updates) old in
  if forallb (fun w => update_ok db others w (apply_updates updates w)) old
  then Some (head new,
             mkDB (users db) (routines db) (routine_exercises db) (others ++ new)
                  (workout_sets db))
  else None.

Definition getWorkoutSets (workoutId : uuid) (db : DB) : list WorkoutSet :=
  List.filter (fun x => String.eqb (ws_workout_id x) workoutId) (workout_sets db).

(** [weight: workoutSet.weight.toString()] is read by the store as a
    [decimal(5,2)]; the insert throws when it or one of the [integer]
    columns is out of range, and on the primary key and the reference. *)
Definition createWorkoutSet (e : Entropy) (workoutSet : InsertWorkoutSet)
  (db : DB) : option (WorkoutSet * DB) :=
  match decimal_5_2 (iws_weight workoutSet) with
  | None => None
  | Some weight =>
      let row := mkWorkoutSet (e_uuid e) (iws_workout_id workoutSet)
                   (iws_exercise_name workoutSet) weight
                   (iws_reps workoutSet) (iws_rpe workoutSet)
                   (iws_set_number workoutSet) in
      if has_id ws_id (e_uuid e) (workout_sets db)
         || negb (has_id w_id (iws_workout_id workoutSet) (workouts db))
         || negb (int4 (iws_reps workoutSet) && int4 (iws_rpe workoutSet)
                  && int4 (iws_set_number workoutSet))
      then None
      else Some (row, mkDB (users db) (routines db) (routine_exercises db)
                           (workouts db) (workout_sets db ++ [row]))
  end.

(** [delete from workout_sets where id = setId]. *)
Definition deleteWorkoutSet (setId : uuid) (db : DB) : DB :=
  mkDB (users db) (routines db) (routine_exercises db) (workouts db)
       (List.filter (fun x => negb (String.eqb (ws_id x) setId)) (workout_sets db)).

End Storage.

(** ** [server/routes.ts] *)
Module Routes.

Record SessionUser := mkSessionUser { su_id : uuid; su_username : string }.

Record Server := mkServer {
  sessions : gmap string SessionUser;   (* [const sessions = new Map()] *)
  db : DB }.

Definition set_db (s : Server) (d : DB) : Server := mkServer (sessions s) d.

(** [Number.prototype.toString(36)] on a non-negative integer. *)
Definition digit36 (d : N) : ascii :=
  nth (N.to_nat d)
      (list_ascii_of_string "0123456789abcdefghijklmnopqrstuvwxyz") "0"%char.

Fixpoint toString36_aux (fuel : nat) (n : N) (acc : string) : string :=
  match fuel with
  | O => acc
  | S fuel' =>
      let acc' := String (digit36 (n mod 36)) acc in
      if (n / 36 =? 0)%N then acc' else toString36_aux fuel' (n / 36) acc'
  end.

Definition toString36 (n : N) : string :=
  toString36_aux (S (N.size_nat n)) n "".

Definition generateSessionId (e : Entropy) : string :=
  (e_random e ++ toString36 (e_now e))%string.

Inductive Json :=
| JError (error : string)                           (* [{ error }] *)
| JSuccess                                          (* [{ success: true }] *)
| JSession (user : SessionUser) (sessionId : string)
| JMe (user : SessionUser)
| JRoutines (rows : list Routine)
| JRoutine (row : Routine)
| JExercises (rows : list RoutineExercise)
| JExercise (row : RoutineExercise)
| JWorkouts (rows : list Workout)
| JWorkout (row : option Workout)                   (* [result[0]] may be undefined *)
| JSets (rows : list WorkoutSet)
| JSet (row : WorkoutSet).

Record Response := mkResponse { status : Z; body : Json }.

Definition json (j : Json) : Response := mkResponse 200 j.
Definition fail (code : Z) (msg : string) : Response := mkResponse code (JError msg).

(** A request body is given at its parsed type; [None] is a body on which
    the route's [schema.parse] throws.  The two routes that read [req.body]
    without a schema have a request of their own for the bodies outside the
    type: [PatchWorkoutUntyped] is a [PATCH] body that is no
    [WorkoutUpdates] (no column named, or a value that drizzle or the store
    cannot read for its column), and [PostSigninUntyped] a sign-in whose
    [password] is missing or is not a string.  [ApiRequest] lists the routes
    registered with the [authenticateUser] middleware. *)
Inductive ApiRequest :=
| GetMe
| GetRoutines
| PostRoutine (data : option InsertRoutine)
| DeleteRoutine (id : uuid)
| GetRoutineExercises (routineId : uuid)
| PostRoutineExercise (data : option InsertRoutineExercise)
| DeleteRoutineExercise (id : uuid)
| GetWorkouts
| PostWorkout (data : option InsertWorkout)
| PatchWorkout (id : uuid) (updates : WorkoutUpdates)
| PatchWorkoutUntyped (id : uuid)
| GetWorkoutSets (workoutId : uuid)
| PostWorkoutSet (data : option InsertWorkoutSet)
| DeleteWorkoutSet (id : uuid).

Inductive Request :=
| PostSignup (data : option InsertUser)
| PostSignin (username password : string)
| PostSigninUntyped (username : string)
| PostSignout
| Api (req : ApiRequest).

(** [authenticateUser]: the response it sends, or the user it attaches. *)
Definition authenticateUser (sessionId : option string) (s : Server)
  : Response + SessionUser :=
  match sessionId with
  | None => inl (fail 401 "Not authenticated")
  | Some sid =>
      if String.eqb sid "" then inl (fail 401 "Not authenticated")
      else match sessions s !! sid with
           | None => inl (fail 401 "Not authenticated")
           | Some u => inr u
           end
  end.

Definition open_session (e : Entropy) (user : User) (s : Server) : Response * Server :=
  let sessionId := generateSessionId e in
  let su := mkSessionUser (u_id user) (u_username user) in
  (json (JSession su sessionId), mkServer (<[sessionId := su]> (sessions s)) (db s)).

Definition signup `{Bcrypt} (e : Entropy) (data : option InsertUser) (s : Server)
  : Response * Server :=
  match data with
  | None => (fail 400 "Invalid user data", s)
  | Some userData =>
      match Storage.getUserByUsername (iu_username userData) (db s) with
      | Some _ => (fail 400 "Username already exists", s)
      | None =>
          match Storage.createUser e userData (db s) with
          | None => (fail 400 "Invalid user data", s)
          | Some (user, db') => open_session e user (set_db s db')
          end
      end
  end.

(** [password] is [None] when the body's [password] is missing or is not a
    string: [bcrypt.compare] then throws, and the route's [catch] answers
    500. *)
Definition signin `{Bcrypt} (e : Entropy) (username : string) (password : option string)
  (s : Server) : Response * Server :=
  match Storage.getUserByUsername username (db s) with
  | None => (fail 401 "Invalid credentials", s)
  | Some user =>
      match password with
      | Some password =>
          if Storage.verifyPassword user password
          then open_session e user s
          else (fail 401 "Invalid credentials", s)
      | None => (fail 500 "Internal server error", s)
      end
  end.

Definition signout (sessionId : option string) (s : Server) : Response * Server :=
  match sessionId with
  | Some sid =>
      if String.eqb sid "" then (json JSuccess, s)
      else (json JSuccess, mkServer (delete sid (sessions s)) (db s))
  | None => (json JSuccess, s)
  end.

(** The handler bodies behind [authenticateUser]; [user] is [req.user]. *)
Definition route (e : Entropy) (user : SessionUser) (req : ApiRequest) (s : Server)
  : Response * Server :=
  match req with
  | GetMe => (json (JMe user), s)
  | GetRoutines => (json (JRoutines (Storage.getRoutinesByUserId (su_id user) (db s))), s)
  | PostRoutine None => (fail 400 "Invalid routine data", s)
  | PostRoutine (Some routineData) =>
      match Storage.createRoutine e (su_id user) routineData (db s) with
      | Some (routine, db') => (json (JRoutine routine), set_db s db')
      | None => (fail 400 "Invalid routine data", s)
      end
  | DeleteRoutine id =>
      (json JSuccess, set_db s (Storage.deleteRoutine id (su_id user) (db s)))
  | GetRoutineExercises routineId =>
      (json (JExercises (Storage.getRoutineExercises routineId (db s))), s)
  | PostRoutineExercise None => (fail 400 "Invalid exercise data", s)
  | PostRoutineExercise (Some exerciseData) =>
      match Storage.createRoutineExercise e exerciseData (db s) with
      | Some (exercise, db') => (json (JExercise exercise), set_db s db')
      | None => (fail 400 "Invalid exercise data", s)
      end
  | DeleteRoutineExercise id =>
      (json JSuccess, set_db s (Storage.deleteRoutineExercise id (db s)))
  | GetWorkouts => (json (JWorkouts (Storage.getWorkoutsByUserId (su_id user) (db s))), s)
  | PostWorkout None => (fail 400 "Invalid workout data", s)
  | PostWorkout (Some workoutData) =>
      match Storage.createWorkout e (su_id user) workoutData (db s) with
      | Some (workout, db') => (json (JWorkout (Some workout)), set_db s db')
      | None => (fail 400 "Invalid workout data", s)
      end
  | PatchWorkout id updates =>
      match Storage.updateWorkout id (su_id user) updates (db s) with
      | Some (workout, db') => (json (JWorkout workout), set_db s db')
      | None => (fail 500 "Internal server error", s)
      end
  | PatchWorkoutUntyped id => (fail 500 "Internal server error", s)
  | GetWorkoutSets workoutId =>
      (json (JSets (Storage.getWorkoutSets workoutId (db s))), s)
  | PostWorkoutSet None => (fail 400 "Invalid set data", s)
  | PostWorkoutSet (Some setData) =>
      match Storage.createWorkoutSet e setData (db s) with
      | Some (workoutSet, db') => (json (JSet workoutSet), set_db s db')
      | None => (fail 400 "Invalid set data", s)
      end
  | DeleteWorkoutSet id =>
      (json JSuccess, set_db s (Storage.deleteWorkoutSet id (db s)))
  end.

(** One request against the server: [sessionId] is the [x-session-id]
    header, absent when [None]. *)
Definition handle `{Bcrypt} (sessionId : option string) (e : Entropy)
  (req : Request) (s : Server) : Response * Server :=
  match req with
  | PostSignup data => signup e data s
  | PostSignin username password => signin e username (Some password) s
  | PostSigninUntyped username => signin e username None s
  | PostSignout => signout sessionId s
  | Api req' =>
      match authenticateUser sessionId s with
      | inl res => (res, s)
      | inr user => route e user req' s
      end
  end.

End Routes.

(** ** [client/src/lib/api.ts] *)
Module Api.
Import Routes.

(** A rejected promise carries the thrown [Error]'s message. *)
Definition Result (A : Type) : Type := (string + A)%type.

Record CreateWorkoutData := mkCreateWorkoutData {
  cw_routine_id : string; cw_routine_name : string; cw_start_time : Z }.

(** The methods of [apiClient] that the workout session calls, over the
    state [B] of whatever answers them. *)
Class Backend (B : Type) := {
  createWorkout : CreateWorkoutData -> B -> Result Workout * B;
  updateWorkout : uuid -> Z -> B -> Result unit * B;      (* [{ end_time }] *)
  createWorkoutSet : InsertWorkoutSet -> B -> Result Schema.WorkoutSet * B;
  deleteWorkoutSet : uuid -> B -> Result unit * B }.

(** The express backend as the browser sees it: [apiClient.sessionId], the
    server, and the entropy the server draws at its n-th request.  The
    network delivers every request and answer. *)
Record Express := mkExpress {
  sessionId : option string;
  server : Server;
  entropy : nat -> Entropy;
  served : nat }.

Definition response_ok (res : Response) : bool :=
  (200 <=? status res)%Z && (status res <=? 299)%Z.

(** [ApiClient.request]: the header is only set when [this.sessionId] is
    truthy; a non-ok response is thrown with its [error] text. *)
Definition request `{Bcrypt} (req : Request) (x : Express) : Result Json * Express :=
  let header :=
    match sessionId x with
    | Some sid => if String.eqb sid "" then None else Some sid
    | None => None
    end in
  let '(res, server') := handle header (entropy x (served x)) req (server x) in
  let x' := mkExpress (sessionId x) server' (entropy x) (S (served x)) in
  if response_ok res then (inr (body res), x')
  else match body res with
       | JError msg => (inl (if String.eqb msg "" then "Request failed" else msg), x')
       | _ => (inl "Request failed", x')
       end.

(** Reading the typed value out of the JSON answer.  [res.json(undefined)]
    sends an empty body, on which [response.json()] rejects. *)
Definition unexpected {A} : Result A := inl "Unexpected end of JSON input".

Definition workout_body (data : CreateWorkoutData) : InsertWorkout :=
  mkInsertWorkout (Some (cw_routine_id data)) (cw_routine_name data)
                  (cw_start_time data) None.

#[global] Instance express `{Bcrypt} `{Zod} : Backend Express := {
  createWorkout data x :=
    let '(r, x') :=
      request (Api (PostWorkout (if accepts_workout (workout_body data)
                                 then Some (workout_body data) else None))) x in
    (match r with
     | inl err => inl err
     | inr (JWorkout (Some row)) => inr row
     | inr _ => unexpected
     end, x');
  updateWorkout id end_time x :=
    let '(r, x') :=
      request (Api (PatchWorkout id (mkWorkoutUpdates (SetEndTime (Some end_time)) []))) x in
    (match r with
     | inl err => inl err
     | inr (JWorkout (Some _)) => inr tt
     | inr _ => unexpected
     end, x');
  createWorkoutSet data x :=
    let '(r, x') := request (Api (PostWorkoutSet (if accepts_workout_set data
                                                  then Some data else None))) x in
    (match r with
     | inl err => inl err
     | inr (JSet row) => inr row
     | inr _ => unexpected
     end, x');
  deleteWorkoutSet id x :=
    let '(r, x') := request (Api (DeleteWorkoutSet id)) x in
    (match r with
     | inl err => inl err
     | inr _ => inr tt
     end, x') }.

End Api.

(** ** [client/src/components/WorkoutSession.tsx]

    [handler] is a handler run from its event to its end with every answer
    arriving before anything else happens, and [dispatch] adds the
    [useEffect] on [[activeWorkout, currentExerciseIndex]], which runs when
    one of the two changed.  Events that arrive while a handler waits for
    an answer are the subject of [Overlap] below, of which [dispatch] is
    the schedule without overlap. *)
Module Session.
Import Api.

Record Exercise := mkExercise {
  id : string; name : string; planned_sets : Z; order_index : Z }.

Record Routine := mkRoutine {
  routine_id : string; routine_name : string; exercises : list Exercise }.

Record WorkoutSet := mkWorkoutSet {
  set_id : option string; exercise_name : string;
  weight : Q; reps : Z; rpe : Z; set_number : Z }.

(** [aw_ref] stands for the identity of the object literal, which is what
    the effect's dependency check compares. *)
Record ActiveWorkout := mkActiveWorkout {
  aw_ref : nat; aw_id : string; aw_routine_name : string;
  aw_start_time : Z; aw_exercises : list Exercise }.

Record SetInput := mkSetInput { in_weight : Q; in_reps : Z; in_rpe : Z }.

(** The component's [useState] cells. *)
Record View := mkView {
  user : bool;                                   (* [useAuth().user] is set *)
  routines : list Routine;
  selectedRoutineId : string;
  activeWorkout : option ActiveWorkout;
  workoutSets : list WorkoutSet;
  currentExerciseIndex : Z;
  currentExercise : option Exercise;
  setInputs : list SetInput;
  editingSetId : option string }.

Inductive Call :=
| CallCreateWorkout (data : CreateWorkoutData)
| CallUpdateWorkout (id : uuid) (end_time : Z)
| CallCreateWorkoutSet (data : InsertWorkoutSet)
| CallDeleteWorkoutSet (id : uuid).

(** The component together with what it talks to: [console] collects the
    [console.error] lines, [calls] the API calls in the order issued,
    [refs] is the supply of object identities, and [mounted] turns false
    when an effect throws. *)
Record World (B : Type) := mkWorld {
  view : View;
  backend : B;
  console : list (string * string);
  calls : list Call;
  refs : nat;
  mounted : bool }.
Arguments mkWorld {B}.
Arguments view {B}.
Arguments backend {B}.
Arguments console {B}.
Arguments calls {B}.
Arguments refs {B}.
Arguments mounted {B}.

Definition defaultInput : SetInput := mkSetInput 0 0 5.

(** [set.weight > 0 || set.reps > 0] *)
Definition has_data (w : Q) (r : Z) : bool := negb (Qle_bool w 0) || (0 <? r)%Z.

(** [arr[i]] for an integer [i]. *)
Definition at_index {A} (l : list A) (i : Z) : option A :=
  if (i <? 0)%Z then None else l !! Z.to_nat i.

Definition of_row (row : Schema.WorkoutSet) : WorkoutSet :=
  mkWorkoutSet (Some (ws_id row)) (ws_exercise_name row) (ws_weight row)
               (ws_reps row) (ws_rpe row) (ws_set_number row).

Section Handlers.
Context {B : Type} `{Backend B}.

Definition set_view (f : View -> View) (w : World B) : World B :=
  mkWorld (f (view w)) (backend w) (console w) (calls w) (refs w) (mounted w).

Definition console_error (label err : string) (w : World B) : World B :=
  mkWorld (view w) (backend w) (console w ++ [(label, err)]) (calls w)
          (refs w) (mounted w).

Definition setWorkoutSets (f : list WorkoutSet -> list WorkoutSet) (v : View) : View :=
  mkView (user v) (routines v) (selectedRoutineId v) (activeWorkout v)
         (f (workoutSets v)) (currentExerciseIndex v) (currentExercise v)
         (setInputs v) (editingSetId v).

Definition setCurrentExerciseIndex (f : Z -> Z) (v : View) : View :=
  mkView (user v) (routines v) (selectedRoutineId v) (activeWorkout v)
         (workoutSets v) (f (currentExerciseIndex v)) (currentExercise v)
         (setInputs v) (editingSetId v).

Definition setSetInputs (f : list SetInput -> list SetInput) (v : View) : View :=
  mkView (user v) (routines v) (selectedRoutineId v) (activeWorkout v)
         (workoutSets v) (currentExerciseIndex v) (currentExercise v)
         (f (setInputs v)) (editingSetId v).

Definition setCurrentExercise (x : option Exercise) (v : View) : View :=
  mkView (user v) (routines v) (selectedRoutineId v) (activeWorkout v)
         (workoutSets v) (currentExerciseIndex v) x
         (setInputs v) (editingSetId v).

Definition setActiveWorkout (x : option ActiveWorkout) (v : View) : View :=
  mkView (user v) (routines v) (selectedRoutineId v) x
         (workoutSets v) (currentExerciseIndex v) (currentExercise v)
         (setInputs v) (editingSetId v).

Definition setSelectedRoutineId (x : string) (v : View) : View :=
  mkView (user v) (routines v) x (activeWorkout v)
         (workoutSets v) (currentExerciseIndex v) (currentExercise v)
         (setInputs v) (editingSetId v).

Definition setEditingSetId (x : option string) (v : View) : View :=
  mkView (user v) (routines v) (selectedRoutineId v) (activeWorkout v)
         (workoutSets v) (currentExerciseIndex v) (currentExercise v)
         (setInputs v) x.

(** One API call: logged in [calls], answered by the backend. *)
Definition call {A} (c : Call) (f : B -> Result A * B) (w : World B)
  : Result A * World B :=
  let '(r, b') := f (backend w) in
  (r, mkWorld (view w) b' (console w) (calls w ++ [c]) (refs w) (mounted w)).

(** [Promise.all(xs.map(f))]: every call is issued, in order; the result
    rejects with the first rejection. *)
Fixpoint promise_all {X R} (f : X -> World B -> Result R * World B)
  (xs : list X) (w : World B) : Result (list R) * World B :=
  match xs with
  | [] => (inr [], w)
  | x :: xs' =>
      let '(r, w1) := f x w in
      let '(rs, w2) := promise_all f xs' w1 in
      (match r, rs with
       | inl err, _ => inl err
       | inr _, inl err => inl err
       | inr a, inr l => inr (a :: l)
       end, w2)
  end.

(** The effect that initialises the draft inputs. *)
Definition initEffect (w : World B) : World B :=
  match activeWorkout (view w) with
  | Some aw =>
      if (0 <? Z.of_nat (length (aw_exercises aw)))%Z then
        match at_index (aw_exercises aw) (currentExerciseIndex (view w)) with
        | Some exercise =>
            set_view (fun v =>
              setSetInputs (fun _ => replicate (Z.to_nat (planned_sets exercise)) defaultInput)
                (setCurrentExercise (Some exercise) v)) w
        | None =>
            (* [exercise] is undefined: reading [planned_sets] throws *)
            mkWorld (view w) (backend w) (console w) (calls w) (refs w) false
        end
      else w
  | None => w
  end.

Definition startWorkout (now : Z) (w : World B) : World B :=
  let v := view w in
  if negb (user v) || String.eqb (selectedRoutineId v) "" then w else
  match List.find (fun r => String.eqb (routine_id r) (selectedRoutineId v)) (routines v) with
  | None => w
  | Some selectedRoutine =>
      let data := mkCreateWorkoutData (selectedRoutineId v)
                    (routine_name selectedRoutine) now in
      match call (CallCreateWorkout data) (createWorkout data) w with
      | (inr workout, w') =>
          let aw := mkActiveWorkout (refs w') (w_id workout)
                      (routine_name selectedRoutine) (w_start_time workout)
                      (exercises selectedRoutine) in
          let w'' := set_view (fun v =>
                       setCurrentExerciseIndex (fun _ => 0%Z)
                         (setWorkoutSets (fun _ => [])
                            (setActiveWorkout (Some aw) v))) w' in
          mkWorld (view w'') (backend w'') (console w'') (calls w'')
                  (S (refs w'')) (mounted w'')
      | (inl err, w') => console_error "Error starting workout:" err w'
      end
  end.

Definition setsToSave (aw : ActiveWorkout) (ex : Exercise) (inputs : list SetInput)
  : list InsertWorkoutSet :=
  List.filter (fun set => has_data (iws_weight set) (iws_reps set))
    (imap (fun index input =>
             mkInsertWorkoutSet (aw_id aw) (name ex) (in_weight input)
               (in_reps input) (in_rpe input) (Z.of_nat index + 1))
          inputs).

Definition saveAllSets (w : World B) : World B :=
  match activeWorkout (view w), currentExercise (view w) with
  | Some aw, Some ex =>
      let sets := setsToSave aw ex (setInputs (view w)) in
      if Nat.eqb (length sets) 0 then w else
      match promise_all (fun set => call (CallCreateWorkoutSet set) (createWorkoutSet set))
                        sets w with
      | (inr newSets, w') =>
          set_view (setWorkoutSets (fun prev => prev ++ map of_row newSets)) w'
      | (inl err, w') => console_error "Error saving sets:" err w'
      end
  | _, _ => w
  end.

Definition goToNextExercise (w : World B) : World B :=
  let w' := saveAllSets w in
  match activeWorkout (view w) with
  | Some aw =>
      if (currentExerciseIndex (view w) <? Z.of_nat (length (aw_exercises aw)) - 1)%Z
      then set_view (setCurrentExerciseIndex (fun prev => prev + 1)%Z) w'
      else w'
  | None => w'     (* [activeWorkout!] is null: the handler's promise rejects *)
  end.

Inductive Field := FWeight (value : Q) | FReps (value : Z) | FRpe (value : Z).

Definition put_field (f : Field) (input : SetInput) : SetInput :=
  match f with
  | FWeight q => mkSetInput q (in_reps input) (in_rpe input)
  | FReps z => mkSetInput (in_weight input) z (in_rpe input)
  | FRpe z => mkSetInput (in_weight input) (in_reps input) z
  end.

Definition updateSetInput (setIndex : nat) (f : Field) (w : World B) : World B :=
  set_view (setSetInputs (fun prev =>
    imap (fun index input => if Nat.eqb index setIndex then put_field f input else input)
         prev)) w.

Definition goToPreviousExercise (w : World B) : World B :=
  if (0 <? currentExerciseIndex (view w))%Z then
    let w' := saveAllSets w in
    set_view (setCurrentExerciseIndex (fun prev => prev - 1)%Z) w'
  else w.

Definition selectExercise (exerciseIndex : Z) (w : World B) : World B :=
  if negb (exerciseIndex =? currentExerciseIndex (view w))%Z then
    let w' := saveAllSets w in
    set_view (setCurrentExerciseIndex (fun _ => exerciseIndex)) w'
  else w.

Definition same_slot (ex : Exercise) (setIndex : nat) (set : WorkoutSet) : bool :=
  String.eqb (exercise_name set) (name ex)
  && (set_number set =? Z.of_nat setIndex + 1)%Z.

Definition saveSetOnBlur (setIndex : nat) (w : World B) : World B :=
  match activeWorkout (view w), currentExercise (view w) with
  | Some aw, Some ex =>
      match setInputs (view w) !! setIndex with
      | None => w            (* [setData] is undefined: the promise rejects *)
      | Some setData =>
          if has_data (in_weight setData) (in_reps setData) then
            let data := mkInsertWorkoutSet (aw_id aw) (name ex) (in_weight setData)
                          (in_reps setData) (in_rpe setData)
                          (Z.of_nat setIndex + 1) in
            match call (CallCreateWorkoutSet data) (createWorkoutSet data) w with
            | (inr workoutSet, w') =>
                set_view (setWorkoutSets (fun prev =>
                  List.filter (fun set => negb (same_slot ex setIndex set)) prev
                  ++ [of_row workoutSet])) w'
            | (inl err, w') => console_error "Error saving set:" err w'
            end
          else w
      end
  | _, _ => w
  end.

(** [set.id !== setId] *)
Definition id_differs (setId : string) (set : WorkoutSet) : bool :=
  match set_id set with
  | Some i => negb (String.eqb i setId)
  | None => true
  end.

Definition deleteSet (setId : string) (w : World B) : World B :=
  match call (CallDeleteWorkoutSet setId) (deleteWorkoutSet setId) w with
  | (inr _, w') => set_view (setWorkoutSets (List.filter (id_differs setId))) w'
  | (inl err, w') => console_error "Error deleting set:" err w'
  end.

(** [Partial<WorkoutSet>], at the fields the edit form passes. *)
Record SetUpdates := mkSetUpdates {
  su_weight : option Q; su_reps : option Z; su_rpe : option Z }.

Definition merge_updates (updates : SetUpdates) (set : WorkoutSet) : WorkoutSet :=
  mkWorkoutSet (set_id set) (exercise_name set)
    (default (weight set) (su_weight updates))
    (default (reps set) (su_reps updates))
    (default (rpe set) (su_rpe updates))
    (set_number set).

Definition updateSet (setId : string) (updates : SetUpdates) (w : World B) : World B :=
  set_view (fun v =>
    setEditingSetId None
      (setWorkoutSets
         (map (fun set => if id_differs setId set then set else merge_updates updates set))
         v)) w.

Definition finishWorkout (now : Z) (w : World B) : World B :=
  match activeWorkout (view w) with
  | None => w
  | Some aw =>
      let w1 := saveAllSets w in
      match call (CallUpdateWorkout (aw_id aw) now) (updateWorkout (aw_id aw) now) w1 with
      | (inr _, w2) =>
          set_view (fun v =>
            setSelectedRoutineId ""
              (setSetInputs (fun _ => [])
                 (setCurrentExercise None
                    (setCurrentExerciseIndex (fun _ => 0%Z)
                       (setWorkoutSets (fun _ => [])
                          (setActiveWorkout None v)))))) w2
      | (inl err, w2) => console_error "Error finishing workout:" err w2
      end
  end.

(** What the user (or the browser) can make the component do. *)
Inductive Event :=
| ChooseRoutine (routineId : string)
| StartWorkout (now : Z)
| UpdateSetInput (setIndex : nat) (f : Field)
| SaveSetOnBlur (setIndex : nat)
| SaveAllSets
| GoToNextExercise
| GoToPreviousExercise
| SelectExercise (exerciseIndex : Z)
| DeleteSet (setId : string)
| UpdateSet (setId : string) (updates : SetUpdates)
| EditSet (setId : option string)
| FinishWorkout (now : Z).

Definition handler (ev : Event) (w : World B) : World B :=
  match ev with
  | ChooseRoutine routineId => set_view (setSelectedRoutineId routineId) w
  | StartWorkout now => startWorkout now w
  | UpdateSetInput setIndex f => updateSetInput setIndex f w
  | SaveSetOnBlur setIndex => saveSetOnBlur setIndex w
  | SaveAllSets => saveAllSets w
  | GoToNextExercise => goToNextExercise w
  | GoToPreviousExercise => goToPreviousExercise w
  | SelectExercise exerciseIndex => selectExercise exerciseIndex w
  | DeleteSet setId => deleteSet setId w
  | UpdateSet setId updates => updateSet setId updates w
  | EditSet setId => set_view (setEditingSetId setId) w
  | FinishWorkout now => finishWorkout now w
  end.

(** The effect's dependency array, compared as React does. *)
Definition deps (w : World B) : option nat * Z :=
  (aw_ref <$> activeWorkout (view w), currentExerciseIndex (view w)).

Definition deps_changed (w w' : World B) : bool :=
  negb (bool_decide (deps w = deps w')).

Definition dispatch (ev : Event) (w : World B) : World B :=
  if mounted w then
    let w' := handler ev w in
    if deps_changed w w' then initEffect w' else w'
  else w.

Definition run (evs : list Event) (w : World B) : World B :=
  fold_left (fun w ev => dispatch ev w) evs w.

End Handlers.
End Session.

(** ** Handlers that overlap

    The handlers are [async].  One that awaits an API call returns to the
    event loop until the answer arrives, and the page handles other events
    meanwhile.  Its continuation then runs with the cells its closure
    captured in the render of the click (a [currentExerciseIndex] or an
    [activeWorkout] that may be stale by then) and writes the state through
    the setters.  An [await] with nothing to wait for ([saveAllSets]
    returning before its first call) resumes in a microtask, before any
    other event is taken.  A call is answered by the backend when it is
    issued; the answer reaches the page when the schedule says so. *)
Module Overlap.
Import Api Session.

(** What the caller of [saveAllSets] does once it has returned, with the
    cells it captured. *)
Inductive Rest :=
| RestNone
| RestNext (index : Z) (aw : option ActiveWorkout)
| RestPrevious
| RestSelect (exerciseIndex : Z)
| RestFinish (aw : ActiveWorkout) (now : Z).

(** A handler suspended at an [await]: what its closure captured and the
    answer that will resolve the promise. *)
Inductive Flight :=
| AwaitCreateWorkout (selectedRoutine : Routine) (answer : Result Workout)
| AwaitSaveAllSets (answer : Result (list Schema.WorkoutSet)) (rest : Rest)
| AwaitCreateWorkoutSet (ex : Exercise) (setIndex : nat)
                        (answer : Result Schema.WorkoutSet)
| AwaitDeleteWorkoutSet (setId : string) (answer : Result unit)
| AwaitUpdateWorkout (answer : Result unit).

Section Steps.
Context {B : Type} `{Backend B}.

(** [saveAllSets] up to its [await]: [None] when it returns before any
    call, otherwise the calls are issued. *)
Definition saveAllSets_begin (w : World B)
  : option (Result (list Schema.WorkoutSet)) * World B :=
  match activeWorkout (view w), currentExercise (view w) with
  | Some aw, Some ex =>
      let sets := setsToSave aw ex (setInputs (view w)) in
      if Nat.eqb (length sets) 0 then (None, w) else
      let '(r, w') :=
        promise_all (fun set => call (CallCreateWorkoutSet set) (createWorkoutSet set))
                    sets w in
      (Some r, w')
  | _, _ => (None, w)
  end.

(** [saveAllSets] from the answer on. *)
Definition saveAllSets_end (answer : Result (list Schema.WorkoutSet)) (w : World B)
  : World B :=
  match answer with
  | inr newSets => set_view (setWorkoutSets (fun prev => prev ++ map of_row newSets)) w
  | inl err => console_error "Error saving sets:" err w
  end.

Definition after_save (rest : Rest) (w : World B) : World B * option Flight :=
  match rest with
  | RestNone => (w, None)
  | RestNext index (Some aw) =>
      (if (index <? Z.of_nat (length (aw_exercises aw)) - 1)%Z
       then set_view (setCurrentExerciseIndex (fun prev => prev + 1)%Z) w
       else w, None)
  | RestNext _ None => (w, None)
  | RestPrevious => (set_view (setCurrentExerciseIndex (fun prev => prev - 1)%Z) w, None)
  | RestSelect exerciseIndex =>
      (set_view (setCurrentExerciseIndex (fun _ => exerciseIndex)) w, None)
  | RestFinish aw now =>
      let '(r, w') :=
        call (CallUpdateWorkout (aw_id aw) now) (updateWorkout (aw_id aw) now) w in
      (w', Some (AwaitUpdateWorkout r))
  end.

Definition save_then (rest : Rest) (w : World B) : World B * option Flight :=
  match saveAllSets_begin w with
  | (None, w') => after_save rest w'
  | (Some answer, w') => (w', Some (AwaitSaveAllSets answer rest))
  end.

(** A handler from its event to its first [await] of an answer. *)
Definition click (ev : Event) (w : World B) : World B * option Flight :=
  match ev with
  | StartWorkout now =>
      let v := view w in
      if negb (user v) || String.eqb (selectedRoutineId v) "" then (w, None) else
      match List.find (fun r => String.eqb (routine_id r) (selectedRoutineId v))
                      (routines v) with
      | None => (w, None)
      | Some selectedRoutine =>
          let data := mkCreateWorkoutData (selectedRoutineId v)
                        (routine_name selectedRoutine) now in
          let '(r, w') := call (CallCreateWorkout data) (createWorkout data) w in
          (w', Some (AwaitCreateWorkout selectedRoutine r))
      end
  | SaveSetOnBlur setIndex =>
      match activeWorkout (view w), currentExercise (view w) with
      | Some aw, Some ex =>
          match setInputs (view w) !! setIndex with
          | None => (w, None)
          | Some setData =>
              if has_data (in_weight setData) (in_reps setData) then
                let data := mkInsertWorkoutSet (aw_id aw) (name ex) (in_weight setData)
                              (in_reps setData) (in_rpe setData)
                              (Z.of_nat setIndex + 1) in
                let '(r, w') :=
                  call (CallCreateWorkoutSet data) (createWorkoutSet data) w in
                (w', Some (AwaitCreateWorkoutSet ex setIndex r))
              else (w, None)
          end
      | _, _ => (w, None)
      end
  | SaveAllSets => save_then RestNone w
  | GoToNextExercise =>
      save_then (RestNext (currentExerciseIndex (view w)) (activeWorkout (view w))) w
  | GoToPreviousExercise =>
      if (0 <? currentExerciseIndex (view w))%Z then save_then RestPrevious w
      else (w, None)
  | SelectExercise exerciseIndex =>
      if negb (exerciseIndex =? currentExerciseIndex (view w))%Z
      then save_then (RestSelect exerciseIndex) w
      else (w, None)
  | DeleteSet setId =>
      let '(r, w') := call (CallDeleteWorkoutSet setId) (deleteWorkoutSet setId) w in
      (w', Some (AwaitDeleteWorkoutSet setId r))
  | FinishWorkout now =>
      match activeWorkout (view w) with
      | None => (w, None)
      | Some aw => save_then (RestFinish aw now) w
      end
  | ChooseRoutine _ | UpdateSetInput _ _ | UpdateSet _ _ | EditSet _ =>
      (handler ev w, None)
  end.

(** A suspended handler from the answer on, to its end or its next
    [await]. *)
Definition resume (fl : Flight) (w : World B) : World B * option Flight :=
  match fl with
  | AwaitCreateWorkout selectedRoutine (inr workout) =>
      let aw := mkActiveWorkout (refs w) (w_id workout)
                  (routine_name selectedRoutine) (w_start_time workout)
                  (exercises selectedRoutine) in
      let w' := set_view (fun v =>
                  setCurrentExerciseIndex (fun _ => 0%Z)
                    (setWorkoutSets (fun _ => [])
                       (setActiveWorkout (Some aw) v))) w in
      (mkWorld (view w') (backend w') (console w') (calls w') (S (refs w')) (mounted w'),
       None)
  | AwaitCreateWorkout _ (inl err) => (console_error "Error starting workout:" err w, None)
  | AwaitSaveAllSets answer rest => after_save rest (saveAllSets_end answer w)
  | AwaitCreateWorkoutSet ex setIndex (inr workoutSet) =>
      (set_view (setWorkoutSets (fun prev =>
         List.filter (fun set => negb (same_slot ex setIndex set)) prev
         ++ [of_row workoutSet])) w, None)
  | AwaitCreateWorkoutSet _ _ (inl err) => (console_error "Error saving set:" err w, None)
  | AwaitDeleteWorkoutSet setId (inr _) =>
      (set_view (setWorkoutSets (List.filter (id_differs setId))) w, None)
  | AwaitDeleteWorkoutSet _ (inl err) => (console_error "Error deleting set:" err w, None)
  | AwaitUpdateWorkout (inr _) =>
      (set_view (fun v =>
         setSelectedRoutineId ""
           (setSetInputs (fun _ => [])
              (setCurrentExercise None
                 (setCurrentExerciseIndex (fun _ => 0%Z)
                    (setWorkoutSets (fun _ => [])
                       (setActiveWorkout None v)))))) w, None)
  | AwaitUpdateWorkout (inl err) => (console_error "Error finishing workout:" err w, None)
  end.

(** The page and the handlers that wait for an answer, oldest first. *)
Record Live := mkLive { world : World B; inflight : list Flight }.

(** React after a step: the state updates of an unmounted component are
    dropped; otherwise the effect runs when one of its dependencies
    changed. *)
Definition settle (before after : World B) : World B :=
  if mounted before then
    if deps_changed before after then initEffect after else after
  else mkWorld (view before) (backend after) (console after) (calls after)
               (refs after) false.

(** What happens next: the user's event, or the answer for the [k]-th
    waiting handler. *)
Inductive Step := Click (ev : Event) | Answer (k : nat).

Definition step (st : Step) (p : Live) : Live :=
  match st with
  | Click ev =>
      if mounted (world p) then
        let '(w', fl) := click ev (world p) in
        mkLive (settle (world p) w') (inflight p ++ option_list fl)
      else p
  | Answer k =>
      match inflight p !! k with
      | None => p
      | Some fl =>
          let '(w', fl') := resume fl (world p) in
          mkLive (settle (world p) w') (delete k (inflight p) ++ option_list fl')
      end
  end.

Definition steps (sts : list Step) (p : Live) : Live :=
  fold_left (fun p st => step st p) sts p.

(** The schedule of [dispatch]: every answer arrives before the next
    event.  A handler awaits at most twice. *)
Definition uninterrupted (ev : Event) : list Step := [Click ev; Answer 0; Answer 0].

Definition serial (evs : list Event) : list Step := concat (map uninterrupted evs).

End Steps.
Arguments Live : clear implicits.
Arguments mkLive {B}.
Arguments world {B}.
Arguments inflight {B}.

End Overlap.

(** ** Vocabulary for the statements *)
Module Observe.
Import Routes.

(** One request as the server receives it: header, entropy, request. *)
Definition Incoming : Type := (option string * Entropy * Request)%type.

Definition serve `{Bcrypt} (trace : list Incoming) (s : Server) : Server :=
  fold_left (fun s hr => snd (handle hr.1.1 hr.1.2 hr.2 s)) trace s.

(** The request is the signout that carries [tok]. *)
Definition signs_out (tok : string) (hr : Incoming) : bool :=
  match hr with
  | (Some sid, _, PostSignout) => String.eqb sid tok
  | _ => false
  end.

(** The request is a signup or signin whose generated session id is [tok]. *)
Definition mints (tok : string) (hr : Incoming) : bool :=
  match hr.2 with
  | PostSignup _ | PostSignin _ _ => String.eqb (generateSessionId hr.1.2) tok
  | _ => false
  end.

(** The header is missing or names no session of the registry. *)
Definition unknown (hdr : option string) (s : Server) : Prop :=
  match hdr with
  | None => True
  | Some sid => sessions s !! sid = None
  end.

(** The user a row belongs to, reached through the owning chain
    (exercise -> routine -> user, set -> workout -> user). *)
Definition exercise_owner (d : DB) (x : RoutineExercise) : option uuid :=
  r_user_id <$> List.find (fun r => String.eqb (r_id r) (re_routine_id x)) (routines d).

Definition set_owner (d : DB) (x : WorkoutSet) : option uuid :=
  w_user_id <$> List.find (fun w => String.eqb (w_id w) (ws_workout_id x)) (workouts d).

(** The user the express backend will attach to the browser's requests. *)
Definition session_user (x : Api.Express) : option SessionUser :=
  match Api.sessionId x with
  | Some tok => if String.eqb tok "" then None else sessions (Api.server x) !! tok
  | None => None
  end.

(** The uuids the server draws at its next [k] requests. *)
Definition draws (x : Api.Express) (k : nat) : list uuid :=
  map (fun i => e_uuid (Api.entropy x (Api.served x + i)%nat)) (seq 0 k).

(** The backend after [k] more requests that changed nothing on the
    server. *)
Definition answered (x : Api.Express) (k : nat) : Api.Express :=
  Api.mkExpress (Api.sessionId x) (Api.server x) (Api.entropy x) (Api.served x + k).

(** A draft slot is populated: [weight > 0] or [reps > 0]. *)
Definition populated (input : Session.SetInput) : Prop :=
  (0 < Session.in_weight input)%Q \/ (0 < Session.in_reps input)%Z.

(** The navigation events under which the handler calls [saveAllSets]. *)
Definition flushes {B} (ev : Session.Event) (w : Session.World B) : bool :=
  match ev with
  | Session.GoToNextExercise => true
  | Session.GoToPreviousExercise =>
      (0 <? Session.currentExerciseIndex (Session.view w))%Z
  | Session.SelectExercise i =>
      negb (i =? Session.currentExerciseIndex (Session.view w))%Z
  | _ => false
  end.

End Observe.

(** ** Vocabulary for the statements about the component *)
Module Terms.
Import Routes Api Session.

(** What [saveAllSets] builds for draft slot [index]. *)
Definition draft (aw : ActiveWorkout) (ex : Exercise) (index : nat) (input : SetInput)
  : InsertWorkoutSet :=
  mkInsertWorkoutSet (aw_id aw) (name ex) (in_weight input) (in_reps input)
                     (in_rpe input) (Z.of_nat index + 1).

(** The items a flush would send now: the populated drafts of the exercise
    under the cursor, none when no workout is active or no exercise is
    current. *)
Definition pending {B} (w : World B) : list InsertWorkoutSet :=
  match activeWorkout (view w), currentExercise (view w) with
  | Some aw, Some ex => setsToSave aw ex (setInputs (view w))
  | _, _ => []
  end.

(** [w'] differs from [w] at most in the backend and the call log. *)
Definition same_frame {B} (w w' : World B) : Prop :=
  view w' = view w /\ refs w' = refs w /\ mounted w' = mounted w
  /\ console w' = console w.

(** How [handler] splits at its awaits: it has none, or one, or two; the
    halves put one after the other are the handler. *)
Definition splits {B} `{Backend B} (ev : Event) (w : World B) : Prop :=
  Overlap.click ev w = (handler ev w, None)
  \/ (exists w1 fl,
        Overlap.click ev w = (w1, Some fl) /\ same_frame w w1
        /\ Overlap.resume fl w1 = (handler ev w, None))
  \/ (exists w1 fl w2 fl2,
        Overlap.click ev w = (w1, Some fl) /\ same_frame w w1
        /\ Overlap.resume fl w1 = (w2, Some fl2)
        /\ deps w2 = deps w /\ mounted w2 = mounted w
        /\ Overlap.resume fl2 w2 = (handler ev w, None)).

(** What a set-creation call leaves alone, whatever the schema says to
    it. *)
Definition same_workouts (x x' : Express) : Prop :=
  sessionId x' = sessionId x
  /\ sessions (server x') = sessions (server x)
  /\ workouts (db (server x')) = workouts (db (server x)).

(** The cursor is inside the active workout's exercise list, when that list
    is not empty. *)
Definition in_bounds {B} (w : World B) : Prop :=
  match activeWorkout (view w) with
  | Some aw =>
      aw_exercises aw = []
      \/ (0 <= currentExerciseIndex (view w) <= Z.of_nat (length (aw_exercises aw)) - 1)%Z
  | None => True
  end.

(** [SelectExercise] comes from the [<select>], whose options are the
    indices of the active workout's exercises. *)
Definition offered {B} (ev : Event) (w : World B) : bool :=
  match ev with
  | SelectExercise i =>
      match activeWorkout (view w) with
      | Some aw => (0 <=? i)%Z && (i <? Z.of_nat (length (aw_exercises aw)))%Z
      | None => false
      end
  | _ => true
  end.

Fixpoint all_offered {B} `{Backend B} (evs : list Event) (w : World B) : bool :=
  match evs with
  | [] => true
  | ev :: evs' => offered ev w && all_offered evs' (dispatch ev w)
  end.

(** What the rendered page lets through: the start button exists only
    while no workout is active, and the [<select>] offers the indices of the
    active workout's exercises. *)
Definition enabled {B} (ev : Event) (w : World B) : bool :=
  match ev with
  | StartWorkout _ =>
      match activeWorkout (view w) with None => true | Some _ => false end
  | _ => offered ev w
  end.

Fixpoint all_enabled {B} `{Backend B} (evs : list Event) (w : World B) : bool :=
  match evs with
  | [] => true
  | ev :: evs' => enabled ev w && all_enabled evs' (dispatch ev w)
  end.

(** The view is consistent: with no active workout there is neither a
    current exercise nor a draft; with one, the current exercise is the one
    under the cursor and has one draft per planned set (or the exercise
    list is empty, the cursor is 0, and there is neither). *)
Definition synced {B} (w : World B) : Prop :=
  mounted w = true ->
  match activeWorkout (view w) with
  | None => currentExercise (view w) = None /\ setInputs (view w) = []
  | Some aw =>
      (aw_ref aw < refs w)%nat
      /\ match at_index (aw_exercises aw) (currentExerciseIndex (view w)) with
         | Some ex =>
             currentExercise (view w) = Some ex
             /\ length (setInputs (view w)) = Z.to_nat (planned_sets ex)
         | None =>
             aw_exercises aw = [] /\ currentExerciseIndex (view w) = 0%Z
             /\ currentExercise (view w) = None /\ setInputs (view w) = []
         end
  end.

(** Events whose handlers touch neither the active workout nor the cursor. *)
Definition quiet (ev : Event) : bool :=
  match ev with
  | StartWorkout _ | GoToNextExercise | GoToPreviousExercise
  | SelectExercise _ | FinishWorkout _ => false
  | _ => true
  end.

(** Where a navigation event puts the cursor. *)
Definition target {B} (ev : Event) (w : World B) : Z :=
  let i := currentExerciseIndex (view w) in
  match ev, activeWorkout (view w) with
  | GoToNextExercise, Some aw =>
      if (i <? Z.of_nat (length (aw_exercises aw)) - 1)%Z then (i + 1)%Z else i
  | GoToPreviousExercise, _ => if (0 <? i)%Z then (i - 1)%Z else i
  | SelectExercise j, _ => j
  | _, _ => i
  end.

(** The workout [wid] is stored and completed: it has a row, and every row
    bearing its id has an [end_time]. *)
Definition completed (wid : uuid) (d : DB) : Prop :=
  (exists r, In r (workouts d) /\ w_id r = wid)
  /\ forall r, In r (workouts d) -> w_id r = wid -> w_end_time r <> None.

(** The primary keys of [routines] and [workouts] hold. *)
Definition keyed (d : DB) : Prop :=
  NoDup (map r_id (Schema.routines d)) /\ NoDup (map w_id (workouts d)).

(** The requests that leave a completed workout completed: all but a
    [PATCH /api/workouts/:id] with another body than [{ end_time }]
    carrying a timestamp, the one [PATCH] body [apiClient] is called
    with. *)
Definition keeps_closed (req : ApiRequest) : bool :=
  match req with
  | PatchWorkout _ (mkWorkoutUpdates (SetEndTime (Some _)) []) => true
  | PatchWorkout _ _ => false
  | _ => true
  end.

(** Finished for good: the stored workout is completed and is not the
    component's active workout. *)
Definition closed (wid : uuid) (w : World Express) : Prop :=
  completed wid (db (server (backend w)))
  /\ forall aw, activeWorkout (view w) = Some aw -> aw_id aw <> wid.

(** The same on a page with handlers waiting: none of them is a
    [startWorkout] that was answered with this workout. *)
Definition shut (wid : uuid) (p : Overlap.Live Express) : Prop :=
  closed wid (Overlap.world p)
  /\ forall selectedRoutine row,
       In (Overlap.AwaitCreateWorkout selectedRoutine (inr row)) (Overlap.inflight p) ->
       w_id row <> wid.

End Terms.

(** ** Data for the concrete runs

    A stand-in for bcryptjs that keeps the password readable, an entropy
    source that numbers its draws, and a server reached from the empty one
    by requests only. *)
Module Fixture.
Import Routes.

Definition plain_bcrypt : Bcrypt :=
  {| bcrypt_hash salt password := (salt ++ "$" ++ password)%string;
     bcrypt_compare password hash :=
       existsb (fun salt => String.eqb (salt ++ "$" ++ password)%string hash)
               ["s0"; "s1"] |}.

Definition draw (n : nat) : Entropy :=
  mkEntropy ("id-" ++ toString36 (N.of_nat n))%string
            ("k" ++ toString36 (N.of_nat n))%string
            (1750000000000 + N.of_nat n)
            (if Nat.even n then "s0" else "s1").

Definition serve1 (st : nat * Server) (hr : option string * Request) : nat * Server :=
  (S (fst st), snd (@handle plain_bcrypt (fst hr) (draw (fst st)) (snd hr) (snd st))).

Definition serve_from (st : nat * Server) (l : list (option string * Request))
  : nat * Server :=
  fold_left serve1 l st.

Definition ann_token : string := generateSessionId (draw 0).
Definition bob_token : string := generateSessionId (draw 1).

(** ann and bob sign up; ann creates a routine with one exercise, starts a
    workout from it and logs one set; bob creates a routine with one
    exercise; ann adds a second exercise to hers. *)
Definition seeded : nat * Server :=
  serve_from (O, mkServer ∅ emptyDB)
    [ (None, PostSignup (Some (mkInsertUser "ann" "pw-a")));
      (None, PostSignup (Some (mkInsertUser "bob" "pw-b")));
      (Some ann_token, Api (PostRoutine (Some (mkInsertRoutine "push day"))));
      (Some ann_token, Api (PostRoutineExercise
         (Some (mkInsertRoutineExercise "id-2" "bench press" 2 0))));
      (Some ann_token, Api (PostWorkout
         (Some (mkInsertWorkout (Some "id-2") "push day" 1750000000100 None))));
      (Some ann_token, Api (PostWorkoutSet
         (Some (mkInsertWorkoutSet "id-4" "bench press" 135 5 7 1))));
      (Some bob_token, Api (PostRoutine (Some (mkInsertRoutine "leg day"))));
      (Some bob_token, Api (PostRoutineExercise
         (Some (mkInsertRoutineExercise "id-6" "squat" 3 0))));
      (Some ann_token, Api (PostRoutineExercise
         (Some (mkInsertRoutineExercise "id-2" "overhead press" 1 1)))) ].

Definition ann : User := mkUser "id-0" "ann" "s0$pw-a".
Definition push_day : Schema.Routine := Schema.mkRoutine "id-2" "id-0" "push day".

#[local] Existing Instance plain_bcrypt.
#[local] Existing Instance Wire.repository.

(** The browser: ann's tab, the routine list as [fetchRoutines] loaded it,
    nothing selected. *)

Definition browser (tok : option string) : Api.Express :=
  Api.mkExpress tok (snd seeded) draw (fst seeded).

Definition bench : Session.Exercise := Session.mkExercise "id-3" "bench press" 2 0.
Definition press : Session.Exercise := Session.mkExercise "id-8" "overhead press" 1 1.

Definition idle : Session.World Api.Express :=
  Session.mkWorld
    (Session.mkView true [Session.mkRoutine "id-2" "push day" [bench; press]]
                    "" None [] 0 None [] None)
    (browser (Some ann_token)) [] [] 0 true.

Definition chosen : Session.World Api.Express :=
  Session.run [Session.ChooseRoutine "id-2"] idle.

Definition started : Session.World Api.Express :=
  Session.run [Session.StartWorkout 1750000000200] chosen.

(** 135 x 5 typed into the first slot of the bench press; the second slot
    left untouched. *)
Definition drafted : Session.World Api.Express :=
  Session.run [Session.UpdateSetInput 0 (Session.FWeight 135);
               Session.UpdateSetInput 0 (Session.FReps 5)] started.

Definition session_workout : Session.ActiveWorkout :=
  Session.mkActiveWorkout 0 "id-9" "push day" 1750000000200 [bench; press].

(** The same page with one set in its recorded list, the stored row
    [id-5]. *)
Definition recorded : Session.World Api.Express :=
  Session.set_view
    (Session.setWorkoutSets
       (fun _ => [Session.mkWorkoutSet (Some "id-5") "bench press" 135 5 7 1]))
    drafted.

(** The same tab after its session id was lost: every call is answered 401. *)
Definition offline : Session.World Api.Express :=
  Session.mkWorld (Session.view drafted)
    (Api.mkExpress None (Api.server (Session.backend drafted)) draw
                   (Api.served (Session.backend drafted)))
    (Session.console drafted) (Session.calls drafted) (Session.refs drafted) true.

End Fixture.

(** ** Vocabulary for the statements about the store *)
Module Integrity.
Import Routes.

(** The primary keys of the five tables and [unique()] on [username]. *)
Definition keys (d : DB) : Prop :=
  NoDup (map u_id (users d)) /\ NoDup (map u_username (users d))
  /\ NoDup (map r_id (routines d)) /\ NoDup (map re_id (routine_exercises d))
  /\ NoDup (map w_id (workouts d)) /\ NoDup (map ws_id (workout_sets d)).

(** The [references()] of the schema: every row's parent is stored. *)
Definition references (d : DB) : Prop :=
  (forall r, In r (routines d) -> In (r_user_id r) (map u_id (users d)))
  /\ (forall x, In x (routine_exercises d) ->
        In (re_routine_id x) (map r_id (routines d)))
  /\ (forall w, In w (workouts d) ->
        In (w_user_id w) (map u_id (users d))
        /\ forall rid, w_routine_id w = Some rid -> In rid (map r_id (routines d)))
  /\ (forall x, In x (workout_sets d) -> In (ws_workout_id x) (map w_id (workouts d))).

(** Every entry of the registry is kept under a non-empty token and names
    a stored user by id and username. *)
Definition registry_sound (s : Server) : Prop :=
  forall tok su, sessions s !! tok = Some su ->
    tok <> ""
    /\ exists u, In u (users (db s)) /\ u_id u = su_id su
                 /\ u_username u = su_username su.

(** The columns of a workout other than [routine_id]. *)
Definition own_columns (w : Workout) : uuid * uuid * string * Z * option Z :=
  (w_id w, w_user_id w, w_routine_name w, w_start_time w, w_end_time w).


End Integrity.

(** ** [client/src/lib/api.ts]: the reading methods *)
Module Reads.
Import Routes Api.

(** The methods of [apiClient] that only read, over the state [B] of
    whatever answers them. *)
Class Reader (B : Type) := {
  getRoutines : B -> Result (list Schema.Routine) * B;
  getRoutineExercises : uuid -> B -> Result (list RoutineExercise) * B;
  getWorkouts : B -> Result (list Workout) * B;
  getWorkoutSets : uuid -> B -> Result (list Schema.WorkoutSet) * B }.

#[global] Instance express_reader `{Bcrypt} : Reader Express := {
  getRoutines x :=
    let '(r, x') := request (Api GetRoutines) x in
    (match r with
     | inl err => inl err
     | inr (JRoutines rows) => inr rows
     | inr _ => unexpected
     end, x');
  getRoutineExercises routineId x :=
    let '(r, x') := request (Api (GetRoutineExercises routineId)) x in
    (match r with
     | inl err => inl err
     | inr (JExercises rows) => inr rows
     | inr _ => unexpected
     end, x');
  getWorkouts x :=
    let '(r, x') := request (Api GetWorkouts) x in
    (match r with
     | inl err => inl err
     | inr (JWorkouts rows) => inr rows
     | inr _ => unexpected
     end, x');
  getWorkoutSets workoutId x :=
    let '(r, x') := request (Api (GetWorkoutSets workoutId)) x in
    (match r with
     | inl err => inl err
     | inr (JSets rows) => inr rows
     | inr _ => unexpected
     end, x') }.

End Reads.

(** ** [WorkoutSession.tsx]: loading the routines *)
Module Loading.
Import Routes Api Session Reads.

Definition setRoutines (x : list Routine) (v : View) : View :=
  mkView (user v) x (selectedRoutineId v) (activeWorkout v)
         (workoutSets v) (currentExerciseIndex v) (currentExercise v)
         (setInputs v) (editingSetId v).

(** The fields of an exercise row that the [Exercise] interface names. *)
Definition of_exercise (x : RoutineExercise) : Exercise :=
  mkExercise (re_id x) (re_name x) (re_planned_sets x) (re_order_index x).

Section Fetch.
Context {B : Type} `{Reader B}.

(** One reading call, answered by the backend (the [calls] log keeps to
    the calls of the session's handlers). *)
Definition read {A} (f : B -> Result A * B) (w : World B) : Result A * World B :=
  let '(r, b') := f (backend w) in
  (r, mkWorld (view w) b' (console w) (calls w) (refs w) (mounted w)).

(** [async (routine) => ({ ...routine, exercises })] *)
Definition with_exercises (routine : Schema.Routine) (w : World B)
  : Result Routine * World B :=
  let '(r, w') := read (getRoutineExercises (r_id routine)) w in
  (match r with
   | inl err => inl err
   | inr exercises =>
       inr (mkRoutine (r_id routine) (r_name routine) (map of_exercise exercises))
   end, w').

(** [loading] is the component's remaining [useState] cell. *)
Definition fetchRoutines (loading : bool) (w : World B) : bool * World B :=
  if negb (user (view w)) then (loading, w) else
  match read getRoutines w with
  | (inr routinesData, w1) =>
      match promise_all with_exercises routinesData w1 with
      | (inr routinesWithExercises, w2) =>
          (false, set_view (setRoutines routinesWithExercises) w2)
      | (inl err, w2) => (false, console_error "Error fetching routines:" err w2)
      end
  | (inl err, w1) => (false, console_error "Error fetching routines:" err w1)
  end.

End Fetch.
End Loading.

(** ** [WorkoutHistory] (the component over [apiClient]) *)
Module History.
Import Routes Api Reads.

(** [{ ...workout, sets }] *)
Record CompletedWorkout := mkCompletedWorkout {
  cw_row : Workout; sets : list Schema.WorkoutSet }.

Record Page (B : Type) := mkPage {
  user : bool;                                  (* [useAuth().user] is set *)
  workouts : list CompletedWorkout;
  loading : bool;
  expandedWorkout : option string;
  backend : B;
  console : list (string * string) }.
Arguments mkPage {B}.
Arguments user {B}.
Arguments workouts {B}.
Arguments loading {B}.
Arguments expandedWorkout {B}.
Arguments backend {B}.
Arguments console {B}.

(** [workout.end_time] is truthy. *)
Definition is_completed (workout : Workout) : bool :=
  match w_end_time workout with Some _ => true | None => false end.

Section Fetch.
Context {B : Type} `{Reader B}.

(** [Promise.all(xs.map(f))] *)
Fixpoint promise_all {X R} (f : X -> B -> Result R * B) (xs : list X) (b : B)
  : Result (list R) * B :=
  match xs with
  | [] => (inr [], b)
  | x :: xs' =>
      let '(r, b1) := f x b in
      let '(rs, b2) := promise_all f xs' b1 in
      (match r, rs with
       | inl err, _ => inl err
       | inr _, inl err => inl err
       | inr a, inr l => inr (a :: l)
       end, b2)
  end.

Definition with_sets (workout : Workout) (b : B) : Result CompletedWorkout * B :=
  let '(r, b') := getWorkoutSets (w_id workout) b in
  (match r with
   | inl err => inl err
   | inr sets => inr (mkCompletedWorkout workout sets)
   end, b').

Definition fetchWorkouts (p : Page B) : Page B :=
  if negb (user p) then p else
  match getWorkouts (backend p) with
  | (inr workoutsData, b1) =>
      let completedWorkouts := List.filter is_completed workoutsData in
      match promise_all with_sets completedWorkouts b1 with
      | (inr workoutsWithSets, b2) =>
          mkPage (user p) workoutsWithSets false (expandedWorkout p) b2 (console p)
      | (inl err, b2) =>
          mkPage (user p) (workouts p) false (expandedWorkout p) b2
                 (console p ++ [("Error fetching workouts:", err)])
      end
  | (inl err, b1) =>
      mkPage (user p) (workouts p) false (expandedWorkout p) b1
             (console p ++ [("Error fetching workouts:", err)])
  end.

End Fetch.

(** [getUniqueExercises]: the [Map], as the list of its entries in
    insertion order. *)
Fixpoint push_to (name : string) (set : Schema.WorkoutSet)
  (exercises : list (string * list Schema.WorkoutSet))
  : list (string * list Schema.WorkoutSet) :=
  match exercises with
  | [] => [(name, [set])]
  | (key, value) :: rest =>
      if String.eqb key name then (key, value ++ [set]) :: rest
      else (key, value) :: push_to name set rest
  end.

Definition getUniqueExercises (sets : list Schema.WorkoutSet)
  : list (string * list Schema.WorkoutSet) :=
  fold_left (fun exercises set => push_to (ws_exercise_name set) set exercises) sets [].

(** What [getUniqueExercises] has built after the sets [seen]: no name
    twice, and under each name of [seen] the sets of [seen] with that name. *)
Definition grouped (seen : list Schema.WorkoutSet)
  (exercises : list (string * list Schema.WorkoutSet)) : Prop :=
  NoDup (map fst exercises)
  /\ (forall key value, In (key, value) exercises ->
        value <> []
        /\ value = List.filter (fun s => String.eqb (ws_exercise_name s) key) seen)
  /\ (forall s, In s seen -> ws_exercise_name s ∈ map fst exercises).

End History.

(** ** [client/src/lib/api.ts]: the auth methods, and [useAuth] *)
Module Auth.
Import Routes Api.

(** The [{ data, error }] objects the auth methods resolve to; [data] is
    the [user] inside it. *)
Record Answer := mkAnswer { data : option SessionUser; error : option string }.

(** [useAuth]'s two cells. *)
Record AuthState := mkAuthState { au_user : option SessionUser; au_loading : bool }.

(** One browser tab: the [apiClient] singleton ([this.sessionId] is
    [sessionId (client t)]) with what answers it, the [sessionId] item of
    [localStorage], [authStateListeners] (a listener is named by the
    [useAuth] instance that registered it), the cells of the mounted
    [useAuth] instances, and the number of instances created so far.  A
    method runs to completion before the next one starts, and the [storage]
    event, which only another tab raises, is not modelled. *)
Record Tab := mkTab {
  client : Express;
  item : option string;
  listeners : list nat;
  hooks : gmap nat AuthState;
  spawned : nat }.

(** [new ApiClient()]: [this.sessionId = localStorage.getItem('sessionId')] *)
Definition boot (stored : option string) (s : Server) (ent : nat -> Entropy)
  (n : nat) : Tab :=
  mkTab (mkExpress stored s ent n) stored [] ∅ 0.

Definition set_client (x : Express) (t : Tab) : Tab :=
  mkTab x (item t) (listeners t) (hooks t) (spawned t).

(** [this.sessionId = id] with [localStorage.setItem] or [removeItem]. *)
Definition remember (id : option string) (x : Express) (t : Tab) : Tab :=
  mkTab (mkExpress id (server x) (entropy x) (served x)) id (listeners t) (hooks t)
        (spawned t).

(** What the listener of a [useAuth] instance does with the session it is
    called with: [setUser(session?.user ?? null); setLoading(false)]. *)
Definition heard (session : option SessionUser) : AuthState :=
  mkAuthState session false.

Definition triggerAuthStateChange (session : option SessionUser) (t : Tab) : Tab :=
  mkTab (client t) (item t) (listeners t)
        (fold_left (fun hs h => <[h := heard session]> hs) (listeners t) (hooks t))
        (spawned t).

Section Methods.
Context `{Bcrypt}.

(** Without a [try]: a failed request rejects the promise.  The two auth
    routes answer 200 only with [{ user, sessionId }]. *)
Definition signUp (username password : string) (t : Tab) : Result Answer * Tab :=
  let '(r, x') := request (PostSignup (Some (mkInsertUser username password)))
                          (client t) in
  match r with
  | inr (JSession user sid) =>
      (inr (mkAnswer (Some user) None),
       triggerAuthStateChange (Some user) (remember (Some sid) x' t))
  | inr _ => (unexpected, set_client x' t)
  | inl err => (inl err, set_client x' t)
  end.

Definition signIn (username password : string) (t : Tab) : Answer * Tab :=
  let '(r, x') := request (PostSignin username password) (client t) in
  match r with
  | inr (JSession user sid) =>
      (mkAnswer (Some user) None,
       triggerAuthStateChange (Some user) (remember (Some sid) x' t))
  | inr _ => (mkAnswer None (Some "Unexpected end of JSON input"), set_client x' t)
  | inl err => (mkAnswer None (Some err), set_client x' t)
  end.

(** The result is the [error] of [{ error }]. *)
Definition signOut (t : Tab) : option string * Tab :=
  let '(r, x') := request PostSignout (client t) in
  match r with
  | inr _ => (None, triggerAuthStateChange None (remember None x' t))
  | inl err => (Some err, set_client x' t)
  end.

(** The result is [session?.user ?? null], which is all the callers read. *)
Definition getSession (t : Tab) : option SessionUser * Tab :=
  match sessionId (client t) with
  | None => (None, t)
  | Some sid =>
      if String.eqb sid "" then (None, t) else
      let '(r, x') := request (Api GetMe) (client t) in
      match r with
      | inr (JMe user) => (Some user, set_client x' t)
      | inr _ => (None, set_client x' t)
      | inl _ => (None, remember None x' t)
      end
  end.

(** [indexOf] and [splice(index, 1)]: the first occurrence goes. *)
Fixpoint unsubscribe (h : nat) (l : list nat) : list nat :=
  match l with
  | [] => []
  | h' :: l' => if Nat.eqb h' h then l' else h' :: unsubscribe h l'
  end.

(** The effect of a new [useAuth] instance: [getSession().then(...)] and
    [onAuthStateChange]. *)
Definition mount (t : Tab) : Tab :=
  let h := spawned t in
  let '(session, t1) := getSession t in
  mkTab (client t1) (item t1) (listeners t1 ++ [h])
        (<[h := heard session]> (hooks t1)) (S h).

(** The effect's cleanup, for the instance [h]. *)
Definition unmount (h : nat) (t : Tab) : Tab :=
  mkTab (client t) (item t) (unsubscribe h (listeners t)) (delete h (hooks t))
        (spawned t).

Inductive Action :=
| SignUp (username password : string)
| SignIn (username password : string)
| SignOut
| GetSession
| Mount
| Unmount (h : nat).

Definition act (a : Action) (t : Tab) : Tab :=
  match a with
  | SignUp username password => snd (signUp username password t)
  | SignIn username password => snd (signIn username password t)
  | SignOut => snd (signOut t)
  | GetSession => snd (getSession t)
  | Mount => mount t
  | Unmount h => unmount h t
  end.

Definition acts (l : list Action) (t : Tab) : Tab :=
  fold_left (fun t a => act a t) l t.

End Methods.

(** The listeners are distinct instances created by this tab, and each
    has its cells. *)
Definition wired (t : Tab) : Prop :=
  NoDup (listeners t)
  /\ forall h, h ∈ listeners t -> (h < spawned t)%nat.

(** Every subscribed [useAuth] instance shows the user of the session the
    server attaches to this tab's requests. *)
Definition in_step (t : Tab) : Prop :=
  forall h, h ∈ listeners t ->
            hooks t !! h = Some (heard (Observe.session_user (client t))).

End Auth.

(** * Properties *)

(** ** The session registry *)
Section Registry.
Import Routes Observe.
Context `{Bcrypt}.

Lemma toString36_aux_nonempty fuel n acc :
  acc <> "" -> toString36_aux fuel n acc <> "".
Proof.
  revert n acc. induction fuel as [|fuel IH]; intros n acc Hacc; simpl; [done|].
  destruct (n / 36 =? 0)%N; [done|]. by apply IH.
Qed.

Lemma toString36_nonempty n : toString36 n <> "".
Proof.
  unfold toString36. simpl.
  destruct (n / 36 =? 0)%N; [done|]. by apply toString36_aux_nonempty.
Qed.

Lemma generateSessionId_nonempty e : generateSessionId e <> "".
Proof.
  unfold generateSessionId. intros Heq.
  destruct (e_random e); simpl in Heq; [|done].
  by apply (toString36_nonempty (e_now e)).
Qed.

Lemma route_sessions e u req s : sessions (snd (route e u req s)) = sessions s.
Proof.
  destruct req as [| |[d|]| | |[d|]| | |[d|]| | | |[d|]| ]; simpl; try done.
  - by destruct (Storage.createRoutine _ _ _ _) as [[? ?]|].
  - by destruct (Storage.createRoutineExercise _ _ _) as [[? ?]|].
  - by destruct (Storage.createWorkout _ _ _ _) as [[? ?]|].
  - by destruct (Storage.updateWorkout _ _ _ _) as [[? ?]|].
  - by destruct (Storage.createWorkoutSet _ _ _) as [[? ?]|].
Qed.

Lemma route_status e u req s :
  status (fst (route e u req s)) = 200 \/ status (fst (route e u req s)) = 400
  \/ status (fst (route e u req s)) = 500.
Proof.
  destruct req as [| |[d|]| | |[d|]| | |[d|]| | | |[d|]| ]; simpl; auto.
  - destruct (Storage.createRoutine _ _ _ _) as [[? ?]|]; auto.
  - destruct (Storage.createRoutineExercise _ _ _) as [[? ?]|]; auto.
  - destruct (Storage.createWorkout _ _ _ _) as [[? ?]|]; auto.
  - destruct (Storage.updateWorkout _ _ _ _) as [[? ?]|]; auto.
  - destruct (Storage.createWorkoutSet _ _ _) as [[? ?]|]; auto.
Qed.

Lemma handle_keeps_session tok hdr e req s :
  signs_out tok (hdr, e, req) = false ->
  is_Some (sessions s !! tok) ->
  is_Some (sessions (snd (handle hdr e req s)) !! tok).
Proof.
  intros Hout Hin. destruct req as [d|username password|username| |req]; simpl.
  - unfold signup. destruct d as [userData|]; [|done].
    destruct (Storage.getUserByUsername _ _); [done|].
    destruct (Storage.createUser _ _ _) as [[user db']|]; [|done].
    simpl. rewrite lookup_insert. by case_decide.
  - unfold signin. destruct (Storage.getUserByUsername _ _) as [user|]; [|done].
    destruct (Storage.verifyPassword _ _); [|done].
    simpl. rewrite lookup_insert. by case_decide.
  - unfold signin. by destruct (Storage.getUserByUsername _ _) as [user|].
  - unfold signout. destruct hdr as [sid|]; [|done].
    destruct (String.eqb sid ""); [done|]. simpl.
    rewrite lookup_delete_ne; [done|].
    intros ->. simpl in Hout. by rewrite String.eqb_refl in Hout.
  - destruct (authenticateUser hdr s) as [res|u]; [done|].
    by rewrite route_sessions.
Qed.

Lemma serve_keeps_session tok trace s :
  forallb (fun hr => negb (signs_out tok hr)) trace = true ->
  is_Some (sessions s !! tok) ->
  is_Some (sessions (serve trace s) !! tok).
Proof.
  revert s. induction trace as [|[[hdr e] req] trace IH]; intros s Hall Hin; [done|].
  cbn [forallb] in Hall. apply andb_true_iff in Hall as [Hhd Htl].
  apply negb_true_iff in Hhd. cbn [serve fold_left]. apply IH; [done|].
  by apply handle_keeps_session.
Qed.

Lemma handle_keeps_unknown tok hdr e req s :
  mints tok (hdr, e, req) = false ->
  sessions s !! tok = None ->
  sessions (snd (handle hdr e req s)) !! tok = None.
Proof.
  intros Hmint Hout. destruct req as [d|username password|username| |req]; simpl.
  - unfold signup. destruct d as [userData|]; [|done].
    destruct (Storage.getUserByUsername _ _); [done|].
    destruct (Storage.createUser _ _ _) as [[user db']|]; [|done].
    simpl. rewrite lookup_insert_ne; [done|].
    intros Heq. unfold mints in Hmint. simpl in Hmint.
    by rewrite Heq, String.eqb_refl in Hmint.
  - unfold signin. destruct (Storage.getUserByUsername _ _) as [user|]; [|done].
    destruct (Storage.verifyPassword _ _); [|done].
    simpl. rewrite lookup_insert_ne; [done|].
    intros Heq. unfold mints in Hmint. simpl in Hmint.
    by rewrite Heq, String.eqb_refl in Hmint.
  - unfold signin. by destruct (Storage.getUserByUsername _ _) as [user|].
  - unfold signout. destruct hdr as [sid|]; [|done].
    destruct (String.eqb sid ""); [done|]. simpl.
    rewrite lookup_delete. by case_decide.
  - destruct (authenticateUser hdr s) as [res|u]; [done|].
    by rewrite route_sessions.
Qed.

Lemma serve_keeps_unknown tok trace s :
  forallb (fun hr => negb (mints tok hr)) trace = true ->
  sessions s !! tok = None ->
  sessions (serve trace s) !! tok = None.
Proof.
  revert s. induction trace as [|[[hdr e] req] trace IH]; intros s Hall Hout; [done|].
  cbn [forallb] in Hall. apply andb_true_iff in Hall as [Hhd Htl].
  apply negb_true_iff in Hhd. cbn [serve fold_left]. apply IH; [done|].
  by apply handle_keeps_unknown.
Qed.

Lemma unknown_rejected hdr e req s :
  unknown hdr s ->
  handle hdr e (Api req) s = (fail 401 "Not authenticated", s).
Proof.
  intros Hunk. simpl. unfold authenticateUser.
  destruct hdr as [sid|]; [|done]. simpl in Hunk. rewrite Hunk.
  by destruct (String.eqb sid "").
Qed.

Lemma known_let_through tok e req s :
  tok <> "" -> is_Some (sessions s !! tok) ->
  exists u, sessions s !! tok = Some u /\
            handle (Some tok) e (Api req) s = route e u req s.
Proof.
  intros Hne [u Hu]. exists u. split; [done|]. simpl. unfold authenticateUser.
  rewrite Hu. apply String.eqb_neq in Hne. by rewrite Hne.
Qed.

(** C4. A request to an authenticated route whose [x-session-id] header is
    missing or names no session is answered 401
    [{error: "Not authenticated"}] and changes nothing.  Signing in with
    an existing user's password returns the token [generateSessionId]
    drew; however many requests follow, as long as none is a signout
    carrying that token, a call with it is let through to the route's
    handler (and so is not answered 401).  After the signout carrying it,
    every call with it is answered 401, for as long as no later signup or
    signin draws the same token again. *)
Theorem token_authorizes_until_signout
  (s : Server) (e : Entropy) (username password : string) (user : User)
  (before after : list Incoming) (e_out : Entropy)
  (Huser : Storage.getUserByUsername username (db s) = Some user)
  (Hpassword : Storage.verifyPassword user password = true)
  (Hbefore : forallb (fun hr => negb (signs_out (generateSessionId e) hr)) before = true)
  (Hafter : forallb (fun hr => negb (mints (generateSessionId e) hr)) after = true) :
  let tok := generateSessionId e in
  let s1 := snd (handle None e (PostSignin username password) s) in
  let s2 := serve before s1 in
  let s3 := snd (handle (Some tok) e_out PostSignout s2) in
  let s4 := serve after s3 in
  (forall hdr e' req s', unknown hdr s' ->
      handle hdr e' (Api req) s' = (fail 401 "Not authenticated", s'))
  /\ fst (handle None e (PostSignin username password) s)
     = json (JSession (mkSessionUser (u_id user) (u_username user)) tok)
  /\ (forall e' req, exists u,
        handle (Some tok) e' (Api req) s2 = route e' u req s2
        /\ status (fst (handle (Some tok) e' (Api req) s2)) <> 401)
  /\ (forall e' req,
        handle (Some tok) e' (Api req) s4 = (fail 401 "Not authenticated", s4)).
Proof.
  intros tok s1 s2 s3 s4.
  assert (Hne : tok <> "") by apply generateSessionId_nonempty.
  assert (Hs1 : handle None e (PostSignin username password) s
                = open_session e user s).
  { simpl. unfold signin. by rewrite Huser, Hpassword. }
  split; [intros; by apply unknown_rejected|].
  split; [by rewrite Hs1|].
  split.
  - intros e' req.
    assert (Hin : is_Some (sessions s2 !! tok)).
    { apply serve_keeps_session; [done|]. subst s1. rewrite Hs1. simpl.
      rewrite lookup_insert_eq. by eexists. }
    destruct (known_let_through tok e' req s2 Hne Hin) as (u & _ & Hrun).
    exists u. split; [done|]. rewrite Hrun.
    destruct (route_status e' u req s2) as [-> | [-> | ->]]; lia.
  - intros e' req. apply unknown_rejected. simpl.
    apply serve_keeps_unknown; [done|]. subst s3. simpl.
    apply String.eqb_neq in Hne. rewrite Hne. simpl.
    by rewrite lookup_delete_eq.
Qed.

End Registry.

(** ** Deleting rows *)
Section Deletes.
Import Routes.
Context `{Bcrypt}.

Lemma handle_api hdr e req s u :
  authenticateUser hdr s = inr u -> handle hdr e (Api req) s = route e u req s.
Proof. intros Hauth. unfold handle. by rewrite Hauth. Qed.

Lemma filter_filter_same {A} (p : A -> bool) (l : list A) :
  List.filter p (List.filter p l) = List.filter p l.
Proof.
  induction l as [|a l IH]; simpl; [done|].
  destruct (p a) eqn:Hp; simpl; [|done]. by rewrite Hp, IH.
Qed.

Lemma deleteWorkoutSet_twice id d :
  Storage.deleteWorkoutSet id (Storage.deleteWorkoutSet id d)
  = Storage.deleteWorkoutSet id d.
Proof. unfold Storage.deleteWorkoutSet. simpl. by rewrite filter_filter_same. Qed.

Lemma deleteWorkoutSet_gone id d :
  Storage.has_id ws_id id (workout_sets (Storage.deleteWorkoutSet id d)) = false.
Proof.
  unfold Storage.deleteWorkoutSet, Storage.has_id. simpl.
  induction (workout_sets d) as [|x l IH]; simpl; [done|].
  destruct (String.eqb (ws_id x) id) eqn:Hx; simpl; [done|]. by rewrite Hx.
Qed.

(** C7. For an authenticated caller, [DELETE /api/workout-sets/:id] sent
    twice for the same id is answered [{success: true}] both times; after
    the first call no row with that id is left, and the second call
    leaves the server exactly as the first one left it. *)
Theorem delete_workout_set_twice
  (tok : string) (e1 e2 : Entropy) (id : uuid) (s : Server) (u : SessionUser)
  (Hauth : authenticateUser (Some tok) s = inr u) :
  let r1 := handle (Some tok) e1 (Api (DeleteWorkoutSet id)) s in
  let r2 := handle (Some tok) e2 (Api (DeleteWorkoutSet id)) (snd r1) in
  fst r1 = json JSuccess
  /\ Storage.has_id ws_id id (workout_sets (db (snd r1))) = false
  /\ fst r2 = json JSuccess
  /\ snd r2 = snd r1.
Proof.
  intros r1 r2.
  assert (Hr1 : r1 = (json JSuccess, set_db s (Storage.deleteWorkoutSet id (db s)))).
  { subst r1. by rewrite (handle_api _ _ _ _ u). }
  assert (Hauth1 : authenticateUser (Some tok) (snd r1) = inr u).
  { rewrite Hr1. exact Hauth. }
  assert (Hr2 : r2 = (json JSuccess,
                      set_db (snd r1) (Storage.deleteWorkoutSet id (db (snd r1))))).
  { subst r2. by rewrite (handle_api _ _ _ _ u). }
  rewrite Hr2. rewrite Hr1. simpl.
  repeat split; [apply deleteWorkoutSet_gone|].
  unfold set_db. simpl. by rewrite deleteWorkoutSet_twice.
Qed.

Lemma has_id_filter_hit routineId userId (l : list Routine) (id : uuid) :
  Storage.has_id r_id id (List.filter (Storage.routine_hit routineId userId) l) = true ->
  id = routineId.
Proof.
  unfold Storage.has_id. intros Hex. apply existsb_exists in Hex as (r & Hr & Heq).
  apply filter_In in Hr as [_ Hhit]. unfold Storage.routine_hit in Hhit.
  apply andb_true_iff in Hhit as [Hid _].
  apply String.eqb_eq in Hid, Heq. congruence.
Qed.

Lemma NoDup_map_inj_in {A K} (key : A -> K) (l : list A) (a b : A) :
  NoDup (map key l) -> In a l -> In b l -> key a = key b -> a = b.
Proof.
  induction l as [|x l IH]; simpl; [done|].
  intros Hnd [-> | Ha] [-> | Hb] Heq; try done.
  - apply NoDup_cons_1_1 in Hnd. exfalso. apply Hnd.
    rewrite Heq. apply list_elem_of_In, in_map, Hb.
  - apply NoDup_cons_1_1 in Hnd. exfalso. apply Hnd.
    rewrite <- Heq. apply list_elem_of_In, in_map, Ha.
  - apply NoDup_cons_1_2 in Hnd. by apply IH.
Qed.

(** C8. When the owner deletes a routine, no routine and no exercise
    row referring to its id is left (the cascade); every routine of
    another user is still in the table, and the exercises listed for it
    are the same as before.  [Hkey] is the primary key of [routines]. *)
Theorem delete_routine_cascades
  (tok : string) (e : Entropy) (routineId : uuid) (s : Server) (u : SessionUser)
  (target : Routine)
  (Hauth : authenticateUser (Some tok) s = inr u)
  (Hkey : NoDup (map r_id (routines (db s))))
  (Htarget : In target (routines (db s)))
  (Hid : r_id target = routineId)
  (Hown : r_user_id target = su_id u) :
  let res := handle (Some tok) e (Api (DeleteRoutine routineId)) s in
  let s' := snd res in
  fst res = json JSuccess
  /\ (forall r, In r (routines (db s')) -> r_id r <> routineId)
  /\ (forall x, In x (routine_exercises (db s')) -> re_routine_id x <> routineId)
  /\ (forall r, In r (routines (db s)) -> r_user_id r <> su_id u ->
        In r (routines (db s'))
        /\ Storage.getRoutineExercises (r_id r) (db s')
           = Storage.getRoutineExercises (r_id r) (db s)).
Proof.
  intros res s'.
  assert (Hres : res = (json JSuccess,
                        set_db s (Storage.deleteRoutine routineId (su_id u) (db s)))).
  { subst res. by rewrite (handle_api _ _ _ _ u). }
  subst s'. rewrite Hres. simpl.
  assert (Hhit : Storage.routine_hit routineId (su_id u) target = true).
  { unfold Storage.routine_hit. rewrite Hid, Hown.
    by rewrite !String.eqb_refl. }
  split; [done|]. split; [|split].
  - intros r Hr Heq. apply filter_In in Hr as [Hr Hmiss].
    assert (r = target) as ->.
    { apply (NoDup_map_inj_in r_id (routines (db s))); [done..|congruence]. }
    by rewrite Hhit in Hmiss.
  - intros x Hx Heq. apply filter_In in Hx as [_ Hlive].
    apply negb_true_iff in Hlive.
    assert (Hdead : Storage.has_id r_id (re_routine_id x)
              (List.filter (Storage.routine_hit routineId (su_id u)) (routines (db s)))
            = true).
    { unfold Storage.has_id. apply existsb_exists. exists target.
      split; [by apply filter_In|]. apply String.eqb_eq. congruence. }
    congruence.
  - intros r Hr Hother.
    assert (Hmiss : Storage.routine_hit routineId (su_id u) r = false).
    { unfold Storage.routine_hit. apply andb_false_iff. right.
      by apply String.eqb_neq. }
    split; [apply filter_In; by rewrite Hmiss|].
    assert (Hne : r_id r <> routineId).
    { intros Heq. apply Hother. rewrite <- Hown. f_equal.
      apply (NoDup_map_inj_in r_id (routines (db s))); [done..|congruence]. }
    unfold Storage.getRoutineExercises. simpl.
    induction (routine_exercises (db s)) as [|x l IH]; simpl; [done|].
    destruct (String.eqb (re_routine_id x) (r_id r)) eqn:Hx.
    + apply String.eqb_eq in Hx.
      destruct (Storage.has_id r_id (re_routine_id x) _) eqn:Hdead; simpl.
      * apply has_id_filter_hit in Hdead. congruence.
      * apply String.eqb_eq in Hx. by rewrite Hx, IH.
    + destruct (negb _); simpl; [by rewrite Hx|done].
Qed.

End Deletes.

(** ** The express backend under a valid session *)
Section ExpressCalls.
Import Routes Observe Api Session Terms.
Context `{Bcrypt} `{Zod}.

Lemma request_api (x : Express) (u : SessionUser) (req : ApiRequest) :
  session_user x = Some u ->
  request (Api req) x
  = let res := route (entropy x (served x)) u req (server x) in
    let x' := mkExpress (sessionId x) (snd res) (entropy x) (S (served x)) in
    if response_ok (fst res) then (inr (body (fst res)), x')
    else match body (fst res) with
         | JError msg => (inl (if String.eqb msg "" then "Request failed" else msg), x')
         | _ => (inl "Request failed", x')
         end.
Proof.
  unfold session_user, request. intros Hu.
  destruct (sessionId x) as [tok|]; [|done].
  destruct (String.eqb tok "") eqn:Htok; [done|].
  unfold handle, authenticateUser. rewrite Htok, Hu.
  by destruct (route _ _ _ _).
Qed.

Lemma request_rejected (x : Express) (req : ApiRequest) :
  session_user x = None ->
  request (Api req) x
  = (inl "Not authenticated",
     mkExpress (sessionId x) (server x) (entropy x) (S (served x))).
Proof.
  unfold session_user, request. intros Hu.
  assert (Hrej : forall hdr,
             hdr = None \/ (exists tok, hdr = Some tok /\ String.eqb tok "" = false
                                        /\ sessions (server x) !! tok = None) ->
             handle hdr (entropy x (served x)) (Api req) (server x)
             = (fail 401 "Not authenticated", server x)).
  { intros hdr [-> | (tok & -> & Hne & Hno)]; [done|].
    unfold handle, authenticateUser. by rewrite Hne, Hno. }
  destruct (sessionId x) as [tok|].
  - destruct (String.eqb tok "") eqn:Htok.
    + by rewrite Hrej by auto.
    + rewrite Hrej; [done|]. right. by exists tok.
  - by rewrite Hrej by auto.
Qed.

End ExpressCalls.

(** ** Flushing the drafts *)
Section Flush.
Import Routes Observe Api Session Terms.

Lemma has_data_populated (input : SetInput) :
  has_data (in_weight input) (in_reps input) = true <-> populated input.
Proof.
  unfold has_data, populated. rewrite orb_true_iff, negb_true_iff, Z.ltb_lt.
  split; (intros [Hw|Hr]; [left|by right]).
  - apply Qnot_le_lt. intros Hle. apply Qle_bool_iff in Hle. congruence.
  - apply not_true_is_false. intros Hle. apply Qle_bool_iff in Hle.
    by apply Qlt_not_le in Hw.
Qed.

Lemma In_filter_imap {X Y} (p : Y -> bool) (g : nat -> X -> Y) (l : list X) (y : Y) :
  In y (List.filter p (imap g l))
  <-> exists i x, l !! i = Some x /\ p (g i x) = true /\ y = g i x.
Proof.
  rewrite filter_In. split.
  - intros [Hin Hp]. apply list_elem_of_In, list_elem_of_lookup in Hin as [i Hi].
    rewrite list_lookup_imap in Hi.
    destruct (l !! i) as [x|] eqn:Hx; simpl in Hi; [|done].
    injection Hi as <-. by exists i, x.
  - intros (i & x & Hx & Hp & ->). split; [|done].
    apply list_elem_of_In, list_elem_of_lookup. exists i.
    rewrite list_lookup_imap, Hx. done.
Qed.

(** What the flush sends: one item per populated slot, numbered by the
    slot's 1-based position. *)
Lemma setsToSave_spec aw ex inputs d :
  In d (setsToSave aw ex inputs)
  <-> exists i input, inputs !! i = Some input /\ populated input /\ d = draft aw ex i input.
Proof.
  unfold setsToSave. rewrite In_filter_imap. split.
  - intros (i & input & Hi & Hp & ->). exists i, input. split; [done|]. split; [|done].
    by apply has_data_populated.
  - intros (i & input & Hi & Hp & ->). exists i, input. split; [done|]. split; [|done].
    by apply has_data_populated.
Qed.

Lemma setsToSave_workout aw ex inputs :
  Forall (fun d => iws_workout_id d = aw_id aw) (setsToSave aw ex inputs).
Proof.
  apply List.Forall_forall. intros d Hd.
  apply setsToSave_spec in Hd as (i & input & _ & _ & ->). done.
Qed.

Lemma NoDup_map_filter {X Y} (f : X -> Y) (p : X -> bool) (l : list X) :
  NoDup (map f l) -> NoDup (map f (List.filter p l)).
Proof.
  induction l as [|x l IH]; simpl; [done|]. intros Hnd.
  apply NoDup_cons in Hnd as [Hx Hl]. destruct (p x); simpl; [|by apply IH].
  apply NoDup_cons. split; [|by apply IH].
  intros Hin. apply Hx. apply list_elem_of_In in Hin. apply list_elem_of_In.
  apply in_map_iff in Hin as (y & Hy & Hin). apply filter_In in Hin as [Hin _].
  apply in_map_iff. by exists y.
Qed.

Lemma setsToSave_numbers aw ex inputs :
  NoDup (map iws_set_number (setsToSave aw ex inputs)).
Proof.
  unfold setsToSave. apply NoDup_map_filter.
  apply NoDup_alt. intros i j n Hi Hj.
  rewrite list_lookup_fmap, list_lookup_imap in Hi, Hj.
  destruct (inputs !! i); simpl in Hi; [|done].
  destruct (inputs !! j); simpl in Hj; [|done].
  injection Hi as <-. injection Hj as Hj. lia.
Qed.

End Flush.

(** ** Primary keys *)
Section Keys.
Import Routes Observe Terms.
Context `{Bcrypt}.

Lemma has_id_false {A} (key : A -> uuid) (id : uuid) (rows : list A) :
  Storage.has_id key id rows = false -> id ∉ map key rows.
Proof.
  intros Hno Hin. apply list_elem_of_In, in_map_iff in Hin as (r & Hr & Hin).
  assert (Storage.has_id key id rows = true); [|congruence].
  unfold Storage.has_id. apply existsb_exists. exists r. split; [done|].
  by apply String.eqb_eq.
Qed.

Lemma NoDup_snoc_key {A} (key : A -> uuid) (rows : list A) (row : A) :
  NoDup (map key rows) -> Storage.has_id key (key row) rows = false ->
  NoDup (map key (rows ++ [row])).
Proof.
  intros Hnd Hno. rewrite map_app. apply NoDup_app. split; [done|]. split.
  - intros id Hid Hin. apply list_elem_of_singleton in Hin. subst id.
    by apply (has_id_false key (key row) rows).
  - apply NoDup_singleton.
Qed.

Lemma map_key_map {A} (key : A -> uuid) (g : A -> A) (rows : list A) :
  (forall r, key (g r) = key r) -> map key (map g rows) = map key rows.
Proof. intros Hg. rewrite map_map. apply map_ext. exact Hg. Qed.

(** The statement of [updateWorkout]: what it leaves alone, and that under
    the primary key it hits at most one row. *)
Lemma updateWorkout_tables workoutId userId updates d res d' :
  Storage.updateWorkout workoutId userId updates d = Some (res, d') ->
  users d' = users d /\ Schema.routines d' = Schema.routines d
  /\ routine_exercises d' = routine_exercises d
  /\ workout_sets d' = workout_sets d
  /\ workouts d'
     = List.filter (fun w => negb (Storage.workout_hit workoutId userId w)) (workouts d)
       ++ map (Storage.apply_updates updates)
              (List.filter (Storage.workout_hit workoutId userId) (workouts d))
  /\ res = head (map (Storage.apply_updates updates)
                     (List.filter (Storage.workout_hit workoutId userId) (workouts d))).
Proof.
  unfold Storage.updateWorkout. destruct (forallb _ _); [|done].
  by intros [= <- <-].
Qed.

Lemma hit_at_most_one workoutId userId (l : list Workout) :
  NoDup (map w_id l) ->
  List.filter (Storage.workout_hit workoutId userId) l = []
  \/ exists w, List.filter (Storage.workout_hit workoutId userId) l = [w].
Proof.
  intros Hnd.
  pose proof (NoDup_map_filter w_id (Storage.workout_hit workoutId userId) l Hnd) as Hnf.
  destruct (List.filter _ l) as [|a [|b rest]] eqn:Hf; [by left|right; by exists a|].
  exfalso.
  assert (Ha : In a (List.filter (Storage.workout_hit workoutId userId) l))
    by (rewrite Hf; by left).
  assert (Hb : In b (List.filter (Storage.workout_hit workoutId userId) l))
    by (rewrite Hf; right; by left).
  apply filter_In in Ha as [_ Ha]. apply filter_In in Hb as [_ Hb].
  unfold Storage.workout_hit in Ha, Hb.
  apply andb_true_iff in Ha as [Ha _]. apply andb_true_iff in Hb as [Hb _].
  apply String.eqb_eq in Ha, Hb. simpl in Hnf.
  apply NoDup_cons in Hnf as [Hnot _]. apply Hnot. rewrite Ha, <- Hb. by left.
Qed.

Lemma updateWorkout_keeps_key workoutId userId updates d res d' :
  NoDup (map w_id (workouts d)) ->
  Storage.updateWorkout workoutId userId updates d = Some (res, d') ->
  NoDup (map w_id (workouts d')).
Proof.
  intros Hnd Hup.
  destruct (updateWorkout_tables _ _ _ _ _ _ Hup) as (_ & _ & _ & _ & -> & _).
  unfold Storage.updateWorkout in Hup.
  destruct (forallb _ _) eqn:Hok; [|done]. clear Hup.
  pose proof (NoDup_map_filter w_id
                (fun w => negb (Storage.workout_hit workoutId userId w)) _ Hnd) as Hothers.
  destruct (hit_at_most_one workoutId userId (workouts d) Hnd) as [Hnone | [w Hone]].
  - rewrite Hnone. simpl. by rewrite app_nil_r.
  - rewrite Hone in Hok |- *. simpl in Hok |- *.
    rewrite andb_true_r in Hok. unfold Storage.update_ok in Hok.
    apply andb_true_iff in Hok as [Hok _]. apply andb_true_iff in Hok as [Hkey _].
    rewrite map_app. apply NoDup_app. split; [done|]. split; [|apply NoDup_singleton].
    intros i Hi Hin. apply list_elem_of_singleton in Hin. subst i.
    assert (Hw : In w (List.filter (Storage.workout_hit workoutId userId) (workouts d)))
      by (rewrite Hone; by left).
    apply filter_In in Hw as [Hw Hhit].
    apply orb_true_iff in Hkey as [Hsame | Hfresh].
    + apply String.eqb_eq in Hsame. rewrite Hsame in Hi.
      apply list_elem_of_In, in_map_iff in Hi as (r & Hr & Hin).
      apply filter_In in Hin as [Hin Hmiss].
      assert (r = w) as -> by (by apply (NoDup_map_inj_in w_id (workouts d))).
      by rewrite Hhit in Hmiss.
    + apply andb_true_iff in Hfresh as [Hfresh _]. apply negb_true_iff in Hfresh.
      by apply (has_id_false w_id _ _ Hfresh).
Qed.

(** Every request keeps the primary keys of [routines] and [workouts]
    unique; they are unique in the empty store. *)
Lemma handle_keeps_keyed hdr e req s :
  keyed (db s) -> keyed (db (snd (handle hdr e req s))).
Proof.
  intros [Hr Hw]. destruct req as [d|username password|username| |req]; simpl.
  - unfold signup. destruct d as [userData|]; [|done].
    destruct (Storage.getUserByUsername _ _); [done|].
    destruct (Storage.createUser _ _ _) as [[user db']|] eqn:Hcu; [|done].
    unfold Storage.createUser in Hcu. destruct (_ || _); [done|].
    by injection Hcu as <- <-.
  - unfold signin. destruct (Storage.getUserByUsername _ _) as [user|]; [|done].
    by destruct (Storage.verifyPassword _ _).
  - unfold signin. by destruct (Storage.getUserByUsername _ _) as [user|].
  - unfold signout. destruct hdr as [sid|]; [|done]. by destruct (String.eqb sid "").
  - destruct (authenticateUser hdr s) as [res|u]; [done|].
    destruct req as [ | |[d|]|rid0|rid0|[d|]|xid| |[d|]|id0 updates|id0|id0|[d|]|sid];
      simpl; try done.
    + destruct (Storage.createRoutine _ _ _ _) as [[? ?]|] eqn:Hcr; [|done].
      unfold Storage.createRoutine in Hcr.
      destruct (Storage.has_id r_id _ _) eqn:Hpk; [done|].
      destruct (negb _); [done|]. injection Hcr as <- <-. split; [|done].
      by apply (NoDup_snoc_key r_id _ (Schema.mkRoutine (e_uuid e) (su_id u) (ir_name d))).
    + split; [by apply NoDup_map_filter|].
      simpl. rewrite map_key_map; [done|].
      intros r. destruct (w_routine_id r); [|done]. by destruct (Storage.has_id _ _ _).
    + destruct (Storage.createRoutineExercise _ _ _) as [[? ?]|] eqn:Hcr; [|done].
      unfold Storage.createRoutineExercise in Hcr. destruct (_ || _); [done|].
      by injection Hcr as <- <-.
    + destruct (Storage.createWorkout _ _ _ _) as [[? ?]|] eqn:Hcr; [|done].
      unfold Storage.createWorkout in Hcr.
      destruct (Storage.has_id w_id _ _) eqn:Hpk; [done|].
      destruct (_ || _); [done|]. injection Hcr as <- <-. split; [done|].
      by apply (NoDup_snoc_key w_id _ (mkWorkout (e_uuid e) (su_id u) (iw_routine_id d)
                  (iw_routine_name d) (iw_start_time d) (iw_end_time d))).
    + destruct (Storage.updateWorkout _ _ _ _) as [[res d']|] eqn:Hup; [|done].
      simpl. split; [|by apply (updateWorkout_keeps_key _ _ _ _ _ _ Hw Hup)].
      by destruct (updateWorkout_tables _ _ _ _ _ _ Hup) as (_ & -> & _).
    + destruct (Storage.createWorkoutSet _ _ _) as [[? ?]|] eqn:Hcr; [|done].
      unfold Storage.createWorkoutSet in Hcr.
      destruct (Storage.decimal_5_2 _); [|done]. destruct (_ || _); [done|].
      by injection Hcr as <- <-.
Qed.

Lemma serve_keeps_keyed trace :
  forall s, keyed (db s) -> keyed (db (serve trace s)).
Proof.
  induction trace as [|[[hdr e] req] trace IH]; intros s Hs; [done|].
  cbn [serve fold_left]. apply IH. by apply handle_keeps_keyed.
Qed.

Lemma empty_keyed : keyed emptyDB.
Proof. split; apply NoDup_nil_2. Qed.

End Keys.

(** ** What the handlers leave alone *)
Section Frames.
Import Routes Observe Api Session Terms.
Context {B : Type} `{Backend B}.

Lemma initEffect_frame (w : World B) :
  backend (initEffect w) = backend w
  /\ calls (initEffect w) = calls w
  /\ console (initEffect w) = console w
  /\ workoutSets (view (initEffect w)) = workoutSets (view w)
  /\ activeWorkout (view (initEffect w)) = activeWorkout (view w)
  /\ currentExerciseIndex (view (initEffect w)) = currentExerciseIndex (view w).
Proof.
  unfold initEffect. destruct (activeWorkout (view w)) as [aw|] eqn:Haw; [|by rewrite Haw].
  destruct (0 <? Z.of_nat (length (aw_exercises aw)))%Z; [|by rewrite Haw].
  destruct (at_index _ _); simpl; by rewrite Haw.
Qed.

Lemma dispatch_flushing (ev : Event) (w : World B) :
  mounted w = true -> flushes ev w = true ->
  backend (dispatch ev w) = backend (saveAllSets w)
  /\ calls (dispatch ev w) = calls (saveAllSets w)
  /\ console (dispatch ev w) = console (saveAllSets w)
  /\ workoutSets (view (dispatch ev w)) = workoutSets (view (saveAllSets w))
  /\ activeWorkout (view (dispatch ev w)) = activeWorkout (view (saveAllSets w)).
Proof.
  intros Hm Hfl. unfold dispatch. rewrite Hm.
  assert (Hh : backend (handler ev w) = backend (saveAllSets w)
               /\ calls (handler ev w) = calls (saveAllSets w)
               /\ console (handler ev w) = console (saveAllSets w)
               /\ workoutSets (view (handler ev w)) = workoutSets (view (saveAllSets w))
               /\ activeWorkout (view (handler ev w)) = activeWorkout (view (saveAllSets w))).
  { destruct ev; simpl in Hfl; try done; simpl.
    - unfold goToNextExercise. destruct (activeWorkout (view w)); [|done].
      by destruct (_ <? _)%Z.
    - unfold goToPreviousExercise. by rewrite Hfl.
    - unfold selectExercise. by rewrite Hfl. }
  destruct (deps_changed w (handler ev w)); [|done].
  destruct (initEffect_frame (handler ev w)) as (Hb & Hc & Hco & Hws & Haw & _).
  rewrite Hb, Hc, Hco, Hws, Haw. exact Hh.
Qed.

Lemma call_frame {A} (c : Call) (f : B -> Result A * B) (w : World B) :
  same_frame w (snd (call c f w)).
Proof. unfold call, same_frame. by destruct (f (backend w)). Qed.

Lemma promise_all_frame {X R} (f : X -> World B -> Result R * World B) (xs : list X) :
  (forall x w0, same_frame w0 (snd (f x w0))) ->
  forall w, same_frame w (snd (promise_all f xs w)).
Proof.
  intros Hf. induction xs as [|x xs IH]; intros w; [done|].
  cbn [promise_all]. specialize (Hf x w).
  destruct (f x w) as [r w1]. specialize (IH w1).
  destruct (promise_all f xs w1) as [rs w2]. simpl in *.
  unfold same_frame in *. destruct Hf as (<- & <- & <- & <-). exact IH.
Qed.

Lemma saveAllSets_view (w : World B) :
  activeWorkout (view (saveAllSets w)) = activeWorkout (view w)
  /\ currentExercise (view (saveAllSets w)) = currentExercise (view w)
  /\ currentExerciseIndex (view (saveAllSets w)) = currentExerciseIndex (view w)
  /\ setInputs (view (saveAllSets w)) = setInputs (view w)
  /\ refs (saveAllSets w) = refs w
  /\ mounted (saveAllSets w) = mounted w.
Proof.
  unfold saveAllSets.
  destruct (activeWorkout (view w)) as [aw|] eqn:Haw; [|done].
  destruct (currentExercise (view w)) as [ex|] eqn:Hex; [|done].
  destruct (length _ =? 0)%nat; [done|].
  match goal with |- context [promise_all ?g ?xs w] =>
    pose proof (promise_all_frame g xs (fun x w0 => call_frame _ _ w0) w) as Hv;
    destruct (promise_all g xs w) as [[err|rows] w'] end;
    simpl in *; destruct Hv as (-> & -> & -> & _); done.
Qed.

End Frames.

(** ** Starting a workout, and landing on an exercise *)
Section Start.
Import Routes Observe Api Session Terms.
Context `{Bcrypt} `{Zod}.

Lemma createWorkout_stored (x : Express) (u : SessionUser) (data : CreateWorkoutData) :
  accepts_workout (workout_body data) = true ->
  session_user x = Some u ->
  Storage.has_id u_id (su_id u) (users (db (server x))) = true ->
  Storage.has_id r_id (cw_routine_id data) (Schema.routines (db (server x))) = true ->
  Storage.has_id w_id (e_uuid (entropy x (served x))) (workouts (db (server x))) = false ->
  let row := mkWorkout (e_uuid (entropy x (served x))) (su_id u)
               (Some (cw_routine_id data)) (cw_routine_name data)
               (cw_start_time data) None in
  let d := db (server x) in
  createWorkout data x
  = (inr row,
     mkExpress (sessionId x)
       (mkServer (sessions (server x))
          (mkDB (users d) (Schema.routines d) (routine_exercises d) (workouts d ++ [row])
                (workout_sets d)))
       (entropy x) (S (served x))).
Proof.
  intros Hok Hu Hfku Hfkr Hpk row d. simpl. rewrite Hok, (request_api x u) by done. simpl.
  unfold Storage.createWorkout. simpl. rewrite Hfku, Hfkr, Hpk. done.
Qed.

Lemma dispatch_deps {B} `{Backend B} (ev : Event) (w : World B) :
  mounted w = true -> deps (dispatch ev w) = deps (handler ev w).
Proof.
  intros Hm. unfold dispatch. rewrite Hm.
  destruct (deps_changed w (handler ev w)); [|done].
  unfold deps. destruct (initEffect_frame (handler ev w)) as (_ & _ & _ & _ & -> & ->).
  done.
Qed.

(** The effect, when it runs with an exercise under the cursor. *)
Lemma initEffect_lands {B} `{Backend B} (w : World B) aw ex :
  activeWorkout (view w) = Some aw ->
  at_index (aw_exercises aw) (currentExerciseIndex (view w)) = Some ex ->
  currentExercise (view (initEffect w)) = Some ex
  /\ setInputs (view (initEffect w))
     = replicate (Z.to_nat (planned_sets ex)) defaultInput.
Proof.
  intros Haw Hex. unfold initEffect. rewrite Haw.
  assert (Hlen : (0 <? Z.of_nat (length (aw_exercises aw)))%Z = true).
  { apply Z.ltb_lt. unfold at_index in Hex.
    destruct (_ <? 0)%Z; [done|]. apply lookup_lt_Some in Hex. lia. }
  rewrite Hlen, Hex. done.
Qed.

Lemma landing {B} `{Backend B} (ev : Event) (w : World B) aw ex :
  mounted w = true ->
  deps (dispatch ev w) <> deps w ->
  activeWorkout (view (dispatch ev w)) = Some aw ->
  at_index (aw_exercises aw) (currentExerciseIndex (view (dispatch ev w))) = Some ex ->
  currentExercise (view (dispatch ev w)) = Some ex
  /\ setInputs (view (dispatch ev w))
     = replicate (Z.to_nat (planned_sets ex)) defaultInput.
Proof.
  intros Hm Hdeps Haw Hex.
  rewrite dispatch_deps in Hdeps by done.
  unfold dispatch in *. rewrite Hm in *.
  assert (Hch : deps_changed w (handler ev w) = true).
  { unfold deps_changed. apply negb_true_iff, bool_decide_eq_false. congruence. }
  rewrite Hch in *.
  destruct (initEffect_frame (handler ev w)) as (_ & _ & _ & _ & Ha & Hi).
  rewrite Ha in Haw. rewrite Hi in Hex. by apply (initEffect_lands _ aw ex).
Qed.

(** C2. With no workout active, a routine selected, the schema accepting
    the body, a valid session and a fresh uuid, starting a workout appends
    to [workouts] one row owned by the session user with
    [start_time = now] and [end_time = null], makes that workout the
    active one and puts the cursor at index 0.  And
    whenever an event changes the cursor or installs an active workout, and
    an exercise exists at the new cursor, the drafts become
    [planned_sets] slots (none for a negative count), each
    [{weight 0, reps 0, rpe 5}]. *)
Theorem start_then_drafts_per_plan
  (w : World Express) (now : Z) (routine : Routine) (u : SessionUser)
  (Hmounted : mounted w = true)
  (Hidle : activeWorkout (view w) = None)
  (Huser : user (view w) = true)
  (Hchosen : selectedRoutineId (view w) <> "")
  (Hroutine : List.find (fun r => String.eqb (routine_id r) (selectedRoutineId (view w)))
                        (routines (view w)) = Some routine)
  (Hschema : accepts_workout
               (workout_body (mkCreateWorkoutData (selectedRoutineId (view w))
                                                  (routine_name routine) now)) = true)
  (Hsession : session_user (backend w) = Some u)
  (Hknown : Storage.has_id u_id (su_id u) (users (db (server (backend w)))) = true)
  (Hstored : Storage.has_id r_id (selectedRoutineId (view w))
               (Schema.routines (db (server (backend w)))) = true)
  (Hfresh : Storage.has_id w_id (e_uuid (entropy (backend w) (served (backend w))))
              (workouts (db (server (backend w)))) = false) :
  let w' := dispatch (StartWorkout now) w in
  let row := mkWorkout (e_uuid (entropy (backend w) (served (backend w)))) (su_id u)
               (Some (selectedRoutineId (view w))) (routine_name routine) now None in
  workouts (db (server (backend w'))) = workouts (db (server (backend w))) ++ [row]
  /\ (exists aw, activeWorkout (view w') = Some aw /\ aw_id aw = w_id row
                 /\ aw_start_time aw = now /\ aw_exercises aw = exercises routine)
  /\ currentExerciseIndex (view w') = 0%Z
  /\ (forall (ev : Event) (w0 : World Express) aw ex,
        mounted w0 = true ->
        deps (dispatch ev w0) <> deps w0 ->
        activeWorkout (view (dispatch ev w0)) = Some aw ->
        at_index (aw_exercises aw) (currentExerciseIndex (view (dispatch ev w0))) = Some ex ->
        let inputs := setInputs (view (dispatch ev w0)) in
        currentExercise (view (dispatch ev w0)) = Some ex
        /\ (forall slot, In slot inputs -> slot = mkSetInput 0 0 5)
        /\ length inputs = Z.to_nat (planned_sets ex)
        /\ ((0 <= planned_sets ex)%Z -> Z.of_nat (length inputs) = planned_sets ex)).
Proof.
  intros w' row.
  assert (Hland : forall (ev : Event) (w0 : World Express) aw ex,
        mounted w0 = true ->
        deps (dispatch ev w0) <> deps w0 ->
        activeWorkout (view (dispatch ev w0)) = Some aw ->
        at_index (aw_exercises aw) (currentExerciseIndex (view (dispatch ev w0))) = Some ex ->
        let inputs := setInputs (view (dispatch ev w0)) in
        currentExercise (view (dispatch ev w0)) = Some ex
        /\ (forall slot, In slot inputs -> slot = mkSetInput 0 0 5)
        /\ length inputs = Z.to_nat (planned_sets ex)
        /\ ((0 <= planned_sets ex)%Z -> Z.of_nat (length inputs) = planned_sets ex)).
  { intros ev w0 aw ex Hm Hd Ha He inputs.
    destruct (landing ev w0 aw ex Hm Hd Ha He) as [Hcur Hin].
    subst inputs. rewrite Hin. split; [done|]. split; [|split].
    - intros slot Hslot. apply list_elem_of_In, elem_of_replicate in Hslot as [-> _]. done.
    - apply length_replicate.
    - intros Hpos. rewrite length_replicate. lia. }
  assert (Hh : handler (StartWorkout now) w
    = let d := db (server (backend w)) in
      mkWorld
        (setCurrentExerciseIndex (fun _ => 0%Z)
           (setWorkoutSets (fun _ => [])
              (setActiveWorkout
                 (Some (mkActiveWorkout (refs w) (w_id row) (routine_name routine)
                          now (exercises routine))) (view w))))
        (mkExpress (sessionId (backend w))
           (mkServer (sessions (server (backend w)))
              (mkDB (users d) (Schema.routines d) (routine_exercises d) (workouts d ++ [row])
                    (workout_sets d)))
           (entropy (backend w)) (S (served (backend w))))
        (console w) (calls w ++ [CallCreateWorkout (mkCreateWorkoutData
                        (selectedRoutineId (view w)) (routine_name routine) now)])
        (S (refs w)) (mounted w)).
  { cbn [handler]. unfold startWorkout. cbv zeta. rewrite Huser, Hroutine.
    apply String.eqb_neq in Hchosen. rewrite Hchosen. cbn [negb orb].
    unfold call. rewrite (createWorkout_stored _ u) by done. done. }
  subst w'. unfold dispatch. rewrite Hmounted, Hh.
  match goal with |- context [deps_changed w ?w1] =>
    assert (Hch : deps_changed w w1 = true) end.
  { unfold deps_changed, deps. rewrite Hidle. done. }
  rewrite Hch.
  match goal with |- context [initEffect ?w1] =>
    destruct (initEffect_frame w1) as (Hb & _ & _ & _ & Ha & Hi) end.
  rewrite Hb, Ha, Hi. simpl.
  split; [done|]. split; [|split; [done|exact Hland]].
  eexists. split; [reflexivity|]. done.
Qed.

End Start.

(** ** The exercise cursor *)
Section Cursor.
Import Routes Observe Api Session Terms.
Context {B : Type} `{Backend B}.

Lemma call_view {A} (c : Call) (f : B -> Result A * B) (w : World B) :
  view (snd (call c f w)) = view w.
Proof. apply (call_frame c f w). Qed.

Lemma quiet_handler (ev : Event) (w : World B) :
  quiet ev = true ->
  activeWorkout (view (handler ev w)) = activeWorkout (view w)
  /\ currentExerciseIndex (view (handler ev w)) = currentExerciseIndex (view w).
Proof.
  intros Hq. destruct ev; try done; cbn [handler]; try done.
  - unfold saveSetOnBlur.
    destruct (activeWorkout (view w)) as [aw|] eqn:Haw; [|by rewrite Haw].
    destruct (currentExercise (view w)) as [ex|]; [|by rewrite Haw].
    destruct (setInputs (view w) !! setIndex) as [setData|]; [|by rewrite Haw].
    destruct (has_data _ _); [|by rewrite Haw].
    match goal with |- context [call ?c ?f w] =>
      pose proof (call_view c f w) as Hv; destruct (call c f w) as [[err|workoutSet] w'] end;
      simpl in *; by rewrite Hv, Haw.
  - destruct (saveAllSets_view w) as (Hsa & _ & Hsi & _). done.
  - unfold deleteSet.
    match goal with |- context [call ?c ?f w] =>
      pose proof (call_view c f w) as Hv; destruct (call c f w) as [[err|r] w'] end;
      simpl in *; by rewrite Hv.
Qed.

Lemma handler_in_bounds (ev : Event) (w : World B) :
  offered ev w = true -> in_bounds w -> in_bounds (handler ev w).
Proof.
  intros Hoff Hin. unfold in_bounds in *.
  destruct (quiet ev) eqn:Hq.
  { destruct (quiet_handler ev w Hq) as [-> ->]. exact Hin. }
  destruct (saveAllSets_view w) as (Hsa & _ & Hsi & _).
  destruct ev; try done; cbn [handler].
  - (* StartWorkout *)
    unfold startWorkout. cbv zeta.
    destruct (negb _ || _); [exact Hin|].
    destruct (List.find _ _) as [selectedRoutine|]; [|exact Hin].
    match goal with |- context [call ?c ?f w] =>
      pose proof (call_view c f w) as Hv; destruct (call c f w) as [[err|workout] w'] end;
      simpl in *; [by rewrite Hv|].
    destruct (exercises selectedRoutine) as [|e l]; [by left|right]. simpl. lia.
  - (* GoToNextExercise *)
    unfold goToNextExercise.
    destruct (activeWorkout (view w)) as [aw|] eqn:Haw; [|by rewrite Hsa].
    destruct (_ <? _)%Z eqn:Hlt; simpl; rewrite Hsa, Hsi; [|done].
    apply Z.ltb_lt in Hlt. destruct Hin as [Hnil|Hin]; [by left|right]. lia.
  - (* GoToPreviousExercise *)
    unfold goToPreviousExercise.
    destruct (0 <? _)%Z eqn:Hlt; [|exact Hin]. simpl. rewrite Hsa, Hsi.
    apply Z.ltb_lt in Hlt.
    destruct (activeWorkout (view w)) as [aw|]; [|done].
    destruct Hin as [Hnil|Hin]; [by left|right]. lia.
  - (* SelectExercise *)
    unfold selectExercise. destruct (negb _); [|exact Hin]. simpl. rewrite Hsa.
    simpl in Hoff. destruct (activeWorkout (view w)) as [aw|]; [|done].
    apply andb_true_iff in Hoff as [H0 Hn]. apply Z.leb_le in H0. apply Z.ltb_lt in Hn.
    right. lia.
  - (* FinishWorkout *)
    unfold finishWorkout.
    destruct (activeWorkout (view w)) as [aw|] eqn:Haw; [|by rewrite Haw].
    match goal with |- context [call ?c ?f ?w1] =>
      pose proof (call_view c f w1) as Hv; destruct (call c f w1) as [[err|r] w'] end;
      simpl in *; [|done]. by rewrite Hv, Hsa, Hsi.
Qed.
Lemma dispatch_in_bounds (ev : Event) (w : World B) :
  offered ev w = true -> in_bounds w -> in_bounds (dispatch ev w).
Proof.
  intros Hoff Hin. unfold dispatch. destruct (mounted w); [|done].
  pose proof (handler_in_bounds ev w Hoff Hin) as Hh.
  destruct (deps_changed w (handler ev w)); [|done].
  unfold in_bounds in *.
  destruct (initEffect_frame (handler ev w)) as (_ & _ & _ & _ & -> & ->). done.
Qed.

Lemma run_in_bounds (evs : list Event) :
  forall w : World B, all_offered evs w = true -> in_bounds w -> in_bounds (run evs w).
Proof.
  induction evs as [|ev evs IH]; intros w Hoff Hin; [done|].
  cbn [all_offered] in Hoff. apply andb_true_iff in Hoff as [Hev Hevs].
  unfold run. cbn [fold_left]. apply IH; [done|]. by apply dispatch_in_bounds.
Qed.

(** The calls a flush issues do not depend on how they are answered. *)
Lemma promise_all_calls {X R} (c : X -> Call) (f : X -> B -> Result R * B) (xs : list X) :
  forall w : World B,
    calls (snd (promise_all (fun x => call (c x) (f x)) xs w)) = calls w ++ map c xs.
Proof.
  induction xs as [|x xs IH]; intros w; [simpl; by rewrite app_nil_r|].
  cbn [promise_all]. unfold call at 1. destruct (f x (backend w)) as [r b'].
  match goal with |- context [promise_all ?g xs ?w1] =>
    specialize (IH w1); destruct (promise_all g xs w1) as [rs w2] end.
  simpl in *. by rewrite IH, <- app_assoc.
Qed.

Lemma saveAllSets_calls (w : World B) :
  calls (saveAllSets w) = calls w ++ map CallCreateWorkoutSet (pending w).
Proof.
  unfold saveAllSets, pending.
  destruct (activeWorkout (view w)) as [aw|]; [|simpl; by rewrite app_nil_r].
  destruct (currentExercise (view w)) as [ex|]; [|simpl; by rewrite app_nil_r].
  destruct (length _ =? 0)%nat eqn:Hlen.
  - apply Nat.eqb_eq in Hlen. destruct (setsToSave _ _ _); [|done].
    simpl. by rewrite app_nil_r.
  - match goal with |- context [promise_all ?g ?xs w] =>
      pose proof (promise_all_calls CallCreateWorkoutSet (fun set => createWorkoutSet set) xs w) as Hc;
      destruct (promise_all g xs w) as [[err|rows] w'] end; simpl in *; done.
Qed.

(** When every handler has its answers before the next event is taken,
    the guards of the navigation handlers keep the cursor inside the bounds
    of the non-empty exercise list, over every sequence of events (a
    select taking one of the offered indices).  At the last index, next
    leaves the cursor where it is and does exactly what [saveAllSets] does;
    at index 0, previous changes nothing and issues no call. *)
Lemma cursor_in_bounds_in_turn
  (w : World B) (evs : list Event) (aw : ActiveWorkout)
  (Hmounted : mounted w = true)
  (Hactive : activeWorkout (view w) = Some aw)
  (Hnonempty : aw_exercises aw <> [])
  (Hinside : (0 <= currentExerciseIndex (view w)
              <= Z.of_nat (length (aw_exercises aw)) - 1)%Z)
  (Hoffered : all_offered evs w = true) :
  in_bounds (run evs w)
  /\ (currentExerciseIndex (view w) = (Z.of_nat (length (aw_exercises aw)) - 1)%Z ->
      let w' := dispatch GoToNextExercise w in
      currentExerciseIndex (view w') = currentExerciseIndex (view w)
      /\ w' = saveAllSets w
      /\ calls w' = calls w ++ map CallCreateWorkoutSet (pending w))
  /\ (currentExerciseIndex (view w) = 0%Z ->
      dispatch GoToPreviousExercise w = w).
Proof.
  split; [|split].
  - apply run_in_bounds; [done|]. unfold in_bounds. rewrite Hactive. by right.
  - intros Hlast w'.
    assert (Hw' : w' = saveAllSets w).
    { subst w'. unfold dispatch. rewrite Hmounted. cbn [handler].
      unfold goToNextExercise. rewrite Hactive.
      rewrite Hlast, Z.ltb_irrefl.
      unfold deps_changed, deps.
      destruct (saveAllSets_view w) as (-> & _ & -> & _).
      by rewrite bool_decide_eq_true_2. }
    rewrite Hw'. destruct (saveAllSets_view w) as (_ & _ & -> & _).
    split; [done|]. split; [done|]. apply saveAllSets_calls.
  - intros Hfirst. unfold dispatch. rewrite Hmounted. cbn [handler].
    unfold goToPreviousExercise. rewrite Hfirst. simpl.
    unfold deps_changed. by rewrite bool_decide_eq_true_2.
Qed.

End Cursor.

(** ** Failing persistence calls *)
Section Failures.
Import Routes Observe Api Session Terms.
Context {B : Type} `{Backend B}.

(** Navigation moves the cursor to the same place whatever became of the
    flush. *)
Lemma navigation_target (ev : Event) (w : World B) :
  mounted w = true -> flushes ev w = true ->
  currentExerciseIndex (view (dispatch ev w)) = target ev w.
Proof.
  intros Hm Hfl. unfold dispatch. rewrite Hm.
  assert (Hh : currentExerciseIndex (view (handler ev w)) = target ev w).
  { destruct (saveAllSets_view w) as (_ & _ & Hsi & _).
    unfold target. destruct ev; simpl in Hfl; try done; cbn [handler].
    - unfold goToNextExercise. destruct (activeWorkout (view w)); [|done].
      by destruct (_ <? _)%Z; simpl; rewrite Hsi.
    - unfold goToPreviousExercise. rewrite Hfl. simpl. by rewrite Hsi.
    - unfold selectExercise. by rewrite Hfl. }
  destruct (deps_changed w (handler ev w)); [|done].
  by destruct (initEffect_frame (handler ev w)) as (_ & _ & _ & _ & _ & ->).
Qed.

Lemma saveAllSets_rejected (w : World B) err :
  pending w <> [] ->
  fst (promise_all (fun set => call (CallCreateWorkoutSet set) (createWorkoutSet set))
                   (pending w) w) = inl err ->
  view (saveAllSets w) = view w
  /\ console (saveAllSets w) = console w ++ [("Error saving sets:", err)].
Proof.
  unfold saveAllSets, pending.
  destruct (activeWorkout (view w)) as [aw|]; [|done].
  destruct (currentExercise (view w)) as [ex|]; [|done].
  intros Hne Hfail.
  destruct (setsToSave aw ex (setInputs (view w))) as [|d ds] eqn:Hds; [done|].
  cbn [length Nat.eqb].
  match goal with |- context [promise_all ?g ?xs w] =>
    pose proof (promise_all_frame g xs (fun x w0 => call_frame _ _ w0) w) as Hv;
    destruct (promise_all g xs w) as [[err'|rows] w'] end; simpl in *; [|done].
  destruct Hv as (-> & _ & _ & ->). by injection Hfail as ->.
Qed.

(** C6. In an in-progress workout:
    when the flush has something to send and [Promise.all] rejects, the
    flush returns normally with one ["Error saving sets:"] line on the
    console and the view (cursor, drafts, recorded sets, active workout)
    exactly as it was, and the navigation event that asked for the flush
    still moves the cursor where it would have moved it and, when that is
    another exercise, replaces the unsaved drafts by that exercise's empty
    slots;
    when the [end_time] update is rejected, the finish returns normally with
    one ["Error finishing workout:"] line and the view exactly as the
    flush left it, the workout still active.  No branch restores an earlier
    value. *)
Theorem failed_calls_logged_and_ignored
  (w : World B) (now : Z) (aw : ActiveWorkout)
  (Hmounted : mounted w = true)
  (Hactive : activeWorkout (view w) = Some aw) :
  (forall err,
      pending w <> [] ->
      fst (promise_all (fun set => call (CallCreateWorkoutSet set) (createWorkoutSet set))
                       (pending w) w) = inl err ->
      view (saveAllSets w) = view w
      /\ console (saveAllSets w) = console w ++ [("Error saving sets:", err)]
      /\ forall ev, flushes ev w = true ->
           currentExerciseIndex (view (dispatch ev w)) = target ev w
           /\ activeWorkout (view (dispatch ev w)) = Some aw
           /\ workoutSets (view (dispatch ev w)) = workoutSets (view w)
           /\ console (dispatch ev w) = console w ++ [("Error saving sets:", err)]
           /\ (forall ex',
                 target ev w <> currentExerciseIndex (view w) ->
                 at_index (aw_exercises aw) (target ev w) = Some ex' ->
                 setInputs (view (dispatch ev w))
                 = replicate (Z.to_nat (planned_sets ex')) defaultInput))
  /\ (forall err,
        fst (updateWorkout (aw_id aw) now (backend (saveAllSets w))) = inl err ->
        let w' := dispatch (FinishWorkout now) w in
        view w' = view (saveAllSets w)
        /\ activeWorkout (view w') = Some aw
        /\ currentExerciseIndex (view w') = currentExerciseIndex (view w)
        /\ setInputs (view w') = setInputs (view w)
        /\ console w' = console (saveAllSets w) ++ [("Error finishing workout:", err)]).
Proof.
  split.
  - intros err Hne Hfail.
    destruct (saveAllSets_rejected w err Hne Hfail) as [Hv Hc].
    split; [done|]. split; [done|]. intros ev Hfl.
    destruct (dispatch_flushing ev w Hmounted Hfl) as (_ & _ & Hco & Hws & Ha).
    pose proof (navigation_target ev w Hmounted Hfl) as Hidx.
    split; [done|]. rewrite Ha, Hws, Hco, Hv, Hc.
    split; [done|]. split; [done|]. split; [done|].
    intros ex' Hmoved Hex'.
    apply (landing ev w aw ex'); try done.
    + unfold deps. rewrite Hidx. intros [= _ Heq]. done.
    + by rewrite Ha, Hv.
    + by rewrite Hidx.
  - intros err Hfail w'.
    destruct (saveAllSets_view w) as (Hsa & _ & Hsi & Hin & _).
    assert (Hh : handler (FinishWorkout now) w
                 = console_error "Error finishing workout:" err
                     (snd (call (CallUpdateWorkout (aw_id aw) now)
                                (updateWorkout (aw_id aw) now) (saveAllSets w)))).
    { cbn [handler]. unfold finishWorkout. rewrite Hactive. unfold call.
      destruct (updateWorkout (aw_id aw) now (backend (saveAllSets w))) as [r b'].
      simpl in Hfail. subst r. done. }
    assert (Hview : view (handler (FinishWorkout now) w) = view (saveAllSets w)).
    { rewrite Hh. simpl. apply call_view. }
    assert (Hw' : w' = handler (FinishWorkout now) w).
    { subst w'. unfold dispatch. rewrite Hmounted.
      unfold deps_changed, deps. rewrite Hview, Hsa, Hsi.
      by rewrite bool_decide_eq_true_2. }
    rewrite Hw', Hview. split; [done|]. rewrite Hsa, Hsi, Hin.
    split; [done|]. split; [done|]. split; [done|].
    rewrite Hh. simpl. f_equal.
    apply (call_frame (CallUpdateWorkout (aw_id aw) now) (updateWorkout (aw_id aw) now)
             (saveAllSets w)).
Qed.

End Failures.

Section Quiet.
Import Routes Observe Api Session Terms.

Lemma dispatch_quiet {B} `{Backend B} (ev : Event) (w : World B) :
  mounted w = true -> quiet ev = true -> dispatch ev w = handler ev w.
Proof.
  intros Hm Hq. unfold dispatch. rewrite Hm.
  destruct (quiet_handler ev w Hq) as [Ha Hi].
  unfold deps_changed, deps. rewrite Ha, Hi. by rewrite bool_decide_eq_true_2.
Qed.

End Quiet.

(** ** Schedules *)
Section Schedules.
Import Routes Observe Api Session Terms Overlap.
Context {B : Type} `{Backend B}.

Lemma settle_waiting (w w' : World B) :
  mounted w = true -> view w' = view w -> settle w w' = w'.
Proof.
  unfold settle, deps_changed, deps. intros -> ->.
  by rewrite bool_decide_eq_true_2.
Qed.

Lemma settle_resumed (w0 w w' : World B) :
  mounted w = true -> deps w = deps w0 ->
  settle w w' = if deps_changed w0 w' then initEffect w' else w'.
Proof. unfold settle, deps_changed. by intros -> ->. Qed.

Lemma saveAllSets_begin_frame (w : World B) : same_frame w (snd (saveAllSets_begin w)).
Proof.
  unfold saveAllSets_begin.
  destruct (activeWorkout (view w)); [|done].
  destruct (currentExercise (view w)); [|done].
  destruct (length _ =? 0)%nat; [done|].
  match goal with |- context [promise_all ?g ?xs w] =>
    pose proof (promise_all_frame g xs (fun x w0 => call_frame _ _ w0) w) as Hv;
    destruct (promise_all g xs w) as [r w'] end.
  exact Hv.
Qed.

(** [saveAllSets] is its two halves, one after the other. *)
Lemma saveAllSets_halves (w : World B) :
  saveAllSets w = match saveAllSets_begin w with
                  | (None, w') => w'
                  | (Some answer, w') => saveAllSets_end answer w'
                  end.
Proof.
  unfold saveAllSets, saveAllSets_begin.
  destruct (activeWorkout (view w)); [|done].
  destruct (currentExercise (view w)); [|done].
  destruct (length _ =? 0)%nat; [done|].
  by destruct (promise_all _ _ w) as [[err|rows] w'].
Qed.

Lemma saveAllSets_begin_none (w w' : World B) :
  saveAllSets_begin w = (None, w') -> w' = w.
Proof.
  unfold saveAllSets_begin.
  destruct (activeWorkout (view w)); [|by intros [= <-]].
  destruct (currentExercise (view w)); [|by intros [= <-]].
  destruct (length _ =? 0)%nat; [by intros [= <-]|].
  by destruct (promise_all _ _ w).
Qed.

Lemma save_then_splits (ev : Event) (rest : Rest) (w : World B) :
  rest <> RestNone \/ ev = SaveAllSets ->
  (forall aw now, rest <> RestFinish aw now) ->
  click ev w = save_then rest w ->
  handler ev w = fst (after_save rest (saveAllSets w)) ->
  splits ev w.
Proof.
  intros _ Hrest Hclick Hhandler. unfold splits. rewrite Hclick, Hhandler.
  unfold save_then. rewrite saveAllSets_halves.
  pose proof (saveAllSets_begin_frame w) as Hframe.
  destruct (saveAllSets_begin w) as [[answer|] w1] eqn:Hbegin.
  - right. left. exists w1, (AwaitSaveAllSets answer rest).
    split; [done|]. split; [done|]. cbn [resume].
    destruct rest as [|index [aw|]| | |aw now]; cbn [after_save fst]; try done.
    by destruct (Hrest aw now).
  - left. destruct rest as [|index [aw|]| | |aw now]; cbn [after_save fst]; try done.
    by destruct (Hrest aw now).
Qed.

Lemma handler_splits (ev : Event) (w : World B) : splits ev w.
Proof.
  destruct ev.
  - by left.
  - (* StartWorkout *)
    unfold splits. cbn [click handler]. unfold startWorkout. cbv zeta.
    destruct (negb _ || _); [by left|].
    destruct (List.find _ _) as [selectedRoutine|]; [|by left].
    match goal with |- context [call ?c ?f w] =>
      pose proof (call_frame c f w) as Hframe; destruct (call c f w) as [r w1] end.
    right. left. eexists _, _. split; [done|]. split; [done|].
    by destruct r.
  - by left.
  - (* SaveSetOnBlur *)
    unfold splits. cbn [click handler]. unfold saveSetOnBlur.
    destruct (activeWorkout (view w)) as [aw|]; [|by left].
    destruct (currentExercise (view w)) as [ex|]; [|by left].
    destruct (setInputs (view w) !! setIndex) as [setData|]; [|by left].
    destruct (has_data _ _); [|by left].
    match goal with |- context [call ?c ?f w] =>
      pose proof (call_frame c f w) as Hframe; destruct (call c f w) as [r w1] end.
    right. left. eexists _, _. split; [done|]. split; [done|].
    by destruct r.
  - (* SaveAllSets *)
    apply (save_then_splits SaveAllSets RestNone); try done. by right.
  - (* GoToNextExercise *)
    apply (save_then_splits GoToNextExercise
             (RestNext (currentExerciseIndex (view w)) (activeWorkout (view w))));
      try done; [by left|].
    cbn [handler]. unfold goToNextExercise.
    by destruct (activeWorkout (view w)).
  - (* GoToPreviousExercise *)
    destruct (0 <? currentExerciseIndex (view w))%Z eqn:Hlt.
    + apply (save_then_splits GoToPreviousExercise RestPrevious); try done; [by left| |].
      * cbn [click]. by rewrite Hlt.
      * cbn [handler]. unfold goToPreviousExercise. by rewrite Hlt.
    + left. cbn [click handler]. unfold goToPreviousExercise. by rewrite Hlt.
  - (* SelectExercise *)
    destruct (negb (exerciseIndex =? currentExerciseIndex (view w))%Z) eqn:Hne.
    + apply (save_then_splits (SelectExercise exerciseIndex) (RestSelect exerciseIndex));
        try done; [by left| |].
      * cbn [click]. by rewrite Hne.
      * cbn [handler]. unfold selectExercise. by rewrite Hne.
    + left. cbn [click handler]. unfold selectExercise. by rewrite Hne.
  - (* DeleteSet *)
    unfold splits. cbn [click handler]. unfold deleteSet.
    match goal with |- context [call ?c ?f w] =>
      pose proof (call_frame c f w) as Hframe; destruct (call c f w) as [r w1] end.
    right. left. eexists _, _. split; [done|]. split; [done|].
    by destruct r.
  - by left.
  - by left.
  - (* FinishWorkout *)
    unfold splits. cbn [click handler]. unfold finishWorkout, save_then.
    destruct (activeWorkout (view w)) as [aw|] eqn:Haw; [|by left].
    rewrite saveAllSets_halves.
    pose proof (saveAllSets_begin_frame w) as Hframe.
    destruct (saveAllSets_begin w) as [[answer|] w1] eqn:Hbegin; cbn [snd] in Hframe.
    + right. right. cbn [after_save].
      match goal with |- context [call ?c ?f (saveAllSets_end answer w1)] =>
        pose proof (call_frame c f (saveAllSets_end answer w1)) as Hframe2;
        destruct (call c f (saveAllSets_end answer w1)) as [r w2] eqn:Hcall end.
      exists w1, (AwaitSaveAllSets answer (RestFinish aw now)), w2, (AwaitUpdateWorkout r).
      split; [done|]. split; [done|]. cbn [resume after_save]. rewrite Hcall.
      cbn [snd] in Hframe2. destruct Hframe2 as (Hv2 & _ & Hm2 & _).
      destruct Hframe as (Hv1 & _ & Hm1 & _).
      assert (Hend : deps (saveAllSets_end answer w1) = deps w
                     /\ mounted (saveAllSets_end answer w1) = mounted w).
      { unfold deps. destruct answer; cbn; by rewrite Hv1, Hm1. }
      destruct Hend as [Hd He].
      split; [done|]. split; [unfold deps in *; by rewrite Hv2|].
      split; [congruence|]. by destruct r.
    + right. left. cbn [after_save].
      match goal with |- context [call ?c ?f w1] =>
        pose proof (call_frame c f w1) as Hframe2; destruct (call c f w1) as [r w2] end.
      cbn [snd] in Hframe2. destruct Hframe2 as (Hv2 & Hr2 & Hm2 & Hc2).
      destruct Hframe as (Hv1 & Hr1 & Hm1 & Hc1).
      eexists _, _. split; [done|].
      split; [unfold same_frame; by rewrite Hv2, Hr2, Hm2, Hc2|].
      by destruct r.
Qed.

(** [dispatch] is the schedule on which the answers of a handler arrive
    before anything else happens. *)
Lemma uninterrupted_dispatch (ev : Event) (w : World B) :
  steps (uninterrupted ev) (mkLive w []) = mkLive (dispatch ev w) [].
Proof.
  unfold steps, uninterrupted, dispatch. cbn [fold_left step world inflight].
  destruct (mounted w) eqn:Hm; [|done].
  destruct (handler_splits ev w)
    as [Hc | [(w1 & fl & Hc & Hf & Hr) | (w1 & fl & w2 & fl2 & Hc & Hf & Hr & Hd & Hm2 & Hr2)]];
    rewrite Hc; cbn [app option_list world inflight lookup].
  - unfold settle. by rewrite Hm.
  - destruct Hf as (Hv & _ & Hm1 & _).
    rewrite (settle_waiting w w1) by done. cbn. rewrite Hr. cbn.
    rewrite (settle_resumed w w1); [done|congruence|unfold deps; by rewrite Hv].
  - destruct Hf as (Hv & _ & Hm1 & _).
    rewrite (settle_waiting w w1) by done. cbn. rewrite Hr. cbn.
    rewrite (settle_resumed w w1 w2); [|congruence|unfold deps; by rewrite Hv].
    assert (Hsame : deps_changed w w2 = false).
    { unfold deps_changed. rewrite Hd. apply negb_false_iff.
      by apply bool_decide_eq_true_2. }
    rewrite Hsame, Hr2. cbn.
    rewrite (settle_resumed w w2); [done|congruence|done].
Qed.

Lemma serial_run (evs : list Event) :
  forall w : World B, steps (serial evs) (mkLive w []) = mkLive (run evs w) [].
Proof.
  induction evs as [|ev evs IH]; intros w; [done|].
  unfold serial, steps. cbn [map concat]. rewrite fold_left_app.
  fold (steps (uninterrupted ev) (mkLive w [])). rewrite uninterrupted_dispatch.
  apply IH.
Qed.

End Schedules.

(** ** The flush against the repository's set schema *)
Section RepositorySchema.
Import Routes Observe Api Session Terms.
Context `{Bcrypt}.
#[local] Existing Instance Wire.repository.

Lemma repository_takes_workouts (d : InsertWorkout) : accepts_workout d = true.
Proof. reflexivity. Qed.

Lemma repository_refuses_sets (d : InsertWorkoutSet) : accepts_workout_set d = false.
Proof. reflexivity. Qed.

Lemma answered_none (x : Express) : answered x 0 = x.
Proof. destruct x. unfold answered. simpl. by rewrite Nat.add_0_r. Qed.

Lemma answered_more (x : Express) (k : nat) :
  answered (answered x 1) k = answered x (S k).
Proof. unfold answered. simpl. f_equal. lia. Qed.

(** Under a valid session the route answers 400 to every set the client
    sends, and stores nothing. *)
Lemma createWorkoutSet_refused (x : Express) (u : SessionUser) (d : InsertWorkoutSet) :
  session_user x = Some u ->
  createWorkoutSet d x = (inl "Invalid set data", answered x 1).
Proof.
  intros Hu. cbn [createWorkoutSet express]. rewrite repository_refuses_sets.
  rewrite (request_api x u) by done. cbn. unfold answered. repeat f_equal. lia.
Qed.

Local Abbreviation saveCall :=
  (fun set : InsertWorkoutSet => call (CallCreateWorkoutSet set) (createWorkoutSet set)).

Lemma flush_refused (ds : list InsertWorkoutSet) :
  forall (w : World Express) (u : SessionUser),
    session_user (backend w) = Some u ->
    promise_all saveCall ds w
    = (match ds with
       | [] => inr []
       | _ :: _ => inl "Invalid set data"
       end,
       mkWorld (view w) (answered (backend w) (length ds)) (console w)
               (calls w ++ map CallCreateWorkoutSet ds) (refs w) (mounted w)).
Proof.
  induction ds as [|d ds IH]; intros w u Hu.
  - simpl. rewrite answered_none, app_nil_r. by destruct w.
  - cbn [promise_all]. unfold call at 1.
    rewrite (createWorkoutSet_refused _ u) by done.
    rewrite (IH _ u) by done. cbn [view backend console calls refs mounted].
    rewrite answered_more, <- app_assoc. cbn [length map app].
    by destruct ds.
Qed.

Lemma saveAllSets_refused (w : World Express) aw ex u :
  activeWorkout (view w) = Some aw ->
  currentExercise (view w) = Some ex ->
  session_user (backend w) = Some u ->
  setsToSave aw ex (setInputs (view w)) <> [] ->
  let ds := setsToSave aw ex (setInputs (view w)) in
  saveAllSets w
  = mkWorld (view w) (answered (backend w) (length ds))
            (console w ++ [("Error saving sets:", "Invalid set data")])
            (calls w ++ map CallCreateWorkoutSet ds) (refs w) (mounted w).
Proof.
  intros Haw Hex Hu Hne ds. unfold saveAllSets. rewrite Haw, Hex. fold ds.
  destruct ds as [|d ds'] eqn:Hds; [done|]. cbn [length Nat.eqb].
  by rewrite (flush_refused _ w u).
Qed.

Lemma populated_is_sent aw ex (inputs : list SetInput) i input :
  inputs !! i = Some input -> populated input ->
  In (draft aw ex i input) (setsToSave aw ex inputs).
Proof. intros Hi Hp. apply setsToSave_spec. by exists i, input. Qed.

(** C1 (the code does not do this).  In an in-progress workout whose
    cursor is on an exercise with a populated draft, an event that leaves
    the exercise through [saveAllSets] (next; previous from an index above
    0; selecting another index) does send one set-creation call for each
    populated draft slot and none for another, under a valid session.  But
    [insertWorkoutSetSchema] takes the [decimal] weight as a string and
    the client sends a number: every call is answered 400
    [{error: "Invalid set data"}], no row is stored, the flush logs
    ["Error saving sets:"], the recorded list stays as it was, and the
    cursor moves on all the same, so the populated drafts are lost. *)
Theorem navigation_persists_nothing
  (w : World Express) (ev : Event) (aw : ActiveWorkout) (ex : Exercise)
  (u : SessionUser) (i : nat) (input : SetInput)
  (Hmounted : mounted w = true)
  (Hleaves : flushes ev w = true)
  (Hactive : activeWorkout (view w) = Some aw)
  (Hcursor : currentExercise (view w) = Some ex)
  (Hsession : session_user (backend w) = Some u)
  (Hslot : setInputs (view w) !! i = Some input)
  (Hpopulated : populated input) :
  let inputs := setInputs (view w) in
  let w' := dispatch ev w in
  (exists sent,
      calls w' = calls w ++ map CallCreateWorkoutSet sent
      /\ (forall j input', inputs !! j = Some input' -> populated input' ->
            In (draft aw ex j input') sent)
      /\ (forall d, In d sent ->
            exists j input', inputs !! j = Some input' /\ populated input'
                             /\ d = draft aw ex j input')
      /\ forall d, In d sent ->
           fst (createWorkoutSet d (backend w)) = inl "Invalid set data")
  /\ server (backend w') = server (backend w)
  /\ workout_sets (db (server (backend w'))) = workout_sets (db (server (backend w)))
  /\ console w' = console w ++ [("Error saving sets:", "Invalid set data")]
  /\ workoutSets (view w') = workoutSets (view w)
  /\ currentExerciseIndex (view w') = target ev w.
Proof.
  intros inputs w'.
  assert (Hne : setsToSave aw ex (setInputs (view w)) <> []).
  { intros Hnil. pose proof (populated_is_sent aw ex _ i input Hslot Hpopulated) as Hin.
    by rewrite Hnil in Hin. }
  destruct (dispatch_flushing ev w Hmounted Hleaves) as (Hb & Hc & Hco & Hws & _).
  pose proof (saveAllSets_refused w aw ex u Hactive Hcursor Hsession Hne) as Hsave.
  cbv zeta in Hsave. subst w'. rewrite Hb, Hc, Hco, Hws, Hsave.
  cbn [backend calls console view].
  split; [|split; [done|split; [done|split; [done|split; [done|]]]]].
  - exists (setsToSave aw ex (setInputs (view w))). split; [done|].
    split; [intros j input' Hj Hp; by apply populated_is_sent|].
    split; [intros d Hd; by apply setsToSave_spec|].
    intros d _. by rewrite (createWorkoutSet_refused _ u).
  - by apply navigation_target.
Qed.

Lemma saveSetOnBlur_refused (w : World Express) (i : nat) aw ex input u :
  activeWorkout (view w) = Some aw ->
  currentExercise (view w) = Some ex ->
  setInputs (view w) !! i = Some input ->
  populated input ->
  session_user (backend w) = Some u ->
  saveSetOnBlur i w
  = mkWorld (view w) (answered (backend w) 1)
            (console w ++ [("Error saving set:", "Invalid set data")])
            (calls w ++ [CallCreateWorkoutSet (draft aw ex i input)])
            (refs w) (mounted w).
Proof.
  intros Haw Hex Hi Hp Hu. unfold saveSetOnBlur.
  rewrite Haw, Hex, Hi. apply has_data_populated in Hp. rewrite Hp.
  unfold call. fold (draft aw ex i input).
  by rewrite (createWorkoutSet_refused _ u).
Qed.

(** C10 (the code does not do this).  A populated draft slot is blurred
    and the exercise is then left through a flushing navigation event,
    under a valid session.  The blur sends one set-creation call for the
    slot and the flush sends it again, as the claim says; but both are
    answered 400 [{error: "Invalid set data"}] by the set schema (the
    defect of C1): the blur logs ["Error saving set:"] and the flush
    ["Error saving sets:"], [workout_sets] gains no row, and the
    recorded-sets list is after both what it was before, with no entry for
    the slot added. *)
Theorem blur_then_leave_persists_nothing
  (w : World Express) (ev : Event) (i : nat) (aw : ActiveWorkout) (ex : Exercise)
  (input : SetInput) (u : SessionUser)
  (Hmounted : mounted w = true)
  (Hactive : activeWorkout (view w) = Some aw)
  (Hcursor : currentExercise (view w) = Some ex)
  (Hslot : setInputs (view w) !! i = Some input)
  (Hpopulated : populated input)
  (Hleaves : flushes ev w = true)
  (Hsession : session_user (backend w) = Some u) :
  let d := draft aw ex i input in
  let w1 := dispatch (SaveSetOnBlur i) w in
  let w2 := dispatch ev w1 in
  calls w1 = calls w ++ [CallCreateWorkoutSet d]
  /\ fst (createWorkoutSet d (backend w)) = inl "Invalid set data"
  /\ console w1 = console w ++ [("Error saving set:", "Invalid set data")]
  /\ view w1 = view w
  /\ (exists before after,
        calls w2 = calls w1 ++ before ++ [CallCreateWorkoutSet d] ++ after)
  /\ console w2 = console w1 ++ [("Error saving sets:", "Invalid set data")]
  /\ server (backend w2) = server (backend w)
  /\ workout_sets (db (server (backend w2))) = workout_sets (db (server (backend w)))
  /\ workoutSets (view w2) = workoutSets (view w)
  /\ length (List.filter (same_slot ex i) (workoutSets (view w2)))
     = length (List.filter (same_slot ex i) (workoutSets (view w))).
Proof.
  intros d w1 w2.
  assert (Hw1 : w1 = mkWorld (view w) (answered (backend w) 1)
                       (console w ++ [("Error saving set:", "Invalid set data")])
                       (calls w ++ [CallCreateWorkoutSet d]) (refs w) (mounted w)).
  { subst w1. rewrite dispatch_quiet by done. cbn [handler].
    by apply (saveSetOnBlur_refused w i aw ex input u). }
  assert (Hin : In d (setsToSave aw ex (setInputs (view w))))
    by (by apply populated_is_sent).
  assert (Hne : setsToSave aw ex (setInputs (view w1)) <> []).
  { rewrite Hw1. cbn [view]. intros Hnil. by rewrite Hnil in Hin. }
  assert (Hm1 : mounted w1 = true) by (by rewrite Hw1).
  assert (Hfl1 : flushes ev w1 = true) by (by rewrite Hw1).
  destruct (dispatch_flushing ev w1 Hm1 Hfl1) as (Hb & Hc & Hco & Hws & _).
  assert (Hsave : saveAllSets w1
            = mkWorld (view w1)
                (answered (backend w1) (length (setsToSave aw ex (setInputs (view w1)))))
                (console w1 ++ [("Error saving sets:", "Invalid set data")])
                (calls w1 ++ map CallCreateWorkoutSet
                                 (setsToSave aw ex (setInputs (view w1))))
                (refs w1) (mounted w1)).
  { apply (saveAllSets_refused w1 aw ex u); try done; by rewrite Hw1. }
  subst w2. rewrite Hb, Hc, Hco, Hws, Hsave. cbn [backend calls console view].
  split; [by rewrite Hw1|].
  split; [by rewrite (createWorkoutSet_refused _ u)|].
  split; [by rewrite Hw1|]. split; [by rewrite Hw1|].
  split.
  { rewrite Hw1. cbn [view]. apply in_split in Hin as (l1 & l2 & ->).
    exists (map CallCreateWorkoutSet l1), (map CallCreateWorkoutSet l2).
    by rewrite map_app. }
  split; [done|]. rewrite Hw1. cbn [backend view]. by repeat split.
Qed.

End RepositorySchema.

(** ** Reachable worlds *)
Section Reachable.
Import Routes Observe Api Session Terms.
Context {B : Type} `{Backend B}.

Lemma quiet_handler_rest (ev : Event) (w : World B) :
  quiet ev = true ->
  currentExercise (view (handler ev w)) = currentExercise (view w)
  /\ length (setInputs (view (handler ev w))) = length (setInputs (view w))
  /\ refs (handler ev w) = refs w
  /\ mounted (handler ev w) = mounted w.
Proof.
  intros Hq. destruct ev; try done; cbn [handler]; try done.
  - simpl. by rewrite length_imap.
  - unfold saveSetOnBlur.
    destruct (activeWorkout (view w)) as [aw|]; [|done].
    destruct (currentExercise (view w)) as [ex|] eqn:Hex; [|by rewrite Hex].
    destruct (setInputs (view w) !! setIndex) as [setData|]; [|by rewrite Hex].
    destruct (has_data _ _); [|by rewrite Hex].
    match goal with |- context [call ?c ?f w] =>
      pose proof (call_frame c f w) as Hv; destruct (call c f w) as [[err|r] w'] end;
      simpl in *; destruct Hv as (-> & -> & -> & _); by rewrite ?Hex.
  - destruct (saveAllSets_view w) as (_ & -> & _ & -> & -> & ->). done.
  - unfold deleteSet.
    match goal with |- context [call ?c ?f w] =>
      pose proof (call_frame c f w) as Hv; destruct (call c f w) as [[err|r] w'] end;
      simpl in *; by destruct Hv as (-> & -> & -> & _).
Qed.

Lemma initEffect_synced (w : World B) aw :
  activeWorkout (view w) = Some aw ->
  (aw_ref aw < refs w)%nat ->
  (aw_exercises aw = [] ->
   currentExerciseIndex (view w) = 0%Z /\ currentExercise (view w) = None
   /\ setInputs (view w) = []) ->
  synced (initEffect w).
Proof.
  intros Haw Href Hempty. unfold synced, initEffect. rewrite Haw.
  destruct (aw_exercises aw) as [|e l] eqn:Hexs.
  - simpl. rewrite Haw, Hexs. intros _. split; [done|].
    destruct (Hempty eq_refl) as (-> & -> & ->). done.
  - cbn [length]. replace (0 <? Z.of_nat (S (length l)))%Z with true
      by (symmetry; apply Z.ltb_lt; lia).
    destruct (at_index (e :: l) (currentExerciseIndex (view w))) as [ex|] eqn:Hat;
      simpl; [|done].
    rewrite Haw, Hexs, Hat. intros _. split; [done|]. split; [done|].
    apply length_replicate.
Qed.

Lemma synced_like (w w' : World B) :
  activeWorkout (view w') = activeWorkout (view w) ->
  currentExerciseIndex (view w') = currentExerciseIndex (view w) ->
  currentExercise (view w') = currentExercise (view w) ->
  length (setInputs (view w')) = length (setInputs (view w)) ->
  refs w' = refs w -> mounted w' = mounted w ->
  synced w -> synced w'.
Proof.
  unfold synced. intros -> -> -> Hlen -> -> Hs Hm. specialize (Hs Hm).
  assert (Hnil : setInputs (view w) = [] -> setInputs (view w') = []).
  { intros Hn. rewrite Hn in Hlen. by apply nil_length_inv. }
  destruct (activeWorkout (view w)) as [aw|].
  - destruct Hs as [Href Hs]. split; [done|].
    destruct (at_index _ _) as [ex|].
    + destruct Hs as [Hc Hl]. split; [done|]. congruence.
    + destruct Hs as (? & ? & ? & ?). auto.
  - destruct Hs as [? ?]. auto.
Qed.

Lemma dispatch_synced (ev : Event) (w : World B) :
  enabled ev w = true -> synced w -> synced (dispatch ev w).
Proof.
  intros Hen Hs.
  destruct (mounted w) eqn:Hm; [|unfold dispatch; by rewrite Hm].
  destruct (quiet ev) eqn:Hq.
  { rewrite dispatch_quiet by done.
    destruct (quiet_handler ev w Hq) as [Ha Hi].
    destruct (quiet_handler_rest ev w Hq) as (Hc & Hl & Hr & Hmm).
    by apply (synced_like w). }
  pose proof (Hs Hm) as G.
  destruct (saveAllSets_view w) as (Hsa & Hsc & Hsi & Hsin & Hsr & Hsm).
  assert (Hflushed : synced (saveAllSets w)).
  { apply (synced_like w); try done. by rewrite Hsin. }
  unfold dispatch. rewrite Hm.
  destruct ev; try done; cbn [handler].
  - (* StartWorkout *)
    simpl in Hen. destruct (activeWorkout (view w)) as [aw0|] eqn:Haw; [done|].
    destruct G as [Hcur Hin].
    unfold startWorkout. cbv zeta.
    destruct (negb _ || _).
    { unfold deps_changed. by rewrite bool_decide_eq_true_2. }
    destruct (List.find _ _) as [sel|].
    2:{ unfold deps_changed. by rewrite bool_decide_eq_true_2. }
    match goal with |- context [call ?c ?f w] =>
      pose proof (call_frame c f w) as Hv; destruct (call c f w) as [[err|r] w'] end;
      simpl in Hv; destruct Hv as (Hv & Hr & Hmm & _).
    + assert (Hd : deps_changed w (console_error "Error starting workout:" err w') = false).
      { unfold deps_changed, deps. simpl. rewrite Hv.
        apply negb_false_iff. by apply bool_decide_eq_true_2. }
      rewrite Hd. apply (synced_like w); simpl; try done; by rewrite ?Hv.
    + match goal with |- synced (if ?c then _ else _) =>
        assert (Hd : c = true) end.
      { unfold deps_changed, deps. simpl. by rewrite Haw. }
      rewrite Hd.
      match goal with |- synced (initEffect ?w1) =>
        apply (initEffect_synced w1
                 (mkActiveWorkout (refs w') (w_id r) (routine_name sel) (w_start_time r)
                                  (exercises sel))) end; simpl; try done; [lia|].
      intros _. by rewrite Hv.
  - (* GoToNextExercise *)
    unfold goToNextExercise.
    destruct (activeWorkout (view w)) as [aw|] eqn:Haw.
    2:{ unfold deps_changed, deps. rewrite Hsa, Hsi, Haw.
        by rewrite bool_decide_eq_true_2. }
    destruct G as [Href G].
    destruct (_ <? _)%Z eqn:Hlt.
    + apply Z.ltb_lt in Hlt.
      match goal with |- synced (if ?c then _ else _) =>
        assert (Hd : c = true) end.
      { unfold deps_changed, deps. simpl. rewrite Hsi, Hsa, Haw.
        apply negb_true_iff, bool_decide_eq_false. intros [= Heq]. lia. }
      rewrite Hd. apply (initEffect_synced _ aw); simpl; [by rewrite Hsa|by rewrite Hsr|].
      intros Hnil. rewrite Hnil in Hlt. simpl in Hlt.
      rewrite Hnil in G. unfold at_index in G.
      destruct (_ <? 0)%Z; destruct G as (_ & Hz & _); lia.
    + unfold deps_changed, deps. rewrite Hsa, Hsi, Haw.
      by rewrite bool_decide_eq_true_2.
  - (* GoToPreviousExercise *)
    unfold goToPreviousExercise. destruct (0 <? _)%Z eqn:Hlt.
    2:{ unfold deps_changed. by rewrite bool_decide_eq_true_2. }
    apply Z.ltb_lt in Hlt.
    match goal with |- synced (if ?c then _ else _) =>
      assert (Hd : c = true) end.
    { unfold deps_changed, deps. simpl. rewrite Hsi, Hsa.
      apply negb_true_iff, bool_decide_eq_false. intros [= Heq]. lia. }
    rewrite Hd.
    destruct (activeWorkout (view w)) as [aw|] eqn:Haw.
    2:{ unfold synced, initEffect. simpl. rewrite Hsa. simpl. rewrite Hsa, Hsc, Hsin.
        intros _. exact G. }
    destruct G as [Href G].
    apply (initEffect_synced _ aw); simpl; [by rewrite Hsa|by rewrite Hsr|].
    intros Hnil. rewrite Hnil in G. unfold at_index in G.
    destruct (_ <? 0)%Z; destruct G as (_ & Hz & _); lia.
  - (* SelectExercise *)
    unfold selectExercise. destruct (negb _) eqn:Hne.
    2:{ unfold deps_changed. by rewrite bool_decide_eq_true_2. }
    apply negb_true_iff, Z.eqb_neq in Hne.
    match goal with |- synced (if ?c then _ else _) =>
      assert (Hd : c = true) end.
    { unfold deps_changed, deps. simpl. rewrite Hsa.
      apply negb_true_iff, bool_decide_eq_false. intros [= Heq]. done. }
    rewrite Hd. simpl in Hen.
    destruct (activeWorkout (view w)) as [aw|] eqn:Haw; [|done].
    destruct G as [Href G].
    apply (initEffect_synced _ aw); simpl; [by rewrite Hsa|by rewrite Hsr|].
    intros Hnil. rewrite Hnil in Hen. simpl in Hen.
    apply andb_true_iff in Hen as [H0 Hn]. apply Z.leb_le in H0. apply Z.ltb_lt in Hn. lia.
  - (* FinishWorkout *)
    unfold finishWorkout.
    destruct (activeWorkout (view w)) as [aw|] eqn:Haw.
    2:{ unfold deps_changed. by rewrite bool_decide_eq_true_2. }
    match goal with |- context [call ?c ?f ?w1] =>
      pose proof (call_frame c f w1) as Hv; destruct (call c f w1) as [[err|r] w2] end;
      simpl in Hv; destruct Hv as (Hv & Hr & Hmm & _).
    + assert (Hd : deps_changed w (console_error "Error finishing workout:" err w2) = false).
      { unfold deps_changed, deps. simpl. rewrite Hv, Hsa, Hsi, Haw.
        apply negb_false_iff. by apply bool_decide_eq_true_2. }
      rewrite Hd. apply (synced_like (saveAllSets w)); simpl; try done; by rewrite ?Hv.
    + match goal with |- synced (if ?c then _ else _) =>
        assert (Hd : c = true) end.
      { unfold deps_changed, deps. simpl. by rewrite Haw. }
      rewrite Hd. unfold initEffect. simpl. unfold synced. simpl. done.
Qed.

Lemma run_synced (evs : list Event) :
  forall w : World B, all_enabled evs w = true -> synced w -> synced (run evs w).
Proof.
  induction evs as [|ev evs IH]; intros w Hen Hs; [done|].
  cbn [all_enabled] in Hen. apply andb_true_iff in Hen as [Hev Hevs].
  unfold run. cbn [fold_left]. apply IH; [done|]. by apply dispatch_synced.
Qed.

(** In a reachable, mounted world whose active workout has exercises, the
    current exercise is the one under the cursor, and its drafts are as
    many as its planned sets. *)
Lemma run_current_exercise (evs : list Event) (w : World B) aw :
  synced w -> all_enabled evs w = true ->
  mounted (run evs w) = true ->
  activeWorkout (view (run evs w)) = Some aw ->
  aw_exercises aw <> [] ->
  exists ex,
    at_index (aw_exercises aw) (currentExerciseIndex (view (run evs w))) = Some ex
    /\ currentExercise (view (run evs w)) = Some ex
    /\ length (setInputs (view (run evs w))) = Z.to_nat (planned_sets ex).
Proof.
  intros Hs Hen Hm Haw Hne.
  pose proof (run_synced evs w Hen Hs Hm) as G. rewrite Haw in G.
  destruct G as [_ G]. destruct (at_index _ _) as [ex|].
  - exists ex. by destruct G.
  - by destruct G.
Qed.

End Reachable.

(** The backend changes only through the four API calls. *)
Section BackendOnlyThroughCalls.
Import Routes Observe Api Session Terms.
Context {B : Type} `{Backend B}.
Variable P : B -> Prop.
Hypothesis P_createWorkout : forall d x, P x -> P (snd (createWorkout d x)).
Hypothesis P_updateWorkout : forall id t x, P x -> P (snd (updateWorkout id t x)).
Hypothesis P_createWorkoutSet : forall d x, P x -> P (snd (createWorkoutSet d x)).
Hypothesis P_deleteWorkoutSet : forall id x, P x -> P (snd (deleteWorkoutSet id x)).

Lemma call_keeps {A} (c : Call) (f : B -> Result A * B) (w : World B) :
  (forall x, P x -> P (snd (f x))) -> P (backend w) -> P (backend (snd (call c f w))).
Proof.
  intros Hf Hw. unfold call. specialize (Hf (backend w) Hw).
  by destruct (f (backend w)).
Qed.

Lemma promise_all_keeps {X R} (f : X -> World B -> Result R * World B) (xs : list X) :
  (forall x w, P (backend w) -> P (backend (snd (f x w)))) ->
  forall w, P (backend w) -> P (backend (snd (promise_all f xs w))).
Proof.
  intros Hf. induction xs as [|x xs IH]; intros w Hw; [done|].
  cbn [promise_all]. specialize (Hf x w Hw). destruct (f x w) as [r w1].
  specialize (IH w1 Hf). by destruct (promise_all f xs w1).
Qed.

Lemma saveAllSets_keeps (w : World B) : P (backend w) -> P (backend (saveAllSets w)).
Proof.
  intros Hw. unfold saveAllSets.
  destruct (activeWorkout (view w)); [|done].
  destruct (currentExercise (view w)); [|done].
  destruct (length _ =? 0)%nat; [done|].
  match goal with |- context [promise_all ?g ?xs w] =>
    pose proof (promise_all_keeps g xs
                  (fun x w0 => call_keeps _ _ w0 (P_createWorkoutSet x)) w Hw) as Hk;
    destruct (promise_all g xs w) as [[err|rows] w'] end; done.
Qed.

Lemma handler_keeps (ev : Event) (w : World B) :
  P (backend w) -> P (backend (handler ev w)).
Proof.
  intros Hw. pose proof (saveAllSets_keeps w Hw) as Hs.
  destruct ev; cbn [handler]; try done.
  - unfold startWorkout. cbv zeta. destruct (negb _ || _); [done|].
    destruct (List.find _ _) as [sel|]; [|done].
    match goal with |- context [call ?c ?f w] =>
      pose proof (call_keeps c f w (P_createWorkout _) Hw) as Hk;
      destruct (call c f w) as [[err|r] w'] end; done.
  - unfold saveSetOnBlur.
    destruct (activeWorkout (view w)); [|done].
    destruct (currentExercise (view w)); [|done].
    destruct (setInputs (view w) !! setIndex); [|done].
    destruct (has_data _ _); [|done].
    match goal with |- context [call ?c ?f w] =>
      pose proof (call_keeps c f w (P_createWorkoutSet _) Hw) as Hk;
      destruct (call c f w) as [[err|r] w'] end; done.
  - unfold goToNextExercise. destruct (activeWorkout (view w)); [|done].
    by destruct (_ <? _)%Z.
  - unfold goToPreviousExercise. by destruct (0 <? _)%Z.
  - unfold selectExercise. by destruct (negb _).
  - unfold deleteSet.
    match goal with |- context [call ?c ?f w] =>
      pose proof (call_keeps c f w (P_deleteWorkoutSet _) Hw) as Hk;
      destruct (call c f w) as [[err|r] w'] end; done.
  - unfold finishWorkout. destruct (activeWorkout (view w)) as [aw|]; [|done].
    match goal with |- context [call ?c ?f ?w1] =>
      pose proof (call_keeps c f w1 (P_updateWorkout _ _) Hs) as Hk;
      destruct (call c f w1) as [[err|r] w'] end; done.
Qed.

Lemma dispatch_keeps (ev : Event) (w : World B) :
  P (backend w) -> P (backend (dispatch ev w)).
Proof.
  intros Hw. unfold dispatch. destruct (mounted w); [|done].
  pose proof (handler_keeps ev w Hw) as Hh.
  destruct (deps_changed w (handler ev w)); [|done].
  by destruct (initEffect_frame (handler ev w)) as (-> & _).
Qed.

Lemma saveAllSets_begin_keeps (w : World B) :
  P (backend w) -> P (backend (snd (Overlap.saveAllSets_begin w))).
Proof.
  intros Hw. unfold Overlap.saveAllSets_begin.
  destruct (activeWorkout (view w)); [|done].
  destruct (currentExercise (view w)); [|done].
  destruct (length _ =? 0)%nat; [done|].
  match goal with |- context [promise_all ?g ?xs w] =>
    pose proof (promise_all_keeps g xs
                  (fun x w0 => call_keeps _ _ w0 (P_createWorkoutSet x)) w Hw) as Hk;
    destruct (promise_all g xs w) as [r w'] end; done.
Qed.

Lemma after_save_keeps (rest : Overlap.Rest) (w : World B) :
  P (backend w) -> P (backend (fst (Overlap.after_save rest w))).
Proof.
  intros Hw. destruct rest as [|index [aw|]| | |aw now];
    cbn [Overlap.after_save fst]; try done.
  - by destruct (_ <? _)%Z.
  - match goal with |- context [call ?c ?f w] =>
      pose proof (call_keeps c f w (P_updateWorkout _ _) Hw) as Hk;
      destruct (call c f w) as [r w'] end; done.
Qed.

Lemma save_then_keeps (rest : Overlap.Rest) (w : World B) :
  P (backend w) -> P (backend (fst (Overlap.save_then rest w))).
Proof.
  intros Hw. unfold Overlap.save_then.
  pose proof (saveAllSets_begin_keeps w Hw) as Hk.
  destruct (Overlap.saveAllSets_begin w) as [[answer|] w1]; cbn [snd] in Hk; [done|].
  by apply after_save_keeps.
Qed.

Lemma click_keeps (ev : Event) (w : World B) :
  P (backend w) -> P (backend (fst (Overlap.click ev w))).
Proof.
  intros Hw. destruct ev; cbn [Overlap.click];
    try (by apply (handler_keeps _ w)); try (by apply save_then_keeps).
  - cbv zeta. destruct (negb _ || _); [done|].
    destruct (List.find _ _) as [sel|]; [|done].
    match goal with |- context [call ?c ?f w] =>
      pose proof (call_keeps c f w (P_createWorkout _) Hw) as Hk;
      destruct (call c f w) as [r w'] end; done.
  - destruct (activeWorkout (view w)); [|done].
    destruct (currentExercise (view w)); [|done].
    destruct (setInputs (view w) !! setIndex); [|done].
    destruct (has_data _ _); [|done].
    match goal with |- context [call ?c ?f w] =>
      pose proof (call_keeps c f w (P_createWorkoutSet _) Hw) as Hk;
      destruct (call c f w) as [r w'] end; done.
  - destruct (0 <? _)%Z; [|done]. by apply save_then_keeps.
  - destruct (negb _); [|done]. by apply save_then_keeps.
  - match goal with |- context [call ?c ?f w] =>
      pose proof (call_keeps c f w (P_deleteWorkoutSet _) Hw) as Hk;
      destruct (call c f w) as [r w'] end; done.
  - destruct (activeWorkout (view w)); [|done]. by apply save_then_keeps.
Qed.

Lemma resume_keeps (fl : Overlap.Flight) (w : World B) :
  P (backend w) -> P (backend (fst (Overlap.resume fl w))).
Proof.
  intros Hw.
  destruct fl as [sel [err|row]|answer rest|ex i [err|row]|sid [err|r]|[err|r]];
    cbn [Overlap.resume fst]; try done.
  apply after_save_keeps. by destruct answer.
Qed.

Lemma settle_backend (w w' : World B) : backend (Overlap.settle w w') = backend w'.
Proof.
  unfold Overlap.settle. destruct (mounted w); [|done].
  destruct (deps_changed w w'); [|done].
  by destruct (initEffect_frame w') as (-> & _).
Qed.

Lemma step_keeps (st : Overlap.Step) (p : Overlap.Live B) :
  P (backend (Overlap.world p)) -> P (backend (Overlap.world (Overlap.step st p))).
Proof.
  intros Hp. destruct st as [ev|k]; cbn [Overlap.step].
  - destruct (mounted (Overlap.world p)); [|done].
    pose proof (click_keeps ev _ Hp) as Hk.
    destruct (Overlap.click ev (Overlap.world p)) as [w' fl].
    cbn [Overlap.world]. by rewrite settle_backend.
  - destruct (Overlap.inflight p !! k) as [fl|]; [|done].
    pose proof (resume_keeps fl _ Hp) as Hk.
    destruct (Overlap.resume fl (Overlap.world p)) as [w' fl'].
    cbn [Overlap.world]. by rewrite settle_backend.
Qed.

End BackendOnlyThroughCalls.

Section ActiveWorkoutOrigin.
Import Routes Observe Api Session Terms.
Context {B : Type} `{Backend B}.

(** No handler changes the active workout before its first answer. *)
Lemma save_then_active (rest : Overlap.Rest) (w : World B) :
  activeWorkout (view (fst (Overlap.save_then rest w))) = activeWorkout (view w).
Proof.
  unfold Overlap.save_then.
  pose proof (saveAllSets_begin_frame w) as (Hv & _).
  destruct (Overlap.saveAllSets_begin w) as [[answer|] w1]; cbn [snd fst] in *;
    [by rewrite Hv|].
  destruct rest as [|index [aw|]| | |aw now]; cbn [Overlap.after_save fst];
    try (cbn; by rewrite Hv).
  - destruct (_ <? _)%Z; cbn; by rewrite Hv.
  - match goal with |- context [call ?c ?f w1] =>
      pose proof (call_view c f w1) as Hc; destruct (call c f w1) as [r w2] end.
    cbn [snd fst] in *. by rewrite Hc, Hv.
Qed.

Lemma click_active (ev : Event) (w : World B) :
  activeWorkout (view (fst (Overlap.click ev w))) = activeWorkout (view w).
Proof.
  destruct ev; cbn [Overlap.click]; try done; try apply save_then_active.
  - cbv zeta. destruct (negb _ || _); [done|].
    destruct (List.find _ _) as [sel|]; [|done].
    match goal with |- context [call ?c ?f w] =>
      pose proof (call_view c f w) as Hc; destruct (call c f w) as [r w1] end.
    cbn [snd fst] in *. by rewrite Hc.
  - destruct (activeWorkout (view w)) as [aw|] eqn:Haw; [|cbn [fst]; by rewrite Haw].
    destruct (currentExercise (view w)); [|cbn [fst]; by rewrite Haw].
    destruct (setInputs (view w) !! setIndex); [|cbn [fst]; by rewrite Haw].
    destruct (has_data _ _); [|cbn [fst]; by rewrite Haw].
    match goal with |- context [call ?c ?f w] =>
      pose proof (call_view c f w) as Hc; destruct (call c f w) as [r w1] end.
    cbn [snd fst] in *. by rewrite Hc.
  - destruct (0 <? _)%Z; [|done]. apply save_then_active.
  - destruct (negb _); [|done]. apply save_then_active.
  - match goal with |- context [call ?c ?f w] =>
      pose proof (call_view c f w) as Hc; destruct (call c f w) as [r w1] end.
    cbn [snd fst] in *. by rewrite Hc.
  - destruct (activeWorkout (view w)) as [aw|] eqn:Haw; [|cbn [fst]; by rewrite Haw].
    rewrite save_then_active. done.
Qed.

(** A handler that starts to wait for [createWorkout] holds the answer of
    the backend it was issued to; no other handler waits for one, neither
    at its event nor at an answer. *)
Lemma save_then_flight (rest : Overlap.Rest) (w : World B) sel r :
  snd (Overlap.save_then rest w) <> Some (Overlap.AwaitCreateWorkout sel r).
Proof.
  unfold Overlap.save_then.
  destruct (Overlap.saveAllSets_begin w) as [[answer|] w1]; cbn [snd]; [done|].
  destruct rest as [|index [aw|]| | |aw now]; cbn [Overlap.after_save snd]; try done.
  by destruct (call _ _ w1).
Qed.

Lemma click_flight (ev : Event) (w : World B) sel row :
  snd (Overlap.click ev w) = Some (Overlap.AwaitCreateWorkout sel (inr row)) ->
  exists data, fst (createWorkout data (backend w)) = inr row.
Proof.
  destruct ev; cbn [Overlap.click]; try done;
    try (intros Hfl; by apply save_then_flight in Hfl).
  - cbv zeta. destruct (negb _ || _); [done|].
    destruct (List.find _ _) as [selectedRoutine|]; [|done].
    unfold call.
    match goal with |- context [createWorkout ?d (backend w)] =>
      destruct (createWorkout d (backend w)) as [r b'] eqn:Hcw; exists d end.
    cbn [snd] in *. rewrite Hcw. cbn. congruence.
  - destruct (activeWorkout (view w)); [|done].
    destruct (currentExercise (view w)); [|done].
    destruct (setInputs (view w) !! setIndex); [|done].
    destruct (has_data _ _); [|done]. by destruct (call _ _ w).
  - destruct (0 <? _)%Z; [|done]. intros Hfl. by apply save_then_flight in Hfl.
  - destruct (negb _); [|done]. intros Hfl. by apply save_then_flight in Hfl.
  - by destruct (call _ _ w).
  - destruct (activeWorkout (view w)); [|done].
    intros Hfl. by apply save_then_flight in Hfl.
Qed.

Lemma resume_flight (fl : Overlap.Flight) (w : World B) sel r :
  snd (Overlap.resume fl w) <> Some (Overlap.AwaitCreateWorkout sel r).
Proof.
  destruct fl as [sel0 [err|row]|answer rest|ex i [err|row]|sid [err|r0]|[err|r0]];
    cbn [Overlap.resume snd]; try done.
  destruct rest as [|index [aw|]| | |aw now]; cbn [Overlap.after_save snd]; try done.
  by destruct (call _ _ _).
Qed.

(** After an answer the active workout is the one that was active, or the
    one [createWorkout] returned to the handler that waited for it. *)
Lemma resume_active (fl : Overlap.Flight) (w : World B) aw' :
  activeWorkout (view (fst (Overlap.resume fl w))) = Some aw' ->
  activeWorkout (view w) = Some aw'
  \/ exists sel row, fl = Overlap.AwaitCreateWorkout sel (inr row)
                     /\ aw_id aw' = w_id row.
Proof.
  destruct fl as [sel [err|row]|answer rest|ex i [err|row]|sid [err|r]|[err|r]];
    cbn [Overlap.resume fst]; try (by left); try done.
  - cbn. intros [= <-]. right. by exists sel, row.
  - assert (Hend : activeWorkout (view (Overlap.saveAllSets_end answer w))
                   = activeWorkout (view w)) by (by destruct answer).
    destruct rest as [|index [aw|]| | |aw now]; cbn [Overlap.after_save fst];
      try (cbn; rewrite <- Hend; by left).
    + destruct (_ <? _)%Z; cbn; rewrite <- Hend; by left.
    + match goal with |- context [call ?c ?f ?w1] =>
        pose proof (call_view c f w1) as Hc; destruct (call c f w1) as [r w2] end.
      cbn [snd fst] in *. rewrite Hc, Hend. by left.
Qed.

Lemma settle_active (w w' : World B) :
  activeWorkout (view (Overlap.settle w w')) = activeWorkout (view w')
  \/ activeWorkout (view (Overlap.settle w w')) = activeWorkout (view w).
Proof.
  unfold Overlap.settle. destruct (mounted w); [left|by right].
  destruct (deps_changed w w'); [|done].
  by destruct (initEffect_frame w') as (_ & _ & _ & _ & -> & _).
Qed.

End ActiveWorkoutOrigin.

(** ** Finishing a workout *)
Section Completed.
Import Routes Observe Api Session Terms.
Context `{Bcrypt}.

Lemma completed_has_id wid d :
  completed wid d -> Storage.has_id w_id wid (workouts d) = true.
Proof.
  intros [(r & Hr & Hid) _]. unfold Storage.has_id. apply existsb_exists.
  exists r. split; [done|]. by apply String.eqb_eq.
Qed.

Lemma completed_same_workouts wid d d' :
  workouts d' = workouts d -> completed wid d -> completed wid d'.
Proof. unfold completed. by intros ->. Qed.

Lemma completed_map wid d d' (g : Workout -> Workout) :
  workouts d' = map g (workouts d) ->
  (forall r, w_id (g r) = w_id r) ->
  (forall r, w_end_time r <> None -> w_end_time (g r) <> None) ->
  completed wid d -> completed wid d'.
Proof.
  intros Hmap Hgid Hgend [(r & Hr & Hid) Hall]. unfold completed. rewrite Hmap. split.
  - exists (g r). split; [by apply in_map|]. by rewrite Hgid.
  - intros r' Hr' Hid'. apply in_map_iff in Hr' as (r0 & <- & Hr0).
    apply Hgend. apply Hall; [done|]. by rewrite <- Hgid.
Qed.

(** A body that names [end_time] alone passes every constraint. *)
Lemma end_time_update_ok d others w end_time :
  Storage.update_ok d others w
    (Storage.apply_updates (mkWorkoutUpdates (SetEndTime end_time) []) w) = true.
Proof.
  unfold Storage.update_ok. cbn. rewrite !String.eqb_refl. cbn.
  destruct (w_routine_id w); [|done]. by rewrite bool_decide_eq_true_2.
Qed.

Lemma updateWorkout_end_time workoutId userId end_time d :
  Storage.updateWorkout workoutId userId (mkWorkoutUpdates (SetEndTime end_time) []) d
  = let updates := mkWorkoutUpdates (SetEndTime end_time) [] in
    let new := map (Storage.apply_updates updates)
                   (List.filter (Storage.workout_hit workoutId userId) (workouts d)) in
    Some (head new,
          mkDB (users d) (Schema.routines d) (routine_exercises d)
               (List.filter (fun w => negb (Storage.workout_hit workoutId userId w))
                            (workouts d) ++ new)
               (workout_sets d)).
Proof.
  unfold Storage.updateWorkout.
  replace (forallb _ _) with true; [done|]. symmetry. apply forallb_forall.
  intros w _. apply end_time_update_ok.
Qed.

(** No request but a [PATCH] with another body than the component's takes
    a completed workout back. *)
Lemma route_keeps_completed wid e u req s :
  keeps_closed req = true -> completed wid (db s) ->
  completed wid (db (snd (route e u req s))).
Proof.
  intros Hre Hc.
  destruct req as [ | |[d|]|rid0|rid0|[d|]|xid| |[d|]|id0 updates|id0|id0|[d|]|sid];
    simpl; try done.
  - destruct (Storage.createRoutine _ _ _ _) as [[? ?]|] eqn:Hcr; [|done].
    unfold Storage.createRoutine in Hcr. destruct (_ || _); [done|].
    injection Hcr as <- <-. by apply (completed_same_workouts wid (db s)).
  - apply (completed_map wid (db s) _
             (fun w => match w_routine_id w with
                       | Some rid =>
                           if Storage.has_id r_id rid
                                (List.filter (Storage.routine_hit rid0 (su_id u))
                                             (Schema.routines (db s)))
                           then mkWorkout (w_id w) (w_user_id w) None (w_routine_name w)
                                          (w_start_time w) (w_end_time w)
                           else w
                       | None => w
                       end)); try done.
    + intros r. destruct (w_routine_id r); [|done]. by destruct (Storage.has_id _ _ _).
    + intros r Hr. destruct (w_routine_id r); [|done]. by destruct (Storage.has_id _ _ _).
  - destruct (Storage.createRoutineExercise _ _ _) as [[? ?]|] eqn:Hcr; [|done].
    unfold Storage.createRoutineExercise in Hcr. destruct (_ || _); [done|].
    injection Hcr as <- <-. by apply (completed_same_workouts wid (db s)).
  - destruct (Storage.createWorkout _ _ _ _) as [[? ?]|] eqn:Hcr; [|done].
    unfold Storage.createWorkout in Hcr.
    destruct (Storage.has_id w_id (e_uuid e) (workouts (db s))) eqn:Hpk; [done|].
    destruct (_ || _); [done|]. injection Hcr as <- <-. simpl.
    destruct Hc as [(r & Hr & Hid) Hall]. split.
    + exists r. split; [|done]. simpl. apply in_or_app. by left.
    + simpl. intros r' Hr' Hid'. apply in_app_or in Hr' as [Hr'|[<-|[]]]; [by apply Hall|].
      simpl in Hid'. exfalso.
      assert (Hex : Storage.has_id w_id (e_uuid e) (workouts (db s)) = true).
      { unfold Storage.has_id. apply existsb_exists. exists r. split; [done|].
        apply String.eqb_eq. congruence. }
      congruence.
  - destruct updates as [[| | | | |[t|]] [|a l]]; try done.
    rewrite updateWorkout_end_time. cbn [snd db set_db].
    destruct Hc as [(r & Hr & Hid) Hall]. split.
    + cbn [workouts].
      destruct (Storage.workout_hit id0 (su_id u) r) eqn:Hhit.
      * eexists. split; [apply in_or_app; right; apply in_map, filter_In; by split|].
        done.
      * exists r. split; [|done]. apply in_or_app. left. apply filter_In.
        by rewrite Hhit.
    + cbn [workouts]. intros r' Hr' Hid'. apply in_app_or in Hr' as [Hr'|Hr'].
      * apply filter_In in Hr' as [Hr' _]. by apply Hall.
      * by apply in_map_iff in Hr' as (r0 & <- & _).
  - destruct (Storage.createWorkoutSet _ _ _) as [[? ?]|] eqn:Hcr; [|done].
    unfold Storage.createWorkoutSet in Hcr.
    destruct (Storage.decimal_5_2 _); [|done]. destruct (_ || _); [done|].
    injection Hcr as <- <-. by apply (completed_same_workouts wid (db s)).
Qed.

(** The route itself stores whatever [end_time] the body carries, [null]
    included: the owner's [PATCH] with [{end_time: null}] takes a finished
    workout back. *)
Lemma patch_null_reopens hdr e u id s row :
  authenticateUser hdr s = inr u ->
  In row (workouts (db s)) -> w_id row = id -> w_user_id row = su_id u ->
  exists row',
    In row' (workouts (db (snd (handle hdr e
                                  (Api (PatchWorkout id
                                          (mkWorkoutUpdates (SetEndTime None) []))) s))))
    /\ w_id row' = id /\ w_end_time row' = None.
Proof.
  intros Hauth Hrow Hid Hown. rewrite (handle_api _ _ _ _ u) by done. cbn [route].
  rewrite updateWorkout_end_time. cbn [snd db set_db workouts].
  exists (Storage.apply_updates (mkWorkoutUpdates (SetEndTime None) []) row).
  split; [|done]. apply in_or_app. right. apply in_map, filter_In. split; [done|].
  unfold Storage.workout_hit. by rewrite Hid, Hown, !String.eqb_refl.
Qed.

Lemma request_keeps_completed wid (req : ApiRequest) (x : Express) :
  keeps_closed req = true -> completed wid (db (server x)) ->
  completed wid (db (server (snd (request (Api req) x)))).
Proof.
  intros Hre Hc. destruct (session_user x) as [u|] eqn:Hu.
  - rewrite (request_api x u) by done. cbv zeta.
    pose proof (route_keeps_completed wid (entropy x (served x)) u req (server x) Hre Hc) as Hk.
    destruct (response_ok _); [done|]. by destruct (body _).
  - by rewrite request_rejected.
Qed.

End Completed.

Section Finish.
Import Routes Observe Api Session Terms.
Context `{Bcrypt} `{Zod}.

Lemma express_keeps_completed wid :
  (forall d x, completed wid (db (server x)) ->
               completed wid (db (server (snd (createWorkout d x)))))
  /\ (forall id t x, completed wid (db (server x)) ->
                     completed wid (db (server (snd (updateWorkout id t x)))))
  /\ (forall d x, completed wid (db (server x)) ->
                  completed wid (db (server (snd (createWorkoutSet d x)))))
  /\ (forall id x, completed wid (db (server x)) ->
                   completed wid (db (server (snd (deleteWorkoutSet id x))))).
Proof.
  split; [|split; [|split]]; intros; simpl;
    match goal with |- context [request (Api ?req) ?x] =>
      pose proof (request_keeps_completed wid req x eq_refl) as Hk;
      destruct (request (Api req) x) as [r x'] end; by apply Hk.
Qed.

Lemma createWorkout_fresh (data : CreateWorkoutData) (x : Express) (row : Workout) :
  fst (createWorkout data x) = inr row ->
  Storage.has_id w_id (w_id row) (workouts (db (server x))) = false.
Proof.
  simpl. destruct (session_user x) as [u|] eqn:Hu.
  - rewrite (request_api x u) by done.
    destruct (accepts_workout (workout_body data)); simpl; [|done].
    unfold Storage.createWorkout.
    destruct (Storage.has_id w_id _ (workouts (db (server x)))) eqn:Hpk; [done|].
    destruct (_ || _); simpl; [done|]. by intros [= <-].
  - by rewrite request_rejected.
Qed.

Lemma In_delete {A} (k : nat) (l : list A) (a : A) : In a (delete k l) -> In a l.
Proof.
  revert k. induction l as [|b l IH]; intros [|k]; simpl; auto.
  intros [->|Hin]; [by left|right; by apply (IH k)].
Qed.

(** Whatever happens next on the page, an event or an answer in any order,
    a finished workout stays finished: the component sends no request that
    could take it back, and no handler makes it the active workout. *)
Lemma step_shut wid (st : Overlap.Step) (p : Overlap.Live Express) :
  shut wid p -> shut wid (Overlap.step st p).
Proof.
  intros [[Hc Hne] Hfl].
  destruct (express_keeps_completed wid) as (K1 & K2 & K3 & K4).
  pose proof (step_keeps (fun x => completed wid (db (server x))) K1 K2 K3 K4 st p Hc)
    as Hc'.
  split; [split; [done|]|].
  - destruct st as [ev|k]; cbn [Overlap.step].
    + destruct (mounted (Overlap.world p)); [|done].
      pose proof (click_active ev (Overlap.world p)) as Hclick.
      destruct (Overlap.click ev (Overlap.world p)) as [w' fl]. cbn [fst] in Hclick.
      cbn [Overlap.world]. intros aw Haw.
      destruct (settle_active (Overlap.world p) w') as [E|E]; rewrite E in Haw;
        apply Hne; congruence.
    + destruct (Overlap.inflight p !! k) as [fl|] eqn:Hk; [|done].
      pose proof (resume_active fl (Overlap.world p)) as Hres.
      destruct (Overlap.resume fl (Overlap.world p)) as [w' fl']. cbn [fst] in Hres.
      cbn [Overlap.world]. intros aw Haw.
      destruct (settle_active (Overlap.world p) w') as [E|E]; rewrite E in Haw;
        [|by apply Hne].
      destruct (Hres aw Haw) as [Hold | (sel & row & -> & ->)]; [by apply Hne|].
      apply (Hfl sel). apply list_elem_of_In. by apply (list_elem_of_lookup_2 _ k).
  - intros sel row. destruct st as [ev|k]; cbn [Overlap.step].
    + destruct (mounted (Overlap.world p)); [|apply Hfl].
      pose proof (click_flight ev (Overlap.world p) sel row) as Hclick.
      destruct (Overlap.click ev (Overlap.world p)) as [w' fl]. cbn [snd] in Hclick.
      cbn [Overlap.inflight]. intros Hin.
      apply in_app_or in Hin as [Hin|Hin]; [by apply (Hfl sel)|].
      destruct fl as [fl|]; [|done]. destruct Hin as [->|[]].
      destruct (Hclick eq_refl) as [data Hrow].
      apply createWorkout_fresh in Hrow. apply completed_has_id in Hc.
      congruence.
    + destruct (Overlap.inflight p !! k) as [fl|] eqn:Hk; [|apply Hfl].
      pose proof (resume_flight fl (Overlap.world p) sel (inr row)) as Hres.
      destruct (Overlap.resume fl (Overlap.world p)) as [w' fl']. cbn [snd] in Hres.
      cbn [Overlap.inflight]. intros Hin.
      apply in_app_or in Hin as [Hin|Hin].
      * apply (Hfl sel). by apply In_delete in Hin.
      * destruct fl' as [fl'|]; [|done]. by destruct Hin as [->|[]].
Qed.

Lemma steps_shut wid (sched : list Overlap.Step) :
  forall p : Overlap.Live Express, shut wid p -> shut wid (Overlap.steps sched p).
Proof.
  induction sched as [|st sched IH]; intros p Hp; [done|].
  unfold Overlap.steps. cbn [fold_left]. apply IH. by apply step_shut.
Qed.

Lemma createWorkoutSet_keeps_workouts x0 d x :
  same_workouts x0 x -> same_workouts x0 (snd (createWorkoutSet d x)).
Proof.
  unfold same_workouts. intros (<- & <- & <-). simpl.
  destruct (session_user x) as [u|] eqn:Hu.
  - rewrite (request_api x u) by done.
    destruct (accepts_workout_set d); cbn; [|done].
    destruct (Storage.createWorkoutSet _ _ _) as [[row d']|] eqn:Hcr; cbn; [|done].
    unfold Storage.createWorkoutSet in Hcr.
    destruct (Storage.decimal_5_2 _); [|done]. destruct (_ || _); [done|].
    by injection Hcr as <- <-.
  - by rewrite request_rejected.
Qed.

Lemma hit_is_the_row workoutId userId (l : list Workout) row :
  NoDup (map w_id l) -> In row l -> w_id row = workoutId -> w_user_id row = userId ->
  List.filter (Storage.workout_hit workoutId userId) l = [row].
Proof.
  intros Hnd Hrow Hid Hown.
  assert (Hin : In row (List.filter (Storage.workout_hit workoutId userId) l)).
  { apply filter_In. split; [done|]. unfold Storage.workout_hit.
    by rewrite Hid, Hown, !String.eqb_refl. }
  destruct (hit_at_most_one workoutId userId l Hnd) as [Hnone | [w Hone]].
  - by rewrite Hnone in Hin.
  - rewrite Hone in Hin |- *. by destruct Hin as [->|[]].
Qed.

Lemma updateWorkout_closes (x : Express) (u : SessionUser) (workoutId : uuid) (now : Z)
  (row : Workout) :
  session_user x = Some u ->
  NoDup (map w_id (workouts (db (server x)))) ->
  In row (workouts (db (server x))) ->
  w_id row = workoutId -> w_user_id row = su_id u ->
  let d := db (server x) in
  updateWorkout workoutId now x
  = (inr tt,
     mkExpress (sessionId x)
       (mkServer (sessions (server x))
          (mkDB (users d) (Schema.routines d) (routine_exercises d)
                (List.filter (fun w => negb (Storage.workout_hit workoutId (su_id u) w))
                             (workouts d)
                 ++ [mkWorkout (w_id row) (w_user_id row) (w_routine_id row)
                               (w_routine_name row) (w_start_time row) (Some now)])
                (workout_sets d)))
       (entropy x) (S (served x))).
Proof.
  intros Hu Hnd Hrow Hid Hown d. simpl. rewrite (request_api x u) by done.
  cbn [route]. rewrite updateWorkout_end_time. cbv zeta.
  rewrite (hit_is_the_row workoutId (su_id u) _ row) by done. done.
Qed.

Lemma pending_spec (w : World Express) aw d :
  activeWorkout (view w) = Some aw ->
  In d (pending w)
  <-> exists ex i input,
        currentExercise (view w) = Some ex /\ setInputs (view w) !! i = Some input
        /\ populated input /\ d = draft aw ex i input.
Proof.
  intros Haw. unfold pending. rewrite Haw.
  destruct (currentExercise (view w)) as [ex|].
  - rewrite setsToSave_spec. split.
    + intros (i & input & Hi & Hp & ->). by exists ex, i, input.
    + intros (ex' & i & input & [= <-] & Hi & Hp & ->). by exists i, input.
  - split; [done|]. by intros (ex' & i & input & ? & _).
Qed.

(** C3 (amended).  Finishing an active workout whose row is stored and
    owned by the session user, under a valid session: the set-creation
    calls of the flush, one per populated draft of the current exercise,
    are issued first and the [end_time] update last (what becomes of the
    flushed sets is left out here); the workout's row then has
    [end_time = now], the reading of the browser's clock, and every other
    column as it was, [start_time] included, so that
    [start_time <= end_time] exactly when the clock does not read less than
    the stored start; no workout is active afterwards.  From then on,
    whatever the page does, events and answers in any order, the stored
    workout keeps a non-null [end_time] and is never the active workout
    again: the component has no operation that takes it back.  The route
    has: the owner's [PATCH] with [{end_time: null}] clears [end_time].
    [Hkey] is the primary key of [workouts]. *)
Theorem finish_closes_at_the_clock_reading
  (w : World Express) (now : Z) (aw : ActiveWorkout) (u : SessionUser) (row : Workout)
  (Hmounted : mounted w = true)
  (Hactive : activeWorkout (view w) = Some aw)
  (Hsession : session_user (backend w) = Some u)
  (Hrow : In row (workouts (db (server (backend w)))))
  (Hid : w_id row = aw_id aw)
  (Hown : w_user_id row = su_id u)
  (Hkey : NoDup (map w_id (workouts (db (server (backend w)))))) :
  let w' := dispatch (FinishWorkout now) w in
  let finished := mkWorkout (w_id row) (w_user_id row) (w_routine_id row)
                            (w_routine_name row) (w_start_time row) (Some now) in
  (exists sent,
      calls w' = calls w ++ map CallCreateWorkoutSet sent
                 ++ [CallUpdateWorkout (aw_id aw) now]
      /\ forall d, In d sent
           <-> exists ex i input,
                 currentExercise (view w) = Some ex
                 /\ setInputs (view w) !! i = Some input
                 /\ populated input /\ d = draft aw ex i input)
  /\ In finished (workouts (db (server (backend w'))))
  /\ (forall r, In r (workouts (db (server (backend w')))) -> w_id r = aw_id aw ->
        r = finished)
  /\ activeWorkout (view w') = None
  /\ (forall sched : list Overlap.Step,
        let w'' := Overlap.world (Overlap.steps sched (Overlap.mkLive w' [])) in
        (exists r, In r (workouts (db (server (backend w'')))) /\ w_id r = aw_id aw)
        /\ (forall r, In r (workouts (db (server (backend w'')))) -> w_id r = aw_id aw ->
              w_end_time r <> None)
        /\ (forall aw', activeWorkout (view w'') = Some aw' -> aw_id aw' <> aw_id aw))
  /\ (forall hdr e, authenticateUser hdr (server (backend w')) = inr u ->
        exists row',
          In row' (workouts (db (snd (handle hdr e
                                        (Api (PatchWorkout (aw_id aw)
                                                (mkWorkoutUpdates (SetEndTime None) [])))
                                        (server (backend w'))))))
          /\ w_id row' = aw_id aw /\ w_end_time row' = None).
Proof.
  intros w' finished.
  set (x := backend w) in *.
  (* the flush leaves the workouts and the session alone *)
  assert (Hsame : same_workouts x (backend (saveAllSets w))).
  { apply (saveAllSets_keeps (same_workouts x)); [|done].
    intros d x1. apply createWorkoutSet_keeps_workouts. }
  destruct Hsame as (Hsid & Hss & Hws).
  set (w1 := saveAllSets w) in *.
  assert (Hu1 : session_user (backend w1) = Some u).
  { unfold session_user in *. by rewrite Hsid, Hss. }
  destruct (saveAllSets_view w) as (Hsa & _ & _ & _ & Hsr & Hsm). fold w1 in Hsa, Hsr, Hsm.
  assert (Hh : handler (FinishWorkout now) w
    = let d := db (server (backend w1)) in
      mkWorld
        (setSelectedRoutineId ""
           (setSetInputs (fun _ => [])
              (setCurrentExercise None
                 (setCurrentExerciseIndex (fun _ => 0%Z)
                    (setWorkoutSets (fun _ => [])
                       (setActiveWorkout None (view w1)))))))
        (mkExpress (sessionId (backend w1))
           (mkServer (sessions (server (backend w1)))
              (mkDB (users d) (Schema.routines d) (routine_exercises d)
                    (List.filter
                       (fun r => negb (Storage.workout_hit (aw_id aw) (su_id u) r))
                       (workouts d) ++ [finished])
                    (workout_sets d)))
           (entropy (backend w1)) (S (served (backend w1))))
        (console w1) (calls w1 ++ [CallUpdateWorkout (aw_id aw) now])
        (refs w1) (mounted w1)).
  { cbn [handler]. unfold finishWorkout. rewrite Hactive. fold w1. unfold call.
    rewrite (updateWorkout_closes (backend w1) u (aw_id aw) now row); rewrite ?Hws; done. }
  assert (Hw' : w' = handler (FinishWorkout now) w).
  { subst w'. unfold dispatch. rewrite Hmounted.
    assert (Hch : deps_changed w (handler (FinishWorkout now) w) = true).
    { unfold deps_changed, deps. rewrite Hh, Hactive. done. }
    rewrite Hch. unfold initEffect. by rewrite Hh. }
  assert (Hrows : workouts (db (server (backend w')))
                  = List.filter
                      (fun r => negb (Storage.workout_hit (aw_id aw) (su_id u) r))
                      (workouts (db (server x))) ++ [finished]).
  { rewrite Hw', Hh. cbn. by rewrite Hws. }
  assert (Hin : In finished (workouts (db (server (backend w'))))).
  { rewrite Hrows. apply in_or_app. right. by left. }
  assert (Honly : forall r, In r (workouts (db (server (backend w')))) ->
                            w_id r = aw_id aw -> r = finished).
  { rewrite Hrows. intros r Hr Hrid. apply in_app_or in Hr as [Hr|[<-|[]]]; [|done].
    apply filter_In in Hr as [Hr Hmiss]. exfalso.
    assert (r = row) as ->.
    { apply (NoDup_map_inj_in w_id (workouts (db (server x)))); [done..|congruence]. }
    unfold Storage.workout_hit in Hmiss.
    by rewrite Hid, Hown, !String.eqb_refl in Hmiss. }
  assert (Hnone : activeWorkout (view w') = None) by (by rewrite Hw', Hh).
  split.
  { exists (pending w). split; [|intros d; by apply pending_spec].
    rewrite Hw', Hh. cbn [calls]. unfold w1. by rewrite saveAllSets_calls, <- app_assoc. }
  split; [done|]. split; [done|]. split; [done|]. split.
  - intros sched w''.
    assert (Hshut : shut (aw_id aw) (Overlap.mkLive w' [])).
    { split; [split; [split|]|done].
      - exists finished. split; [done|]. exact Hid.
      - intros r Hr Hrid. by rewrite (Honly r Hr Hrid).
      - cbn [Overlap.world]. by rewrite Hnone. }
    apply (steps_shut (aw_id aw) sched) in Hshut as [[[Hex Hstays] Hnever] _].
    done.
  - intros hdr e Hauth.
    by apply (patch_null_reopens hdr e u (aw_id aw) _ finished).
Qed.

End Finish.

(** ** Concrete runs of the server *)
Section ServerRuns.
Import Routes Observe Fixture.

Lemma token_authorizes_until_signout_witness :
  let tok := generateSessionId (draw 10) in
  let s1 := snd (@handle plain_bcrypt None (draw 10) (PostSignin "ann" "pw-a")
                   (snd seeded)) in
  let s2 := @serve plain_bcrypt
              [(Some bob_token, draw 11, PostSignout);
               (Some tok, draw 12, Api (DeleteRoutine "id-6"))] s1 in
  let s4 := @serve plain_bcrypt
              [(None, draw 14, PostSignin "bob" "pw-b")]
              (snd (@handle plain_bcrypt (Some tok) (draw 13) PostSignout s2)) in
  status (fst (@handle plain_bcrypt (Some tok) (draw 15) (Api GetRoutines) s2)) <> 401
  /\ @handle plain_bcrypt (Some tok) (draw 15) (Api GetRoutines) s4
     = (fail 401 "Not authenticated", s4).
Proof.
  intros tok s1 s2 s4.
  destruct (@token_authorizes_until_signout plain_bcrypt (snd seeded) (draw 10)
              "ann" "pw-a" ann
              [(Some bob_token, draw 11, PostSignout);
               (Some tok, draw 12, Api (DeleteRoutine "id-6"))]
              [(None, draw 14, PostSignin "bob" "pw-b")]
              (draw 13))
    as (_ & _ & Hin & Hout); try (vm_compute; reflexivity).
  split.
  - destruct (Hin (draw 15) GetRoutines) as (u & _ & Hstatus). exact Hstatus.
  - exact (Hout (draw 15) GetRoutines).
Defined.

Lemma delete_workout_set_twice_witness :
  let r1 := @handle plain_bcrypt (Some ann_token) (draw 8)
              (Api (DeleteWorkoutSet "id-5")) (snd seeded) in
  let r2 := @handle plain_bcrypt (Some ann_token) (draw 9)
              (Api (DeleteWorkoutSet "id-5")) (snd r1) in
  Storage.has_id ws_id "id-5" (workout_sets (db (snd seeded))) = true
  /\ fst r2 = json JSuccess /\ snd r2 = snd r1.
Proof.
  intros r1 r2. split; [vm_compute; reflexivity|].
  destruct (@delete_workout_set_twice plain_bcrypt ann_token (draw 8) (draw 9) "id-5"
              (snd seeded) (mkSessionUser "id-0" "ann"))
    as (_ & _ & H2 & H3); [vm_compute; reflexivity|].
  split; [exact H2 | exact H3].
Defined.

Lemma delete_routine_cascades_witness :
  let s' := snd (@handle plain_bcrypt (Some ann_token) (draw 8)
                   (Api (DeleteRoutine "id-2")) (snd seeded)) in
  Storage.getRoutineExercises "id-2" (db (snd seeded)) <> []
  /\ (forall x, In x (routine_exercises (db s')) -> re_routine_id x <> "id-2")
  /\ Storage.getRoutineExercises "id-6" (db s')
     = Storage.getRoutineExercises "id-6" (db (snd seeded)).
Proof.
  intros s'. split; [vm_compute; discriminate|].
  destruct (@delete_routine_cascades plain_bcrypt ann_token (draw 8) "id-2"
              (snd seeded) (mkSessionUser "id-0" "ann") push_day)
    as (_ & _ & Hcascade & Hframe).
  - vm_compute; reflexivity.
  - apply (bool_decide_unpack _). vm_compute. exact I.
  - vm_compute. left. reflexivity.
  - reflexivity.
  - reflexivity.
  - split; [exact Hcascade|].
    apply (Hframe (Schema.mkRoutine "id-6" "id-1" "leg day")).
    + vm_compute. right. left. reflexivity.
    + vm_compute. discriminate.
Defined.

(** C5 (the code does not do this).  bob, signed in and owning neither
    row, sends [DELETE /api/routine-exercises/id-3] and
    [DELETE /api/workout-sets/id-5]; both rows belong to ann through the
    owning chain, both requests are answered [{success: true}], and both
    rows are gone afterwards: [deleteRoutineExercise] and
    [deleteWorkoutSet] filter on the row id alone. *)
Theorem foreign_rows_are_deleted :
  let s := snd seeded in
  let bench := mkRoutineExercise "id-3" "id-2" "bench press" 2 0 in
  let logged := Schema.mkWorkoutSet "id-5" "id-4" "bench press" 135 5 7 1 in
  let r1 := @handle plain_bcrypt (Some bob_token) (draw 8)
              (Api (DeleteRoutineExercise "id-3")) s in
  let r2 := @handle plain_bcrypt (Some bob_token) (draw 8)
              (Api (DeleteWorkoutSet "id-5")) s in
  authenticateUser (Some bob_token) s = inr (mkSessionUser "id-1" "bob")
  /\ In bench (routine_exercises (db s))
  /\ exercise_owner (db s) bench = Some "id-0"
  /\ In logged (workout_sets (db s))
  /\ set_owner (db s) logged = Some "id-0"
  /\ fst r1 = json JSuccess
  /\ Storage.has_id re_id "id-3" (routine_exercises (db (snd r1))) = false
  /\ fst r2 = json JSuccess
  /\ Storage.has_id ws_id "id-5" (workout_sets (db (snd r2))) = false.
Proof.
  vm_compute. repeat split; auto.
Qed.

End ServerRuns.

(** ** Concrete runs of the component *)
Section ComponentRuns.
Import Routes Observe Api Session Terms Fixture.
#[local] Existing Instance plain_bcrypt.
#[local] Existing Instance Wire.repository.

(** The fixture's worlds are reachable: [idle] is consistent, and [drafted]
    comes from it by events the page lets through. *)
Lemma drafted_reachable :
  synced idle
  /\ drafted = run [ChooseRoutine "id-2"; StartWorkout 1750000000200;
                    UpdateSetInput 0 (FWeight 135); UpdateSetInput 0 (FReps 5)] idle
  /\ all_enabled [ChooseRoutine "id-2"; StartWorkout 1750000000200;
                  UpdateSetInput 0 (FWeight 135); UpdateSetInput 0 (FReps 5)] idle = true.
Proof.
  split; [intros _; split; reflexivity|]. split.
  - unfold drafted, started, chosen, run. by rewrite <- !fold_left_app.
  - vm_compute. reflexivity.
Qed.

Lemma navigation_persists_nothing_witness :
  let w' := dispatch GoToNextExercise drafted in
  setInputs (view drafted) !! 0%nat = Some (mkSetInput 135 5 5)
  /\ In (CallCreateWorkoutSet (mkInsertWorkoutSet "id-9" "bench press" 135 5 5 1))
        (calls w')
  /\ workout_sets (db (server (backend w')))
     = workout_sets (db (server (backend drafted)))
  /\ console w' = console drafted ++ [("Error saving sets:", "Invalid set data")]
  /\ workoutSets (view w') = workoutSets (view drafted)
  /\ currentExerciseIndex (view w') = 1%Z.
Proof.
  intros w'. subst w'.
  assert (Hmounted : mounted drafted = true) by (vm_compute; reflexivity).
  assert (Hleaves : flushes GoToNextExercise drafted = true) by reflexivity.
  assert (Hactive : activeWorkout (view drafted) = Some session_workout)
    by (vm_compute; reflexivity).
  assert (Hcursor : currentExercise (view drafted) = Some bench)
    by (vm_compute; reflexivity).
  assert (Hsession : session_user (backend drafted) = Some (mkSessionUser "id-0" "ann"))
    by (vm_compute; reflexivity).
  assert (Hslot : setInputs (view drafted) !! 0%nat = Some (mkSetInput 135 5 5))
    by (vm_compute; reflexivity).
  assert (Hpopulated : populated (mkSetInput 135 5 5)) by (left; vm_compute; reflexivity).
  destruct (navigation_persists_nothing drafted GoToNextExercise session_workout bench
              (mkSessionUser "id-0" "ann") 0 (mkSetInput 135 5 5) Hmounted Hleaves
              Hactive Hcursor Hsession Hslot Hpopulated)
    as ((sent & Hcalls & Hall & _) & _ & Hsets & Hcon & Hws & Hidx).
  split; [exact Hslot|]. split.
  { rewrite Hcalls. apply in_or_app. right.
    apply (in_map CallCreateWorkoutSet sent
             (draft session_workout bench 0 (mkSetInput 135 5 5))).
    exact (Hall 0%nat (mkSetInput 135 5 5) Hslot Hpopulated). }
  split; [exact Hsets|]. split; [exact Hcon|]. split; [exact Hws|].
  rewrite Hidx. vm_compute. reflexivity.
Defined.

Lemma blur_then_leave_persists_nothing_witness :
  let w2 := run [SaveSetOnBlur 0; GoToNextExercise] drafted in
  console w2 = console drafted ++ [("Error saving set:", "Invalid set data");
                                   ("Error saving sets:", "Invalid set data")]
  /\ workout_sets (db (server (backend w2)))
     = workout_sets (db (server (backend drafted)))
  /\ workoutSets (view w2) = workoutSets (view drafted).
Proof.
  intros w2. subst w2.
  assert (Hmounted : mounted drafted = true) by (vm_compute; reflexivity).
  assert (Hactive : activeWorkout (view drafted) = Some session_workout)
    by (vm_compute; reflexivity).
  assert (Hcursor : currentExercise (view drafted) = Some bench)
    by (vm_compute; reflexivity).
  assert (Hslot : setInputs (view drafted) !! 0%nat = Some (mkSetInput 135 5 5))
    by (vm_compute; reflexivity).
  assert (Hpopulated : populated (mkSetInput 135 5 5)) by (left; vm_compute; reflexivity).
  assert (Hsession : session_user (backend drafted) = Some (mkSessionUser "id-0" "ann"))
    by (vm_compute; reflexivity).
  destruct (blur_then_leave_persists_nothing drafted GoToNextExercise 0 session_workout
              bench (mkSetInput 135 5 5) (mkSessionUser "id-0" "ann") Hmounted Hactive
              Hcursor Hslot Hpopulated eq_refl Hsession)
    as (_ & _ & Hco1 & _ & _ & Hco2 & _ & Hsets & Hws & _).
  unfold run. cbn [fold_left].
  split; [rewrite Hco2, Hco1; by rewrite <- app_assoc|].
  split; [exact Hsets | exact Hws].
Defined.

(** C3: the claim as stated fails.  The browser's clock has gone back a
    minute since the workout was started: the finish is accepted and stores
    an [end_time] before the [start_time]; and the owner's
    [PATCH /api/workouts/id-9] with [{end_time: null}] is answered 200 and
    takes the finished workout back, [GET /api/workouts] listing it with no
    [end_time]. *)
Lemma finish_is_neither_ordered_nor_final :
  let w' := dispatch (FinishWorkout 1749999940200) drafted in
  let s1 := server (backend w') in
  let r2 := handle (Some ann_token) (draw 20)
              (Api (PatchWorkout "id-9" (mkWorkoutUpdates (SetEndTime None) []))) s1 in
  activeWorkout (view drafted) = Some session_workout
  /\ activeWorkout (view w') = None
  /\ List.find (fun r => String.eqb (w_id r) "id-9") (workouts (db s1))
     = Some (mkWorkout "id-9" "id-0" (Some "id-2") "push day"
                       1750000000200 (Some 1749999940200))
  /\ (1749999940200 <? 1750000000200)%Z = true
  /\ fst r2 = json (JWorkout (Some (mkWorkout "id-9" "id-0" (Some "id-2") "push day"
                                              1750000000200 None)))
  /\ fst (handle (Some ann_token) (draw 21) (Api GetWorkouts) (snd r2))
     = json (JWorkouts
               [mkWorkout "id-4" "id-0" (Some "id-2") "push day" 1750000000100 None;
                mkWorkout "id-9" "id-0" (Some "id-2") "push day" 1750000000200 None]).
Proof.
  vm_compute. repeat split; reflexivity.
Qed.

Lemma finish_closes_at_the_clock_reading_witness :
  let later := [Overlap.Click (ChooseRoutine "id-2");
                Overlap.Click (StartWorkout 1750000010000);
                Overlap.Click (StartWorkout 1750000010001);
                Overlap.Answer 1; Overlap.Click GoToNextExercise;
                Overlap.Click (FinishWorkout 1750000020000); Overlap.Answer 0;
                Overlap.Answer 0] in
  let w' := dispatch (FinishWorkout 1750000009999) drafted in
  let w'' := Overlap.world (Overlap.steps later (Overlap.mkLive w' [])) in
  length (calls w') = 3%nat
  /\ activeWorkout (view w') = None
  /\ In (mkWorkout "id-9" "id-0" (Some "id-2") "push day" 1750000000200
                   (Some 1750000009999%Z))
        (workouts (db (server (backend w'))))
  /\ (forall r, In r (workouts (db (server (backend w'')))) -> w_id r = "id-9" ->
        w_end_time r <> None).
Proof.
  intros later w' w''. subst w' w''.
  assert (Hmounted : mounted drafted = true) by (vm_compute; reflexivity).
  assert (Hactive : activeWorkout (view drafted) = Some session_workout)
    by (vm_compute; reflexivity).
  assert (Hsession : session_user (backend drafted) = Some (mkSessionUser "id-0" "ann"))
    by (vm_compute; reflexivity).
  assert (Hrow : In (mkWorkout "id-9" "id-0" (Some "id-2") "push day" 1750000000200 None)
                    (workouts (db (server (backend drafted)))))
    by (vm_compute; right; left; reflexivity).
  assert (Hkey : NoDup (map w_id (workouts (db (server (backend drafted))))))
    by (apply (bool_decide_unpack _); vm_compute; exact I).
  destruct (finish_closes_at_the_clock_reading drafted 1750000009999 session_workout
              (mkSessionUser "id-0" "ann") _ Hmounted Hactive Hsession
              Hrow eq_refl eq_refl Hkey)
    as ((sent & Hcalls & _) & Hin & _ & Hnone & Hlater & _).
  split; [vm_compute; reflexivity|].
  split; [exact Hnone|]. split; [exact Hin|].
  destruct (Hlater later) as (_ & Hstays & _). exact Hstays.
Defined.

Lemma start_then_drafts_per_plan_witness :
  let w' := dispatch (StartWorkout 1750000000200) chosen in
  (exists row, In row (workouts (db (server (backend w'))))
               /\ w_id row = "id-9" /\ w_start_time row = 1750000000200%Z
               /\ w_end_time row = None)
  /\ currentExerciseIndex (view w') = 0%Z
  /\ length (setInputs (view w')) = 2%nat
  /\ (forall slot, In slot (setInputs (view w')) -> slot = mkSetInput 0 0 5).
Proof.
  intros w'. subst w'.
  assert (Hmounted : mounted chosen = true) by (vm_compute; reflexivity).
  assert (Hidle : activeWorkout (view chosen) = None) by (vm_compute; reflexivity).
  assert (Huser : user (view chosen) = true) by (vm_compute; reflexivity).
  assert (Hchosen : selectedRoutineId (view chosen) <> "") by (vm_compute; discriminate).
  assert (Hroutine : List.find (fun r => String.eqb (routine_id r)
                                            (selectedRoutineId (view chosen)))
                               (routines (view chosen))
                     = Some (mkRoutine "id-2" "push day" [bench; press]))
    by (vm_compute; reflexivity).
  assert (Hsession : session_user (backend chosen) = Some (mkSessionUser "id-0" "ann"))
    by (vm_compute; reflexivity).
  assert (Hschema : accepts_workout
                      (workout_body (mkCreateWorkoutData (selectedRoutineId (view chosen))
                                       "push day" 1750000000200)) = true)
    by reflexivity.
  destruct (start_then_drafts_per_plan chosen 1750000000200
              (mkRoutine "id-2" "push day" [bench; press]) (mkSessionUser "id-0" "ann")
              Hmounted Hidle Huser Hchosen Hroutine Hschema Hsession)
    as (Hrows & _ & Hzero & Hland); try (vm_compute; reflexivity).
  split.
  - eexists. split; [rewrite Hrows; apply in_or_app; right; left; reflexivity|].
    repeat split; vm_compute; reflexivity.
  - split; [exact Hzero|].
    destruct (Hland (StartWorkout 1750000000200) chosen session_workout bench)
      as (_ & Hslots & Hlen & _); try (vm_compute; reflexivity).
    + vm_compute. discriminate.
    + split; [exact Hlen | exact Hslots].
Defined.

Lemma failed_calls_logged_and_ignored_witness :
  console (dispatch GoToNextExercise offline)
  = console offline ++ [("Error saving sets:", "Not authenticated")]
  /\ currentExerciseIndex (view (dispatch GoToNextExercise offline)) = 1%Z
  /\ workoutSets (view (dispatch GoToNextExercise offline)) = workoutSets (view offline)
  /\ activeWorkout (view (dispatch (FinishWorkout 1750000009999) offline))
     = Some session_workout
  /\ console (dispatch (FinishWorkout 1750000009999) offline)
     = console (saveAllSets offline)
       ++ [("Error finishing workout:", "Not authenticated")].
Proof.
  assert (Hmounted : mounted offline = true) by reflexivity.
  assert (Hactive : activeWorkout (view offline) = Some session_workout)
    by (vm_compute; reflexivity).
  destruct (failed_calls_logged_and_ignored (B:=Express) offline 1750000009999
              session_workout Hmounted Hactive) as [Hflush Hfinish].
  destruct (Hflush "Not authenticated") as (_ & _ & Hnav).
  - vm_compute. discriminate.
  - vm_compute. reflexivity.
  - destruct (Hnav GoToNextExercise eq_refl) as (Hidx & _ & Hws & Hco & _).
    destruct (Hfinish "Not authenticated") as (_ & Haw & _ & _ & Hco').
    + vm_compute. reflexivity.
    + split; [exact Hco|]. split; [rewrite Hidx; vm_compute; reflexivity|].
      split; [exact Hws|]. split; [exact Haw|exact Hco'].
Defined.

(** C9 (the code does not do this).  On the page with two exercises, the
    cursor at index 0 and a populated draft, Next is clicked twice, the
    second time before the set-creation call of the first flush is
    answered.  Both handlers captured [currentExerciseIndex = 0], both
    issue the flush for the populated slot, both pass the guard
    [0 < 2 - 1] and both apply [prev => prev + 1]: the first answer moves
    the cursor to 1, the second to 2, past the last index; the effect then
    reads [exercises[2].planned_sets], throws, and the page is unmounted.
    Taken one after the other, the same two clicks leave the cursor at
    1. *)
Theorem overlapping_next_leaves_the_bounds :
  let d := mkInsertWorkoutSet "id-9" "bench press" 135 5 5 1 in
  let p1 := Overlap.steps [Overlap.Click GoToNextExercise; Overlap.Click GoToNextExercise]
              (Overlap.mkLive drafted []) in
  let p2 := Overlap.steps [Overlap.Answer 0] p1 in
  let p3 := Overlap.steps [Overlap.Answer 0] p2 in
  let w3 := Overlap.world p3 in
  activeWorkout (view drafted) = Some session_workout
  /\ aw_exercises session_workout = [bench; press]
  /\ currentExerciseIndex (view drafted) = 0%Z
  /\ calls (Overlap.world p1)
     = calls drafted ++ [CallCreateWorkoutSet d; CallCreateWorkoutSet d]
  /\ length (Overlap.inflight p1) = 2%nat
  /\ currentExerciseIndex (view (Overlap.world p2)) = 1%Z
  /\ mounted (Overlap.world p2) = true
  /\ Overlap.inflight p3 = []
  /\ activeWorkout (view w3) = Some session_workout
  /\ currentExerciseIndex (view w3) = 2%Z
  /\ at_index (aw_exercises session_workout) (currentExerciseIndex (view w3)) = None
  /\ mounted w3 = false
  /\ currentExerciseIndex (view (run [GoToNextExercise; GoToNextExercise] drafted)) = 1%Z
  /\ mounted (run [GoToNextExercise; GoToNextExercise] drafted) = true.
Proof.
  vm_compute. repeat split; reflexivity.
Qed.

End ComponentRuns.

(** * Further properties *)

(** ** The store and the registry over any sequence of requests *)
Section StoreInvariants.
Import Routes Observe Integrity.
Context `{Bcrypt}.

Lemma has_id_true {A} (key : A -> uuid) (id : uuid) (rows : list A) :
  Storage.has_id key id rows = true <-> In id (map key rows).
Proof.
  unfold Storage.has_id. rewrite existsb_exists, in_map_iff. split.
  - intros (r & Hr & Heq). apply String.eqb_eq in Heq. by exists r.
  - intros (r & Heq & Hr). exists r. split; [done|]. by apply String.eqb_eq.
Qed.

Lemma route_users e u req s : users (db (snd (route e u req s))) = users (db s).
Proof.
  destruct req as [ | |[d|]|rid0|rid0|[d|]|xid| |[d|]|id0 updates|id0|id0|[d|]|sid];
    simpl; try done.
  - destruct (Storage.createRoutine _ _ _ _) as [[? ?]|] eqn:Hc; [|done].
    unfold Storage.createRoutine in Hc. destruct (_ || _); [done|].
    by injection Hc as <- <-.
  - destruct (Storage.createRoutineExercise _ _ _) as [[? ?]|] eqn:Hc; [|done].
    unfold Storage.createRoutineExercise in Hc. destruct (_ || _); [done|].
    by injection Hc as <- <-.
  - destruct (Storage.createWorkout _ _ _ _) as [[? ?]|] eqn:Hc; [|done].
    unfold Storage.createWorkout in Hc. destruct (_ || _); [done|].
    by injection Hc as <- <-.
  - destruct (Storage.updateWorkout _ _ _ _) as [[res d']|] eqn:Hup; [|done].
    simpl. by destruct (updateWorkout_tables _ _ _ _ _ _ Hup) as (-> & _).
  - destruct (Storage.createWorkoutSet _ _ _) as [[? ?]|] eqn:Hc; [|done].
    unfold Storage.createWorkoutSet in Hc.
    destruct (Storage.decimal_5_2 _); [|done]. destruct (_ || _); [done|].
    by injection Hc as <- <-.
Qed.

Lemma NoDup_snoc_fresh {A K} (key : A -> K) (rows : list A) (row : A) :
  NoDup (map key rows) -> ~ In (key row) (map key rows) ->
  NoDup (map key (rows ++ [row])).
Proof.
  intros Hnd Hno. rewrite map_app. apply NoDup_app. split; [done|]. split.
  - intros id Hid Hin. apply list_elem_of_singleton in Hin. subst id.
    by apply Hno, list_elem_of_In.
  - apply NoDup_singleton.
Qed.

Lemma username_free (name : string) (l : list User) :
  existsb (fun u => String.eqb (u_username u) name) l = false ->
  ~ In name (map u_username l).
Proof.
  intros Hno Hin. apply in_map_iff in Hin as (u & Heq & Hu).
  assert (existsb (fun u => String.eqb (u_username u) name) l = true); [|congruence].
  apply existsb_exists. exists u. split; [done|]. by apply String.eqb_eq.
Qed.

Lemma has_id_free {A} (key : A -> uuid) (id : uuid) (rows : list A) :
  Storage.has_id key id rows = false -> ~ In id (map key rows).
Proof. intros Hno Hin. apply has_id_true in Hin. congruence. Qed.

Lemma handle_keeps_keys hdr e req s :
  keys (db s) -> keys (db (snd (handle hdr e req s))).
Proof.
  intros (Hu & Hn & Hr & Hx & Hw & Hs).
  destruct req as [d|username password|username| |req]; simpl.
  - unfold signup. destruct d as [userData|]; [|done].
    destruct (Storage.getUserByUsername _ _); [done|].
    destruct (Storage.createUser _ _ _) as [[user db']|] eqn:Hcu; [|done].
    unfold Storage.createUser in Hcu.
    destruct (Storage.has_id u_id _ _) eqn:Hpk; [done|].
    destruct (existsb _ _) eqn:Hun; [done|].
    injection Hcu as <- <-. simpl.
    split; [|split; [|done]].
    + apply NoDup_snoc_fresh; [done|]. by apply has_id_free.
    + apply NoDup_snoc_fresh; [done|]. by apply username_free.
  - unfold signin. destruct (Storage.getUserByUsername _ _) as [user|]; [|done].
    by destruct (Storage.verifyPassword _ _).
  - unfold signin. by destruct (Storage.getUserByUsername _ _) as [user|].
  - unfold signout. destruct hdr as [sid|]; [|done]. by destruct (String.eqb sid "").
  - destruct (authenticateUser hdr s) as [res|u]; [done|].
    destruct req as [ | |[d|]|rid0|rid0|[d|]|xid| |[d|]|id0 updates|id0|id0|[d|]|sid];
      simpl; try done.
    + destruct (Storage.createRoutine _ _ _ _) as [[? ?]|] eqn:Hcr; [|done].
      unfold Storage.createRoutine in Hcr.
      destruct (Storage.has_id r_id _ _) eqn:Hpk; [done|].
      destruct (negb _); [done|]. injection Hcr as <- <-. simpl.
      do 2 (split; [done|]). split; [|done].
      apply NoDup_snoc_fresh; [done|]. by apply has_id_free.
    + do 2 (split; [done|]). split; [by apply NoDup_map_filter|].
      split; [by apply NoDup_map_filter|]. split; [|done]. simpl.
      rewrite map_key_map; [done|].
      intros r. destruct (w_routine_id r); [|done]. by destruct (Storage.has_id _ _ _).
    + destruct (Storage.createRoutineExercise _ _ _) as [[? ?]|] eqn:Hcr; [|done].
      unfold Storage.createRoutineExercise in Hcr.
      destruct (Storage.has_id re_id _ _) eqn:Hpk; [done|].
      destruct (_ || _); [done|]. injection Hcr as <- <-. simpl.
      do 3 (split; [done|]). split; [|done].
      apply NoDup_snoc_fresh; [done|]. by apply has_id_free.
    + do 3 (split; [done|]). split; [by apply NoDup_map_filter|done].
    + destruct (Storage.createWorkout _ _ _ _) as [[? ?]|] eqn:Hcr; [|done].
      unfold Storage.createWorkout in Hcr.
      destruct (Storage.has_id w_id _ _) eqn:Hpk; [done|].
      destruct (_ || _); [done|]. injection Hcr as <- <-. simpl.
      do 4 (split; [done|]). split; [|done].
      apply NoDup_snoc_fresh; [done|]. by apply has_id_free.
    + destruct (Storage.updateWorkout _ _ _ _) as [[res d']|] eqn:Hup; [|done].
      pose proof (updateWorkout_keeps_key _ _ _ _ _ _ Hw Hup) as Hw'.
      destruct (updateWorkout_tables _ _ _ _ _ _ Hup) as (Eu & Er & Ex & Es & _).
      simpl. unfold keys. by rewrite Eu, Er, Ex, Es.
    + destruct (Storage.createWorkoutSet _ _ _) as [[? ?]|] eqn:Hcr; [|done].
      unfold Storage.createWorkoutSet in Hcr.
      destruct (Storage.decimal_5_2 _) as [weight|]; [|done].
      destruct (Storage.has_id ws_id _ _) eqn:Hpk; [done|].
      destruct (_ || _); [done|]. injection Hcr as <- <-. simpl.
      do 5 (split; [done|]).
      apply NoDup_snoc_fresh; [done|]. by apply has_id_free.
    + do 5 (split; [done|]). by apply NoDup_map_filter.
Qed.

(** X1. However many requests the server has answered since it started
    with an empty store, the primary key of each of the five tables and
    the [unique()] constraint on [username] hold. *)
Theorem served_store_keeps_keys (trace : list Incoming) :
  keys (db (serve trace (mkServer ∅ emptyDB))).
Proof.
  assert (Hgen : forall s, keys (db s) -> keys (db (serve trace s))).
  { induction trace as [|[[hdr e] req] trace IH]; intros s Hs; [done|].
    cbn [serve fold_left]. apply IH. by apply handle_keeps_keys. }
  apply Hgen. simpl. unfold keys. simpl. repeat split; apply NoDup_nil_2.
Qed.

Lemma In_map_snoc {A K} (key : A -> K) (rows : list A) (row : A) (k : K) :
  In k (map key rows) -> In k (map key (rows ++ [row])).
Proof. intros Hin. rewrite map_app. apply in_or_app. by left. Qed.

(** A routine id that the delete does not hit is still a routine id. *)
Lemma routine_survives routineId userId (rs : list Routine) (id : uuid) :
  In id (map r_id rs) ->
  Storage.has_id r_id id (List.filter (Storage.routine_hit routineId userId) rs) = false ->
  In id (map r_id (List.filter (fun r => negb (Storage.routine_hit routineId userId r)) rs)).
Proof.
  intros Hin Hlive. apply in_map_iff in Hin as (r & Heq & Hr).
  apply in_map_iff. exists r. split; [done|]. apply filter_In. split; [done|].
  apply negb_true_iff, not_true_is_false. intros Hhit.
  assert (Storage.has_id r_id id
            (List.filter (Storage.routine_hit routineId userId) rs) = true);
    [|congruence].
  apply has_id_true, in_map_iff. exists r. split; [done|]. by apply filter_In.
Qed.

Lemma handle_keeps_references hdr e req s :
  references (db s) -> references (db (snd (handle hdr e req s))).
Proof.
  intros (Hr & Hx & Hw & Hs).
  destruct req as [d|username password|username| |req]; simpl.
  - unfold signup. destruct d as [userData|]; [|done].
    destruct (Storage.getUserByUsername _ _); [done|].
    destruct (Storage.createUser _ _ _) as [[user db']|] eqn:Hcu; [|done].
    unfold Storage.createUser in Hcu. destruct (_ || _); [done|].
    injection Hcu as <- <-. simpl.
    split; [|split; [done|split; [|done]]].
    + intros r Hin. by apply In_map_snoc, Hr.
    + intros w Hin. destruct (Hw w Hin) as [Hu Hrid].
      split; [by apply In_map_snoc|done].
  - unfold signin. destruct (Storage.getUserByUsername _ _) as [user|]; [|done].
    by destruct (Storage.verifyPassword _ _).
  - unfold signin. by destruct (Storage.getUserByUsername _ _) as [user|].
  - unfold signout. destruct hdr as [sid|]; [|done]. by destruct (String.eqb sid "").
  - destruct (authenticateUser hdr s) as [res|u]; [done|].
    destruct req as [ | |[d|]|rid0|rid0|[d|]|xid| |[d|]|id0 updates|id0|id0|[d|]|sid];
      simpl; try done.
    + destruct (Storage.createRoutine _ _ _ _) as [[? ?]|] eqn:Hcr; [|done].
      unfold Storage.createRoutine in Hcr.
      destruct (Storage.has_id r_id _ _); [done|].
      destruct (Storage.has_id u_id _ _) eqn:Hfk; [|done].
      injection Hcr as <- <-. simpl.
      split; [|split; [|split; [|done]]].
      * intros r Hin. apply in_app_or in Hin as [Hin|[<-|[]]]; [by apply Hr|].
        by apply has_id_true.
      * intros x Hin. by apply In_map_snoc, Hx.
      * intros w Hin. destruct (Hw w Hin) as [Hu Hrid].
        split; [done|]. intros rid Heq. by apply In_map_snoc, Hrid.
    + split; [|split; [|split]].
      * intros r Hin. apply filter_In in Hin as [Hin _]. by apply Hr.
      * intros x Hin. apply filter_In in Hin as [Hin Hlive].
        apply negb_true_iff in Hlive. apply routine_survives; [by apply Hx|done].
      * intros w Hin. apply in_map_iff in Hin as (w0 & <- & Hin).
        destruct (Hw w0 Hin) as [Hu Hrid].
        destruct (w_routine_id w0) as [rid1|] eqn:Hw0; [|by rewrite Hw0].
        destruct (Storage.has_id r_id rid1 _) eqn:Hdead; simpl; [done|].
        split; [done|]. intros rid Heq. rewrite Hw0 in Heq. injection Heq as <-.
        apply routine_survives; [by apply Hrid|done].
      * intros x Hin. simpl in Hin |- *. rewrite map_key_map; [by apply Hs|].
        intros r. destruct (w_routine_id r); [|done]. by destruct (Storage.has_id _ _ _).
    + destruct (Storage.createRoutineExercise _ _ _) as [[? ?]|] eqn:Hcr; [|done].
      unfold Storage.createRoutineExercise in Hcr.
      destruct (Storage.has_id re_id _ _); [done|].
      destruct (Storage.has_id r_id _ _) eqn:Hfk; [|done].
      simpl in Hcr. destruct (negb _); [done|].
      injection Hcr as <- <-. simpl.
      split; [done|]. split; [|done].
      intros x Hin. apply in_app_or in Hin as [Hin|[<-|[]]]; [by apply Hx|].
      by apply has_id_true.
    + split; [done|]. split; [|done].
      intros x Hin. apply filter_In in Hin as [Hin _]. by apply Hx.
    + destruct (Storage.createWorkout _ _ _ _) as [[? ?]|] eqn:Hcr; [|done].
      unfold Storage.createWorkout in Hcr.
      destruct (Storage.has_id w_id _ _); [done|].
      destruct (Storage.has_id u_id _ _) eqn:Hfk; [|done].
      simpl in Hcr.
      destruct (match iw_routine_id d with Some _ => _ | None => _ end) eqn:Hfk2; [done|].
      injection Hcr as <- <-. simpl.
      do 2 (split; [done|]). split.
      * intros w Hin. apply in_app_or in Hin as [Hin|[<-|[]]]; [by apply Hw|].
        simpl. split; [by apply has_id_true|].
        intros rid Heq. rewrite Heq in Hfk2. apply negb_false_iff in Hfk2.
        by apply has_id_true.
      * intros x Hin. by apply In_map_snoc, Hs.
    + destruct (Storage.updateWorkout _ _ _ _) as [[res d']|] eqn:Hup; [|done].
      destruct (updateWorkout_tables _ _ _ _ _ _ Hup) as (Eu & Er & Ex & Es & Ew & _).
      unfold Storage.updateWorkout in Hup.
      destruct (forallb _ _) eqn:Hok; [|done]. clear Hup.
      rewrite forallb_forall in Hok.
      simpl. unfold references. rewrite Eu, Er, Ex, Es, Ew.
      do 2 (split; [done|]). split.
      * intros w Hin. apply in_app_or in Hin as [Hin|Hin].
        { apply filter_In in Hin as [Hin _]. by apply Hw. }
        apply in_map_iff in Hin as (w0 & <- & Hin).
        specialize (Hok w0 Hin). apply filter_In in Hin as [Hin _].
        destruct (Hw w0 Hin) as [Hu0 Hr0].
        unfold Storage.update_ok in Hok.
        apply andb_true_iff in Hok as [Hok Hrt]. apply andb_true_iff in Hok as [_ Hus].
        split.
        { apply orb_true_iff in Hus as [Hsame|Hnew]; [|by apply has_id_true].
          apply String.eqb_eq in Hsame. by rewrite Hsame. }
        intros rid Heq. rewrite Heq in Hrt.
        apply orb_true_iff in Hrt as [Hsame|Hnew]; [|by apply has_id_true].
        apply bool_decide_eq_true in Hsame. by apply Hr0.
      * intros x Hin. specialize (Hs x Hin).
        apply in_map_iff in Hs as (r & Heq & Hrow).
        rewrite map_app. apply in_or_app.
        destruct (Storage.workout_hit id0 (su_id u) r) eqn:Hhit.
        { right.
          assert (Hold : In r (List.filter (Storage.workout_hit id0 (su_id u))
                                           (workouts (db s)))) by (by apply filter_In).
          specialize (Hok r Hold). unfold Storage.update_ok in Hok.
          apply andb_true_iff in Hok as [Hok _]. apply andb_true_iff in Hok as [Hkey _].
          apply in_map_iff. exists (Storage.apply_updates updates r).
          split; [|by apply in_map].
          apply orb_true_iff in Hkey as [Hsame|Hfree].
          - apply String.eqb_eq in Hsame. congruence.
          - apply andb_true_iff in Hfree as [_ Hfree]. apply negb_true_iff in Hfree.
            exfalso. apply (has_id_free ws_workout_id _ _ Hfree).
            apply in_map_iff. exists x. split; [congruence|done]. }
        left. apply in_map_iff. exists r. split; [done|].
        apply filter_In. by rewrite Hhit.
    + destruct (Storage.createWorkoutSet _ _ _) as [[? ?]|] eqn:Hcr; [|done].
      unfold Storage.createWorkoutSet in Hcr.
      destruct (Storage.decimal_5_2 _) as [weight|]; [|done].
      destruct (Storage.has_id ws_id _ _); [done|].
      destruct (Storage.has_id w_id _ _) eqn:Hfk; [|done].
      simpl in Hcr. destruct (negb _); [done|].
      injection Hcr as <- <-. simpl.
      do 3 (split; [done|]).
      intros x Hin. apply in_app_or in Hin as [Hin|[<-|[]]]; [by apply Hs|].
      by apply has_id_true.
    + do 3 (split; [done|]).
      intros x Hin. apply filter_In in Hin as [Hin _]. by apply Hs.
Qed.

(** X2. However many requests the server has answered since it started
    with an empty store, every foreign key of the schema holds: a routine's
    and a workout's user, an exercise's routine, a workout's routine when it
    has one, and a set's workout are stored rows.  Deleting a routine keeps
    this through [onDelete: cascade] and [onDelete: set null]. *)
Theorem served_store_keeps_references (trace : list Incoming) :
  references (db (serve trace (mkServer ∅ emptyDB))).
Proof.
  assert (Hgen : forall s, references (db s) -> references (db (serve trace s))).
  { induction trace as [|[[hdr e] req] trace IH]; intros s Hs; [done|].
    cbn [serve fold_left]. apply IH. by apply handle_keeps_references. }
  apply Hgen. simpl. unfold references. simpl. by repeat split.
Qed.

Lemma handle_keeps_registry hdr e req s :
  registry_sound s -> registry_sound (snd (handle hdr e req s)).
Proof.
  intros Hs. destruct req as [d|username password|username| |req]; simpl.
  - unfold signup. destruct d as [userData|]; [|done].
    destruct (Storage.getUserByUsername _ _); [done|].
    destruct (Storage.createUser _ _ _) as [[user db']|] eqn:Hcu; [|done].
    unfold Storage.createUser in Hcu. destruct (_ || _); [done|].
    injection Hcu as <- <-. intros tok su. simpl.
    destruct (decide (tok = generateSessionId e)) as [->|Hne].
    + rewrite lookup_insert_eq. intros [= <-].
      split; [apply generateSessionId_nonempty|].
      eexists. split; [apply in_or_app; right; by left|done].
    + rewrite lookup_insert_ne by done. intros Htok.
      destruct (Hs tok su Htok) as (Hnonempty & u & Hu & Hid & Hname).
      split; [done|]. exists u. split; [|done]. apply in_or_app. by left.
  - unfold signin. destruct (Storage.getUserByUsername _ _) as [user|] eqn:Hfind; [|done].
    destruct (Storage.verifyPassword _ _); [|done].
    intros tok su. simpl.
    destruct (decide (tok = generateSessionId e)) as [->|Hne].
    + rewrite lookup_insert_eq. intros [= <-].
      split; [apply generateSessionId_nonempty|].
      exists user. split; [|done].
      unfold Storage.getUserByUsername in Hfind. by apply find_some in Hfind as [? _].
    + rewrite lookup_insert_ne by done. apply Hs.
  - unfold signin. by destruct (Storage.getUserByUsername _ _) as [user|].
  - unfold signout. destruct hdr as [sid|]; [|done].
    destruct (String.eqb sid ""); [done|]. intros tok su. simpl.
    intros Htok. apply lookup_delete_Some in Htok as [_ Htok]. by apply Hs.
  - destruct (authenticateUser hdr s) as [res|u]; [done|].
    intros tok su. rewrite route_sessions, route_users. apply Hs.
Qed.

(** X3. However many requests the server has answered since it started
    with an empty registry and store, every session of the registry is kept
    under a non-empty token (the one an [x-session-id] header must carry to
    pass [authenticateUser]) and names, by id and username, a user that is
    stored: sessions are only opened for stored users, and no request
    removes or renames a user. *)
Theorem served_registry_names_users (trace : list Incoming) :
  registry_sound (serve trace (mkServer ∅ emptyDB)).
Proof.
  assert (Hgen : forall s, registry_sound s -> registry_sound (serve trace s)).
  { induction trace as [|[[hdr e] req] trace IH]; intros s Hs; [done|].
    cbn [serve fold_left]. apply IH. by apply handle_keeps_registry. }
  apply Hgen. intros tok su. simpl. by rewrite lookup_empty.
Qed.

Lemma map_column_map {A K} (col : A -> K) (g : A -> A) (rows : list A) :
  (forall r, col (g r) = col r) -> map col (map g rows) = map col rows.
Proof. intros Hg. rewrite map_map. apply map_ext. exact Hg. Qed.

Lemma handle_appends hdr e req s :
  users (db s) `prefix_of` users (db (snd (handle hdr e req s)))
  /\ (length (workouts (db s)) <= length (workouts (db (snd (handle hdr e req s)))))%nat.
Proof.
  destruct req as [d|username password|username| |req]; simpl.
  - unfold signup. destruct d as [userData|]; [|done].
    destruct (Storage.getUserByUsername _ _); [done|].
    destruct (Storage.createUser _ _ _) as [[user db']|] eqn:Hcu; [|done].
    unfold Storage.createUser in Hcu. destruct (_ || _); [done|].
    injection Hcu as <- <-. simpl. split; [by eexists|done].
  - unfold signin. destruct (Storage.getUserByUsername _ _) as [user|]; [|done].
    by destruct (Storage.verifyPassword _ _).
  - unfold signin. by destruct (Storage.getUserByUsername _ _) as [user|].
  - unfold signout. destruct hdr as [sid|]; [|done]. by destruct (String.eqb sid "").
  - destruct (authenticateUser hdr s) as [res|u]; [done|].
    rewrite route_users. split; [done|].
    destruct req as [ | |[d|]|rid0|rid0|[d|]|xid| |[d|]|id0 updates|id0|id0|[d|]|sid];
      simpl; try done.
    + destruct (Storage.createRoutine _ _ _ _) as [[? ?]|] eqn:Hcr; [|done].
      unfold Storage.createRoutine in Hcr. destruct (_ || _); [done|].
      by injection Hcr as <- <-.
    + by rewrite length_map.
    + destruct (Storage.createRoutineExercise _ _ _) as [[? ?]|] eqn:Hcr; [|done].
      unfold Storage.createRoutineExercise in Hcr. destruct (_ || _); [done|].
      by injection Hcr as <- <-.
    + destruct (Storage.createWorkout _ _ _ _) as [[? ?]|] eqn:Hcr; [|done].
      unfold Storage.createWorkout in Hcr. destruct (_ || _); [done|].
      injection Hcr as <- <-. simpl. rewrite length_app. lia.
    + destruct (Storage.updateWorkout _ _ _ _) as [[res d']|] eqn:Hup; [|done].
      destruct (updateWorkout_tables _ _ _ _ _ _ Hup) as (_ & _ & _ & _ & Ew & _).
      simpl. rewrite Ew, length_app, length_map.
      pose proof (List.filter_length (Storage.workout_hit id0 (su_id u))
                    (workouts (db s))) as Hlen.
      lia.
    + destruct (Storage.createWorkoutSet _ _ _) as [[? ?]|] eqn:Hcr; [|done].
      unfold Storage.createWorkoutSet in Hcr.
      destruct (Storage.decimal_5_2 _); [|done]. destruct (_ || _); [done|].
      by injection Hcr as <- <-.
Qed.

(** X4. No request removes or rewrites a user, and none removes a workout:
    after any sequence of requests the [users] table starts with the rows
    it had, and the [workouts] table has at least as many rows as it had
    (the schema cascades from [users] to [workouts], and no route deletes
    from either table). *)
Theorem users_and_workouts_are_never_removed (trace : list Incoming) (s : Server) :
  users (db s) `prefix_of` users (db (serve trace s))
  /\ (length (workouts (db s)) <= length (workouts (db (serve trace s))))%nat.
Proof.
  revert s. induction trace as [|[[hdr e] req] trace IH]; intros s; [done|].
  cbn [serve fold_left].
  destruct (handle_appends hdr e req s) as [Hu Hw].
  destruct (IH (snd (handle hdr e req s))) as [Hu' Hw'].
  split; [by etrans|exact (Nat.le_trans _ _ _ Hw Hw')].
Qed.

End StoreInvariants.

(** ** Single requests *)
Section Requests.
Import Routes Observe Integrity.
Context `{Bcrypt}.

Lemma find_none_existsb {A} (p : A -> bool) (l : list A) :
  List.find p l = None <-> existsb p l = false.
Proof.
  induction l as [|a l IH]; simpl; [done|].
  destruct (p a); simpl; [split; discriminate|exact IH].
Qed.

Lemma find_snoc_hit {A} (p : A -> bool) (l : list A) (a : A) :
  p a = true -> List.find p (l ++ [a]) <> None.
Proof.
  intros Hp Hnone. assert (Hin : In a (l ++ [a])) by (apply in_or_app; right; by left).
  by rewrite (find_none _ _ Hnone a Hin) in Hp.
Qed.

(** X5. A signup with a username that is not stored (the uuid drawn for
    the row being new) stores the user with the bcrypt hash of the password
    and opens a session for it under the token it returns.  Any later
    signup with the same username, whatever its password and header, is
    answered 400 [{error: "Username already exists"}] and changes
    nothing. *)
Theorem second_signup_is_rejected
  (hdr1 hdr2 : option string) (e1 e2 : Entropy) (username pw1 pw2 : string)
  (s : Server)
  (Hfree : Storage.getUserByUsername username (db s) = None)
  (Hfresh : Storage.has_id u_id (e_uuid e1) (users (db s)) = false) :
  let r1 := handle hdr1 e1 (PostSignup (Some (mkInsertUser username pw1))) s in
  let r2 := handle hdr2 e2 (PostSignup (Some (mkInsertUser username pw2))) (snd r1) in
  let su := mkSessionUser (e_uuid e1) username in
  fst r1 = json (JSession su (generateSessionId e1))
  /\ users (db (snd r1))
     = users (db s) ++ [mkUser (e_uuid e1) username (bcrypt_hash (e_salt e1) pw1)]
  /\ sessions (snd r1) !! generateSessionId e1 = Some su
  /\ r2 = (fail 400 "Username already exists", snd r1).
Proof.
  intros r1 r2 su.
  assert (Hr1 : r1 = open_session e1
                  (mkUser (e_uuid e1) username (bcrypt_hash (e_salt e1) pw1))
                  (set_db s (mkDB (users (db s)
                                   ++ [mkUser (e_uuid e1) username
                                         (bcrypt_hash (e_salt e1) pw1)])
                                  (routines (db s)) (routine_exercises (db s))
                                  (workouts (db s)) (workout_sets (db s))))).
  { subst r1. cbn [handle]. unfold signup.
    cbn [iu_username]. rewrite Hfree. unfold Storage.createUser.
    cbn [iu_username iu_password]. rewrite Hfresh.
    unfold Storage.getUserByUsername in Hfree.
    apply find_none_existsb in Hfree. by rewrite Hfree. }
  subst r2. rewrite Hr1. unfold open_session, set_db.
  cbn [fst snd sessions db users u_id u_username].
  split; [done|]. split; [done|]. split; [by rewrite lookup_insert_eq|].
  cbn [handle]. unfold signup. cbn [iu_username db].
  match goal with
  | |- context [Storage.getUserByUsername username ?d] =>
      destruct (Storage.getUserByUsername username d) eqn:Hfind
  end; [done|].
  exfalso. revert Hfind. unfold Storage.getUserByUsername. cbn [users].
  apply find_snoc_hit. cbn [u_username]. apply String.eqb_refl.
Qed.

(** X6. A sign-in whose password is a string is answered 401
    [{error: "Invalid credentials"}], the same answer whether the username
    is unknown or the password does not verify.  A sign-in whose password
    is missing or is not a string is answered the same 401 for an unknown
    username, but 500 [{error: "Internal server error"}] for a stored one
    ([bcrypt.compare] throws), so that this answer tells whether the
    username is taken.  None of them changes the registry or the store. *)
Theorem rejected_signin_answers
  (hdr : option string) (e : Entropy) (username password : string) (s : Server)
  (Hwrong : forall user, Storage.getUserByUsername username (db s) = Some user ->
                         Storage.verifyPassword user password = false) :
  handle hdr e (PostSignin username password) s
  = (fail 401 "Invalid credentials", s)
  /\ handle hdr e (PostSigninUntyped username) s
     = (match Storage.getUserByUsername username (db s) with
        | Some _ => fail 500 "Internal server error"
        | None => fail 401 "Invalid credentials"
        end, s).
Proof.
  cbn [handle]. unfold signin.
  destruct (Storage.getUserByUsername username (db s)) as [user|] eqn:Hfind; [|done].
  by rewrite (Hwrong user).
Qed.

(** X7. [POST /api/auth/signout] is answered [{success: true}] whatever
    the header; it never touches the store, removes the session the header
    names, leaves every other session in place, and sent again leaves the
    server as the first one left it. *)
Theorem signout_always_succeeds (hdr : option string) (e e' : Entropy) (s : Server) :
  let r := handle hdr e PostSignout s in
  fst r = json JSuccess
  /\ db (snd r) = db s
  /\ (forall tok, hdr = Some tok -> tok <> "" -> sessions (snd r) !! tok = None)
  /\ (forall tok, hdr <> Some tok -> sessions (snd r) !! tok = sessions s !! tok)
  /\ handle hdr e' PostSignout (snd r) = r.
Proof.
  cbn [handle]. unfold signout. destruct hdr as [sid|]; [|done].
  destruct (String.eqb sid "") eqn:Hsid.
  - cbn [fst snd]. apply String.eqb_eq in Hsid.
    repeat split; try done. intros tok [= <-] Hne. done.
  - cbn [fst snd sessions db].
    split; [done|]. split; [done|]. split; [|split].
    + intros tok [= <-] _. by rewrite lookup_delete_eq.
    + intros tok Hne. rewrite lookup_delete_ne; [done|]. congruence.
    + by rewrite delete_delete_eq.
Qed.

(** X8. A request that is not answered 200 leaves the registry and the
    store as they were. *)
Theorem failed_requests_change_nothing
  (hdr : option string) (e : Entropy) (req : Request) (s : Server)
  (Hfailed : status (fst (handle hdr e req s)) <> 200) :
  snd (handle hdr e req s) = s.
Proof.
  revert Hfailed. destruct req as [d|username password|username| |req]; cbn [handle].
  - unfold signup. destruct d as [userData|]; [|done].
    destruct (Storage.getUserByUsername _ _); [done|].
    by destruct (Storage.createUser _ _ _) as [[user db']|].
  - unfold signin. destruct (Storage.getUserByUsername _ _) as [user|]; [|done].
    by destruct (Storage.verifyPassword _ _).
  - unfold signin. by destruct (Storage.getUserByUsername _ _) as [user|].
  - unfold signout. destruct hdr as [sid|]; [|done]. by destruct (String.eqb sid "").
  - destruct (authenticateUser hdr s) as [res|u]; [done|].
    destruct req as [ | |[d|]|rid0|rid0|[d|]|xid| |[d|]|id0 updates|id0|id0|[d|]|sid];
      simpl; try done.
    + by destruct (Storage.createRoutine _ _ _ _) as [[? ?]|].
    + by destruct (Storage.createRoutineExercise _ _ _) as [[? ?]|].
    + by destruct (Storage.createWorkout _ _ _ _) as [[? ?]|].
    + by destruct (Storage.updateWorkout _ _ _ _) as [[? ?]|].
    + by destruct (Storage.createWorkoutSet _ _ _) as [[? ?]|].
Qed.


Lemma filter_snoc_hit {A} (p : A -> bool) (l : list A) (a : A) :
  p a = true -> List.filter p (l ++ [a]) = List.filter p l ++ [a].
Proof. intros Hp. rewrite List.filter_app. simpl. by rewrite Hp. Qed.



Lemma map_fixed_on {A} (p : A -> bool) (g : A -> A) (l : list A) :
  (forall a, p a = true -> g a = a) ->
  map g (List.filter p l) = List.filter p l.
Proof.
  intros Hg. induction l as [|a l IH]; simpl; [done|].
  destruct (p a) eqn:Hp; simpl; [|done]. by rewrite IH, Hg.
Qed.


(** X10. A routine posted under a session (the session's user being
    stored and the uuid drawn being new) is stored for that user with the
    submitted name, and [GET /api/routines] under the same session then
    lists what it listed before followed by the new row. *)
Theorem posted_routine_is_listed
  (hdr : option string) (e e' : Entropy) (name : string) (s : Server)
  (u : SessionUser)
  (Hauth : authenticateUser hdr s = inr u)
  (Huser : Storage.has_id u_id (su_id u) (users (db s)) = true)
  (Hfresh : Storage.has_id r_id (e_uuid e) (routines (db s)) = false) :
  let row := mkRoutine (e_uuid e) (su_id u) name in
  let r1 := handle hdr e (Api (PostRoutine (Some (mkInsertRoutine name)))) s in
  let r2 := handle hdr e' (Api GetRoutines) (snd r1) in
  fst r1 = json (JRoutine row)
  /\ fst r2 = json (JRoutines (Storage.getRoutinesByUserId (su_id u) (db s) ++ [row]))
  /\ snd r2 = snd r1.
Proof.
  intros row r1 r2.
  assert (Hr1 : r1 = (json (JRoutine row),
                      set_db s (mkDB (users (db s)) (routines (db s) ++ [row])
                                     (routine_exercises (db s)) (workouts (db s))
                                     (workout_sets (db s))))).
  { subst r1. rewrite (handle_api _ _ _ _ u) by done. cbn [route].
    unfold Storage.createRoutine. cbn [ir_name]. by rewrite Hfresh, Huser. }
  subst r2. rewrite Hr1. cbn [fst snd].
  rewrite (handle_api _ _ _ _ u) by done. cbn [route fst snd].
  split; [done|]. split; [|done].
  unfold Storage.getRoutinesByUserId, set_db. cbn [db routines].
  rewrite filter_snoc_hit; [done|]. apply String.eqb_refl.
Qed.

Lemma filter_all {A} (p : A -> bool) (l : list A) :
  existsb p l = false -> List.filter (fun a => negb (p a)) l = l.
Proof.
  induction l as [|a l IH]; simpl; [done|].
  destruct (p a); simpl; [done|]. intros Hl. by rewrite IH.
Qed.

Lemma filter_none {A} (p : A -> bool) (l : list A) :
  existsb p l = false -> List.filter p l = [].
Proof.
  induction l as [|a l IH]; simpl; [done|].
  destruct (p a); simpl; [done|]. exact IH.
Qed.

(** X11. [DELETE /api/routines/:id] for an id under which the caller owns
    no routine is answered [{success: true}] and changes nothing: the
    routine, its exercises and the workouts that refer to it stay. *)
Theorem foreign_routine_is_not_deleted
  (hdr : option string) (e : Entropy) (routineId : uuid) (s : Server)
  (u : SessionUser)
  (Hauth : authenticateUser hdr s = inr u)
  (Hforeign : existsb (Storage.routine_hit routineId (su_id u)) (routines (db s))
              = false) :
  handle hdr e (Api (DeleteRoutine routineId)) s = (json JSuccess, s).
Proof.
  rewrite (handle_api _ _ _ _ u) by done. cbn [route]. f_equal.
  unfold Storage.deleteRoutine. rewrite (filter_none _ _ Hforeign).
  rewrite (filter_all _ _ Hforeign).
  destruct s as [ss [us rs xs ws wss]]. unfold set_db. cbn. f_equal. f_equal.
  - clear. induction xs as [|x xs IH]; simpl; [done|]. by rewrite IH.
  - clear. induction ws as [|w ws IH]; simpl; [done|]. rewrite IH.
    by destruct (w_routine_id w).
Qed.

(** X12. Deleting a routine deletes no workout and no set: the sets are
    untouched, every workout keeps its id, owner, routine name, start and
    end time, a workout that does not refer to the routine is kept as it
    is, and when the caller owned a routine with that id no workout refers
    to it afterwards ([onDelete: "set null"]). *)
Theorem delete_routine_keeps_workouts
  (hdr : option string) (e : Entropy) (routineId : uuid) (s : Server)
  (u : SessionUser)
  (Hauth : authenticateUser hdr s = inr u) :
  let s' := snd (handle hdr e (Api (DeleteRoutine routineId)) s) in
  workout_sets (db s') = workout_sets (db s)
  /\ map own_columns (workouts (db s')) = map own_columns (workouts (db s))
  /\ (forall w, In w (workouts (db s)) -> w_routine_id w <> Some routineId ->
        In w (workouts (db s')))
  /\ (existsb (Storage.routine_hit routineId (su_id u)) (routines (db s)) = true ->
      forall w, In w (workouts (db s')) -> w_routine_id w <> Some routineId).
Proof.
  cbv zeta. rewrite (handle_api _ _ _ _ u) by done. cbn [route snd].
  unfold set_db, Storage.deleteRoutine. cbn [db workout_sets workouts].
  split; [done|]. split; [|split].
  - apply map_column_map. intros w.
    destruct (w_routine_id w); [|done]. by destruct (Storage.has_id _ _ _).
  - intros w Hin Hne. apply in_map_iff. exists w. split; [|done].
    destruct (w_routine_id w) as [rid|] eqn:Hrid; [|done].
    destruct (Storage.has_id r_id rid _) eqn:Hdead; [|done].
    apply has_id_filter_hit in Hdead. congruence.
  - intros Hown w Hin Href. apply in_map_iff in Hin as (w0 & <- & Hin).
    destruct (w_routine_id w0) as [rid|] eqn:Hrid; [|congruence].
    destruct (Storage.has_id r_id rid _) eqn:Hdead; [done|].
    rewrite Hrid in Href. injection Href as ->.
    assert (Storage.has_id r_id routineId
              (List.filter (Storage.routine_hit routineId (su_id u)) (routines (db s)))
            = true); [|congruence].
    apply existsb_exists in Hown as (r & Hr & Hhit).
    apply has_id_true, in_map_iff. exists r. split; [|by apply filter_In].
    unfold Storage.routine_hit in Hhit. apply andb_true_iff in Hhit as [Hid _].
    by apply String.eqb_eq.
Qed.

(** X13. [PATCH /api/workouts/:id] for an id under which the caller owns
    no workout changes nothing and is answered 200 with no body
    ([result[0]] is undefined), so that a user cannot finish, or reopen,
    the workout of another. *)
Theorem foreign_workout_is_not_updated
  (hdr : option string) (e : Entropy) (workoutId : uuid) (updates : WorkoutUpdates)
  (s : Server) (u : SessionUser)
  (Hauth : authenticateUser hdr s = inr u)
  (Hforeign : existsb (Storage.workout_hit workoutId (su_id u)) (workouts (db s))
              = false) :
  handle hdr e (Api (PatchWorkout workoutId updates)) s = (json (JWorkout None), s).
Proof.
  rewrite (handle_api _ _ _ _ u) by done. cbn [route].
  unfold Storage.updateWorkout.
  rewrite (filter_all _ _ Hforeign), (filter_none _ _ Hforeign). cbn.
  rewrite app_nil_r. by destruct s as [ss [us rs xs ws wss]].
Qed.

End Requests.

Section RequestRuns.
Import Routes Observe Integrity Fixture.

Lemma second_signup_is_rejected_witness :
  let r1 := @handle plain_bcrypt None (draw 9)
              (PostSignup (Some (mkInsertUser "cyd" "pw-c"))) (snd seeded) in
  fst r1 = json (JSession (mkSessionUser "id-9" "cyd") (generateSessionId (draw 9)))
  /\ @handle plain_bcrypt (Some ann_token) (draw 10)
       (PostSignup (Some (mkInsertUser "cyd" "other"))) (snd r1)
     = (fail 400 "Username already exists", snd r1).
Proof.
  intros r1.
  destruct (@second_signup_is_rejected plain_bcrypt None (Some ann_token)
              (draw 9) (draw 10) "cyd" "pw-c" "other" (snd seeded))
    as (H1 & _ & _ & H2); [vm_compute; reflexivity..|].
  split; [exact H1 | exact H2].
Defined.

Lemma rejected_signin_answers_witness :
  @handle plain_bcrypt None (draw 9) (PostSignin "ann" "pw-b") (snd seeded)
  = (fail 401 "Invalid credentials", snd seeded)
  /\ @handle plain_bcrypt None (draw 9) (PostSigninUntyped "ann") (snd seeded)
     = (fail 500 "Internal server error", snd seeded)
  /\ @handle plain_bcrypt None (draw 9) (PostSigninUntyped "zed") (snd seeded)
     = (fail 401 "Invalid credentials", snd seeded).
Proof.
  destruct (@rejected_signin_answers plain_bcrypt None (draw 9) "ann" "pw-b"
              (snd seeded)) as [Hstring Hann].
  { intros user Hfind. vm_compute in Hfind. injection Hfind as <-.
    vm_compute. reflexivity. }
  destruct (@rejected_signin_answers plain_bcrypt None (draw 9) "zed" "pw-z"
              (snd seeded)) as [_ Hzed].
  { intros user Hfind. vm_compute in Hfind. discriminate. }
  split; [exact Hstring|]. split; [exact Hann | exact Hzed].
Defined.

Lemma failed_requests_change_nothing_witness :
  status (fst (@handle plain_bcrypt (Some ann_token) (draw 9)
                 (Api (PostWorkoutSet
                    (Some (mkInsertWorkoutSet "id-404" "bench press" 100 5 7 1))))
                 (snd seeded))) = 400
  /\ snd (@handle plain_bcrypt (Some ann_token) (draw 9)
            (Api (PostWorkoutSet
               (Some (mkInsertWorkoutSet "id-404" "bench press" 100 5 7 1))))
            (snd seeded)) = snd seeded.
Proof.
  split; [vm_compute; reflexivity|].
  apply (@failed_requests_change_nothing plain_bcrypt). vm_compute. discriminate.
Defined.


Lemma posted_routine_is_listed_witness :
  let r1 := @handle plain_bcrypt (Some ann_token) (draw 9)
              (Api (PostRoutine (Some (mkInsertRoutine "pull day")))) (snd seeded) in
  fst (@handle plain_bcrypt (Some ann_token) (draw 10) (Api GetRoutines) (snd r1))
  = json (JRoutines [push_day; mkRoutine "id-9" "id-0" "pull day"]).
Proof.
  intros r1.
  destruct (@posted_routine_is_listed plain_bcrypt (Some ann_token) (draw 9) (draw 10)
              "pull day" (snd seeded) (mkSessionUser "id-0" "ann"))
    as (_ & H2 & _); [vm_compute; reflexivity..|].
  exact H2.
Defined.

Lemma foreign_routine_is_not_deleted_witness :
  Storage.has_id r_id "id-2" (routines (db (snd seeded))) = true
  /\ @handle plain_bcrypt (Some bob_token) (draw 9) (Api (DeleteRoutine "id-2"))
       (snd seeded)
     = (json JSuccess, snd seeded).
Proof.
  split; [vm_compute; reflexivity|].
  apply (@foreign_routine_is_not_deleted plain_bcrypt (Some bob_token) (draw 9) "id-2"
           (snd seeded) (mkSessionUser "id-1" "bob"));
    vm_compute; reflexivity.
Defined.

Lemma delete_routine_keeps_workouts_witness :
  let s' := snd (@handle plain_bcrypt (Some ann_token) (draw 9)
                   (Api (DeleteRoutine "id-2")) (snd seeded)) in
  workout_sets (db s') = workout_sets (db (snd seeded))
  /\ map own_columns (workouts (db s'))
     = [("id-4", "id-0", "push day", 1750000000100%Z, None)]
  /\ forall w, In w (workouts (db s')) -> w_routine_id w <> Some "id-2".
Proof.
  intros s'.
  destruct (@delete_routine_keeps_workouts plain_bcrypt (Some ann_token) (draw 9)
              "id-2" (snd seeded) (mkSessionUser "id-0" "ann"))
    as (H1 & H2 & _ & H4); [vm_compute; reflexivity|].
  split; [exact H1|]. split; [subst s'; rewrite H2; vm_compute; reflexivity|].
  apply H4. vm_compute. reflexivity.
Defined.

Lemma foreign_workout_is_not_updated_witness :
  Storage.has_id w_id "id-4" (workouts (db (snd seeded))) = true
  /\ @handle plain_bcrypt (Some bob_token) (draw 9)
       (Api (PatchWorkout "id-4"
               (mkWorkoutUpdates (SetEndTime (Some 1750000000999%Z)) [])))
       (snd seeded)
     = (json (JWorkout None), snd seeded).
Proof.
  split; [vm_compute; reflexivity|].
  apply (@foreign_workout_is_not_updated plain_bcrypt (Some bob_token) (draw 9) "id-4"
           (mkWorkoutUpdates (SetEndTime (Some 1750000000999%Z)) []) (snd seeded)
           (mkSessionUser "id-1" "bob"));
    vm_compute; reflexivity.
Defined.

End RequestRuns.

(** ** Drafts and recorded sets *)
Section Editing.
Import Routes Observe Api Session Terms.
Context {B : Type} `{Backend B}.

(** X14. Typing into a draft field rewrites that field of that slot and
    nothing else: the other two fields of the slot, every other slot, the
    number of slots, and the rest of the component (recorded sets, cursor,
    backend, console) are as before, no call is issued, and the drafts are
    not re-initialised.  An index past the last slot changes nothing. *)
Theorem typing_changes_one_field
  (setIndex : nat) (f : Field) (w : World B)
  (Hmounted : mounted w = true) :
  let w' := dispatch (UpdateSetInput setIndex f) w in
  let inputs := setInputs (view w) in
  let inputs' := setInputs (view w') in
  w' = set_view (setSetInputs (fun _ => inputs')) w
  /\ length inputs' = length inputs
  /\ (forall j, j <> setIndex -> inputs' !! j = inputs !! j)
  /\ (inputs !! setIndex = None -> inputs' = inputs)
  /\ (forall input, inputs !! setIndex = Some input ->
        exists input', inputs' !! setIndex = Some input'
          /\ match f with
             | FWeight q => in_weight input' = q /\ in_reps input' = in_reps input
                            /\ in_rpe input' = in_rpe input
             | FReps z => in_weight input' = in_weight input /\ in_reps input' = z
                          /\ in_rpe input' = in_rpe input
             | FRpe z => in_weight input' = in_weight input
                         /\ in_reps input' = in_reps input /\ in_rpe input' = z
             end).
Proof.
  cbv zeta. rewrite dispatch_quiet by done. cbn [handler].
  unfold updateSetInput. cbn.
  split; [done|]. split; [by rewrite length_imap|]. split; [|split].
  - intros j Hj. rewrite list_lookup_imap.
    destruct (setInputs (view w) !! j) as [input|]; [|done]. simpl.
    apply Nat.eqb_neq in Hj. by rewrite Hj.
  - intros Hnone. apply list_eq. intros j. rewrite list_lookup_imap.
    destruct (setInputs (view w) !! j) as [input|] eqn:Hj; [|done]. simpl.
    destruct (Nat.eqb j setIndex) eqn:Heq; [|done].
    apply Nat.eqb_eq in Heq. congruence.
  - intros input Hin. rewrite list_lookup_imap, Hin. simpl.
    rewrite Nat.eqb_refl. eexists. split; [done|]. by destruct f.
Qed.


Lemma handler_keeps_ids (ev : Event) (w : World B) :
  Forall (fun s => is_Some (set_id s)) (workoutSets (view w)) ->
  Forall (fun s => is_Some (set_id s)) (workoutSets (view (handler ev w))).
Proof.
  intros Hids.
  assert (Hsave : Forall (fun s => is_Some (set_id s))
                    (workoutSets (view (saveAllSets w)))).
  { unfold saveAllSets.
    destruct (activeWorkout (view w)) as [aw|]; [|done].
    destruct (currentExercise (view w)) as [ex|]; [|done].
    destruct (Nat.eqb _ 0); [done|].
    match goal with |- context [promise_all ?f ?xs w] =>
      pose proof (promise_all_frame f xs (fun x w0 => call_frame _ _ w0) w) as Hv;
      destruct (promise_all f xs w) as [[err|rows] w'] end;
      simpl in *; destruct Hv as (-> & _); [done|].
    apply Forall_app. split; [done|].
    apply List.Forall_forall. intros s Hs. apply in_map_iff in Hs as (r & <- & _).
    by eexists. }
  destruct ev; cbn [handler]; try done.
  - (* StartWorkout *)
    unfold startWorkout. cbv zeta.
    destruct (negb _ || _); [done|].
    destruct (List.find _ _) as [selectedRoutine|]; [|done].
    match goal with |- context [call ?c ?f w] =>
      pose proof (call_view c f w) as Hv; destruct (call c f w) as [[err|workout] w'] end;
      simpl in *; [by rewrite Hv|]. apply Forall_nil_2.
  - (* SaveSetOnBlur *)
    unfold saveSetOnBlur.
    destruct (activeWorkout (view w)) as [aw|]; [|done].
    destruct (currentExercise (view w)) as [ex|]; [|done].
    destruct (setInputs (view w) !! setIndex) as [setData|]; [|done].
    destruct (has_data _ _); [|done].
    match goal with |- context [call ?c ?f w] =>
      pose proof (call_view c f w) as Hv; destruct (call c f w) as [[err|row] w'] end;
      simpl in *; rewrite Hv; [done|].
    apply Forall_app. split; [|apply Forall_singleton; by eexists].
    apply List.Forall_forall. intros s Hs. apply filter_In in Hs as [Hs _].
    by apply (proj1 (List.Forall_forall _ _) Hids).
  - (* GoToNextExercise *)
    unfold goToNextExercise. destruct (activeWorkout (view w)) as [aw|]; [|done].
    by destruct (_ <? _)%Z.
  - (* GoToPreviousExercise *)
    unfold goToPreviousExercise. by destruct (0 <? _)%Z.
  - (* SelectExercise *)
    unfold selectExercise. by destruct (negb _).
  - (* DeleteSet *)
    unfold deleteSet.
    match goal with |- context [call ?c ?f w] =>
      pose proof (call_view c f w) as Hv; destruct (call c f w) as [[err|r] w'] end;
      simpl in *; rewrite Hv; [done|].
    apply List.Forall_forall. intros s Hs. apply filter_In in Hs as [Hs _].
    by apply (proj1 (List.Forall_forall _ _) Hids).
  - (* UpdateSet *)
    simpl. apply List.Forall_forall. intros s' Hs.
    apply in_map_iff in Hs as (s & <- & Hs).
    pose proof (proj1 (List.Forall_forall _ _) Hids s Hs) as Hid.
    by destruct (id_differs setId s).
  - (* FinishWorkout *)
    unfold finishWorkout. destruct (activeWorkout (view w)) as [aw|]; [|done].
    match goal with |- context [call ?c ?f ?w1] =>
      pose proof (call_view c f w1) as Hv; destruct (call c f w1) as [[err|r] w'] end;
      simpl in *; [by rewrite Hv|]. apply Forall_nil_2.
Qed.

(** X16. The id of a recorded set is never missing: when every entry of
    the recorded-sets list has an id, every entry still has one after any
    sequence of events (entries only come from rows the backend returned,
    and an edit keeps the id), which is what the [set.id!] of the edit and
    delete buttons relies on. *)
Theorem recorded_sets_have_ids (evs : list Event) (w : World B)
  (Hids : Forall (fun s => is_Some (set_id s)) (workoutSets (view w))) :
  Forall (fun s => is_Some (set_id s)) (workoutSets (view (run evs w))).
Proof.
  revert w Hids. induction evs as [|ev evs IH]; intros w Hids; [done|].
  unfold run. cbn [fold_left]. apply IH. unfold dispatch.
  destruct (mounted w); [|done].
  pose proof (handler_keeps_ids ev w Hids) as Hh.
  destruct (deps_changed w (handler ev w)); [|done].
  by destruct (initEffect_frame (handler ev w)) as (_ & _ & _ & -> & _).
Qed.

(** X17. When the workout-creation call of a start is rejected, one
    creation call was issued, the rejection is logged as
    "Error starting workout:", and every cell of the component is as it
    was: no workout becomes active and the selection is kept. *)
Theorem failed_start_is_logged (now : Z) (w : World B) (routine : Routine) (err : string)
  (Hmounted : mounted w = true)
  (Huser : user (view w) = true)
  (Hchosen : selectedRoutineId (view w) <> "")
  (Hroutine : List.find (fun r => String.eqb (routine_id r) (selectedRoutineId (view w)))
                        (routines (view w)) = Some routine)
  (Hrejected : fst (createWorkout
                      (mkCreateWorkoutData (selectedRoutineId (view w))
                                           (routine_name routine) now)
                      (backend w)) = inl err) :
  let w' := dispatch (StartWorkout now) w in
  view w' = view w
  /\ console w' = console w ++ [("Error starting workout:", err)]
  /\ calls w' = calls w ++ [CallCreateWorkout
                              (mkCreateWorkoutData (selectedRoutineId (view w))
                                                   (routine_name routine) now)].
Proof.
  cbv zeta.
  assert (Hh : handler (StartWorkout now) w
               = console_error "Error starting workout:" err
                   (snd (call (CallCreateWorkout
                                 (mkCreateWorkoutData (selectedRoutineId (view w))
                                                      (routine_name routine) now))
                              (createWorkout
                                 (mkCreateWorkoutData (selectedRoutineId (view w))
                                                      (routine_name routine) now)) w))).
  { cbn [handler]. unfold startWorkout. cbv zeta. rewrite Huser, Hroutine.
    apply String.eqb_neq in Hchosen. rewrite Hchosen. cbn [negb orb].
    unfold call in *. destruct (createWorkout _ (backend w)) as [r b'].
    simpl in Hrejected. by subst r. }
  assert (Hv : view (handler (StartWorkout now) w) = view w).
  { rewrite Hh. unfold call. by destruct (createWorkout _ _). }
  unfold dispatch. rewrite Hmounted.
  unfold deps_changed, deps. rewrite Hv, bool_decide_eq_true_2 by done.
  split; [done|]. rewrite Hh. unfold call. by destruct (createWorkout _ _).
Qed.

Lemma handler_mounted (ev : Event) (w : World B) :
  mounted (handler ev w) = mounted w.
Proof.
  destruct (quiet ev) eqn:Hq.
  { by destruct (quiet_handler_rest ev w Hq) as (_ & _ & _ & ->). }
  destruct (saveAllSets_view w) as (_ & _ & _ & _ & _ & Hm).
  destruct ev; try done; cbn [handler].
  - unfold startWorkout. cbv zeta.
    destruct (negb _ || _); [done|].
    destruct (List.find _ _) as [selectedRoutine|]; [|done].
    match goal with |- context [call ?c ?f w] =>
      pose proof (call_frame c f w) as Hv; destruct (call c f w) as [[err|workout] w'] end;
      simpl in *; by destruct Hv as (_ & _ & -> & _).
  - unfold goToNextExercise. destruct (activeWorkout (view w)) as [aw|]; [|done].
    by destruct (_ <? _)%Z.
  - unfold goToPreviousExercise. by destruct (0 <? _)%Z.
  - unfold selectExercise. by destruct (negb _).
  - unfold finishWorkout. destruct (activeWorkout (view w)) as [aw|]; [|done].
    match goal with |- context [call ?c ?f ?w1] =>
      pose proof (call_frame c f w1) as Hv; destruct (call c f w1) as [[err|r] w'] end;
      simpl in *; destruct Hv as (_ & _ & -> & _); done.
Qed.

Lemma at_index_inside {A} (l : list A) (i : Z) :
  (0 <= i <= Z.of_nat (length l) - 1)%Z -> is_Some (at_index l i).
Proof.
  intros Hi. unfold at_index.
  replace (i <? 0)%Z with false by (symmetry; apply Z.ltb_ge; lia).
  apply lookup_lt_is_Some. lia.
Qed.

Lemma initEffect_inside (w : World B) :
  in_bounds w -> mounted (initEffect w) = mounted w.
Proof.
  unfold in_bounds, initEffect. intros Hin.
  destruct (activeWorkout (view w)) as [aw|]; [|done].
  destruct (0 <? _)%Z eqn:Hlen; [|done].
  destruct Hin as [Hnil|Hin]; [by rewrite Hnil in Hlen|].
  by destruct (at_index_inside _ _ Hin) as [ex ->].
Qed.

(** X18. As long as every handler has its answers before the next event
    is taken, the effect that initialises the drafts never reads an
    exercise that is not there: from a mounted component with no handler
    waiting, whose cursor is inside the active workout's exercise list (or
    with no workout active), no sequence of events, a select taking one of
    the offered indices, makes the effect throw on the schedule that
    answers each handler at once.  (Two Next clicks that overlap do make
    it throw.) *)
Theorem effect_never_throws_in_turn (evs : list Event) (w : World B)
  (Hmounted : mounted w = true)
  (Hbounds : in_bounds w)
  (Hoffered : all_offered evs w = true) :
  mounted (Overlap.world (Overlap.steps (Overlap.serial evs) (Overlap.mkLive w [])))
  = true.
Proof.
  rewrite serial_run. cbn [Overlap.world].
  revert w Hmounted Hbounds Hoffered.
  induction evs as [|ev evs IH]; intros w Hm Hin Hoff; [done|].
  cbn [all_offered] in Hoff. apply andb_true_iff in Hoff as [Hev Hevs].
  unfold run. cbn [fold_left]. apply IH; [|by apply dispatch_in_bounds|done].
  unfold dispatch. rewrite Hm.
  pose proof (handler_in_bounds ev w Hev Hin) as Hh.
  destruct (deps_changed w (handler ev w)).
  - by rewrite initEffect_inside, handler_mounted.
  - by rewrite handler_mounted.
Qed.

(** X19. A finish whose [end_time] update is accepted puts the page back
    to where a workout can be started: no active workout, no recorded sets,
    the cursor at 0, no current exercise, no drafts and no selected
    routine; the routine list and the signed-in user are kept. *)
Theorem finish_resets_the_page (now : Z) (w : World B) (aw : ActiveWorkout)
  (Hmounted : mounted w = true)
  (Hactive : activeWorkout (view w) = Some aw)
  (Haccepted : fst (updateWorkout (aw_id aw) now (backend (saveAllSets w))) = inr tt) :
  let w' := dispatch (FinishWorkout now) w in
  view w' = mkView (user (view w)) (routines (view w)) "" None [] 0 None []
                   (editingSetId (view w))
  /\ console w' = console (saveAllSets w)
  /\ mounted w' = true
  /\ enabled (StartWorkout now) w' = true.
Proof.
  cbv zeta.
  assert (Hv : view (saveAllSets w)
               = setWorkoutSets (fun _ => workoutSets (view (saveAllSets w))) (view w)).
  { unfold saveAllSets.
    destruct (activeWorkout (view w)) as [aw0|]; [|by destruct (view w)].
    destruct (currentExercise (view w)) as [ex|]; [|by destruct (view w)].
    destruct (Nat.eqb _ 0); [by destruct (view w)|].
    match goal with |- context [promise_all ?f ?xs w] =>
      pose proof (promise_all_frame f xs (fun x w0 => call_frame _ _ w0) w) as Hf;
      destruct (promise_all f xs w) as [[err|rows] w'] end;
      simpl in *; destruct Hf as (-> & _); by destruct (view w). }
  destruct (saveAllSets_view w) as (_ & _ & _ & _ & _ & Hm).
  assert (Hh : handler (FinishWorkout now) w
               = set_view (fun v =>
                   setSelectedRoutineId ""
                     (setSetInputs (fun _ => [])
                        (setCurrentExercise None
                           (setCurrentExerciseIndex (fun _ => 0%Z)
                              (setWorkoutSets (fun _ => [])
                                 (setActiveWorkout None v))))))
                   (snd (call (CallUpdateWorkout (aw_id aw) now)
                              (updateWorkout (aw_id aw) now) (saveAllSets w)))).
  { cbn [handler]. unfold finishWorkout. rewrite Hactive.
    unfold call in *. destruct (updateWorkout _ _ (backend (saveAllSets w))) as [r b'].
    simpl in Haccepted. by subst r. }
  unfold dispatch. rewrite Hmounted, Hh.
  assert (Hinit : forall w0 : World B, activeWorkout (view w0) = None -> initEffect w0 = w0).
  { intros w0 Hnone. unfold initEffect. by rewrite Hnone. }
  match goal with |- context [if ?c then initEffect ?w0 else _] =>
    rewrite (Hinit w0) by done; destruct c end;
    unfold call; destruct (updateWorkout _ _ _) as [r b']; cbn;
    rewrite ?Hm, ?Hmounted; repeat split; try done;
    rewrite Hv; by destruct (view w).
Qed.

End Editing.

Section ExpressEditing.
Import Routes Observe Api Session Terms.
Context `{Bcrypt} `{Zod}.

Lemma deleteWorkoutSet_answered (x : Express) (setId : uuid) :
  deleteWorkoutSet setId x
  = match session_user x with
    | Some _ =>
        (inr tt,
         mkExpress (sessionId x)
           (set_db (server x) (Storage.deleteWorkoutSet setId (db (server x))))
           (entropy x) (S (served x)))
    | None =>
        (inl "Not authenticated",
         mkExpress (sessionId x) (server x) (entropy x) (S (served x)))
    end.
Proof.
  cbn [deleteWorkoutSet express]. destruct (session_user x) as [u|] eqn:Hu.
  - by rewrite (request_api x u).
  - by rewrite request_rejected.
Qed.

(** X20. The delete button issues one delete call for the id.  Under a
    valid session the call is answered success whether or not a row has
    that id: the store is left without such a row, and the entries with
    that id leave the recorded-sets list.  Without a valid session the
    rejection is logged as "Error deleting set:" and neither the store nor
    the list changes. *)
Theorem delete_set_removes_row_and_entries (setId : string) (w : World Express)
  (Hmounted : mounted w = true) :
  let w' := dispatch (DeleteSet setId) w in
  calls w' = calls w ++ [CallDeleteWorkoutSet setId]
  /\ match session_user (backend w) with
     | Some _ =>
         db (server (backend w'))
         = Storage.deleteWorkoutSet setId (db (server (backend w)))
         /\ Storage.has_id ws_id setId (workout_sets (db (server (backend w')))) = false
         /\ workoutSets (view w') = List.filter (id_differs setId) (workoutSets (view w))
         /\ (forall s, In s (workoutSets (view w')) -> set_id s <> Some setId)
         /\ console w' = console w
     | None =>
         server (backend w') = server (backend w)
         /\ view w' = view w
         /\ console w' = console w ++ [("Error deleting set:", "Not authenticated")]
     end.
Proof.
  cbv zeta. rewrite dispatch_quiet by done. cbn [handler].
  unfold deleteSet, call. rewrite deleteWorkoutSet_answered.
  destruct (session_user (backend w)) as [u|]; cbn; [|done].
  split; [done|]. split; [done|]. split; [apply deleteWorkoutSet_gone|].
  split; [done|]. split; [|done].
  intros s Hin Hid. apply filter_In in Hin as [_ Hd].
  unfold id_differs in Hd. rewrite Hid, String.eqb_refl in Hd. done.
Qed.

End ExpressEditing.

Section EditingRuns.
Import Routes Observe Api Session Terms Fixture.
#[local] Existing Instance plain_bcrypt.
#[local] Existing Instance Wire.repository.

Lemma typing_changes_one_field_witness :
  let w' := dispatch (UpdateSetInput 0 (FWeight 135)) started in
  setInputs (view w') !! 1%nat = Some defaultInput
  /\ exists input', setInputs (view w') !! 0%nat = Some input'
                    /\ in_weight input' = 135%Q /\ in_reps input' = 0%Z.
Proof.
  intros w'.
  destruct (typing_changes_one_field 0 (FWeight 135) started)
    as (_ & _ & Hrest & _ & Hslot); [vm_compute; reflexivity|].
  split.
  - subst w'. rewrite (Hrest 1%nat) by lia. vm_compute. reflexivity.
  - destruct (Hslot defaultInput) as (input' & Hin & Hw & Hr & _);
      [vm_compute; reflexivity|].
    exists input'. split; [exact Hin|]. split; [exact Hw|]. rewrite Hr. reflexivity.
Defined.


Lemma recorded_sets_have_ids_witness :
  Forall (fun s => is_Some (set_id s))
         (workoutSets (view (run [UpdateSet "id-5" (mkSetUpdates None (Some 6%Z) None);
                                  SaveSetOnBlur 0; GoToNextExercise] recorded))).
Proof.
  apply (recorded_sets_have_ids
           [UpdateSet "id-5" (mkSetUpdates None (Some 6%Z) None);
            SaveSetOnBlur 0; GoToNextExercise] recorded).
  vm_compute. constructor; [by eexists|constructor].
Defined.

Lemma failed_start_is_logged_witness :
  let w := mkWorld (view chosen)
             (mkExpress None (server (backend chosen)) draw (served (backend chosen)))
             [] [] 0 true in
  let w' := dispatch (StartWorkout 1750000000200) w in
  activeWorkout (view w') = None
  /\ console w' = [("Error starting workout:", "Not authenticated")].
Proof.
  intros w w'.
  destruct (failed_start_is_logged 1750000000200 w
              (Session.mkRoutine "id-2" "push day" [bench; press]) "Not authenticated")
    as (Hv & Hc & _); [vm_compute; reflexivity | vm_compute; reflexivity
                       | vm_compute; discriminate | vm_compute; reflexivity
                       | vm_compute; reflexivity |].
  split; [subst w'; by rewrite Hv | exact Hc].
Defined.

Lemma effect_never_throws_in_turn_witness :
  mounted (Overlap.world
             (Overlap.steps
                (Overlap.serial
                   [ChooseRoutine "id-2"; StartWorkout 1750000000200; GoToNextExercise;
                    GoToNextExercise; SelectExercise 0; GoToPreviousExercise])
                (Overlap.mkLive idle []))) = true.
Proof.
  apply effect_never_throws_in_turn; [reflexivity | exact I | vm_compute; reflexivity].
Defined.

Lemma finish_resets_the_page_witness :
  let w' := dispatch (FinishWorkout 1750000000900) drafted in
  activeWorkout (view drafted) = Some session_workout
  /\ view w' = mkView true [Session.mkRoutine "id-2" "push day" [bench; press]]
                      "" None [] 0 None [] None.
Proof.
  intros w'. split; [vm_compute; reflexivity|].
  destruct (finish_resets_the_page 1750000000900 drafted session_workout)
    as (Hv & _); [vm_compute; reflexivity..|].
  subst w'. rewrite Hv. vm_compute. reflexivity.
Defined.

Lemma delete_set_removes_row_and_entries_witness :
  let w' := dispatch (DeleteSet "id-5") drafted in
  Storage.has_id ws_id "id-5" (workout_sets (db (server (backend drafted)))) = true
  /\ Storage.has_id ws_id "id-5" (workout_sets (db (server (backend w')))) = false.
Proof.
  intros w'. split; [vm_compute; reflexivity|].
  pose proof (delete_set_removes_row_and_entries "id-5" drafted) as Hdel.
  assert (Hm : mounted drafted = true) by (vm_compute; reflexivity).
  specialize (Hdel Hm). cbv zeta in Hdel. destruct Hdel as [_ Hdel].
  assert (Hu : session_user (backend drafted) = Some (mkSessionUser "id-0" "ann"))
    by (vm_compute; reflexivity).
  rewrite Hu in Hdel. destruct Hdel as (_ & Hgone & _). exact Hgone.
Defined.

End EditingRuns.

(** ** Reading through the express backend *)
Section ExpressReads.
Import Routes Observe Api Reads.
Context `{Bcrypt}.

(** The backend after one more request that changed nothing. *)
Local Abbreviation tick x :=
  (mkExpress (sessionId x) (server x) (entropy x) (S (served x))).

Lemma reads_answered (x : Express) (u : SessionUser) :
  session_user x = Some u ->
  getRoutines x = (inr (Storage.getRoutinesByUserId (su_id u) (db (server x))), tick x)
  /\ getWorkouts x
     = (inr (Storage.getWorkoutsByUserId (su_id u) (db (server x))), tick x)
  /\ (forall id, getRoutineExercises id x
                 = (inr (Storage.getRoutineExercises id (db (server x))), tick x))
  /\ (forall id, getWorkoutSets id x
                 = (inr (Storage.getWorkoutSets id (db (server x))), tick x)).
Proof.
  intros Hu. cbn [getRoutines getWorkouts getRoutineExercises getWorkoutSets
                  express_reader].
  repeat split; intros; by rewrite (request_api x u).
Qed.

Lemma reads_rejected (x : Express) :
  session_user x = None ->
  getRoutines x = (inl "Not authenticated", tick x)
  /\ getWorkouts x = (inl "Not authenticated", tick x).
Proof.
  intros Hu. cbn [getRoutines getWorkouts express_reader].
  split; by rewrite request_rejected.
Qed.

End ExpressReads.

Section Fetching.
Import Routes Observe Api Session Reads Loading.
Context `{Bcrypt}.

Lemma with_exercises_all (rows : list Schema.Routine) :
  forall (w : World Express) (u : SessionUser),
    session_user (backend w) = Some u ->
    promise_all with_exercises rows w
    = (inr (map (fun r => mkRoutine (r_id r) (r_name r)
                            (map of_exercise
                               (Storage.getRoutineExercises (r_id r)
                                  (db (server (backend w)))))) rows),
       mkWorld (view w)
         (mkExpress (sessionId (backend w)) (server (backend w)) (entropy (backend w))
                    (served (backend w) + length rows))
         (console w) (calls w) (refs w) (mounted w)).
Proof.
  induction rows as [|r rows IH]; intros w u Hu.
  - simpl. rewrite Nat.add_0_r. by destruct w as [v [sid srv ent n] c cs rf m].
  - cbn [promise_all]. unfold with_exercises at 1, read.
    destruct (reads_answered (backend w) u Hu) as (_ & _ & Hex & _).
    rewrite Hex. cbn [backend view console calls refs mounted].
    rewrite (IH _ u) by exact Hu. cbn. repeat f_equal. lia.
Qed.

(** X21. With a signed-in user on the page, [fetchRoutines] always ends
    with [loading] false and never changes the server.  Under a valid
    session the routine list becomes the routines stored for the session's
    user, each with the exercises stored under its id, and nothing is
    logged; without one the list is kept and the rejection is logged as
    "Error fetching routines:". *)
Theorem fetched_routines_are_the_users (loading : bool) (w : World Express)
  (Huser : user (view w) = true) :
  let d := db (server (backend w)) in
  let res := fetchRoutines loading w in
  fst res = false
  /\ server (backend (snd res)) = server (backend w)
  /\ match session_user (backend w) with
     | Some u =>
         routines (view (snd res))
         = map (fun r => mkRoutine (r_id r) (r_name r)
                           (map of_exercise (Storage.getRoutineExercises (r_id r) d)))
               (Storage.getRoutinesByUserId (su_id u) d)
         /\ console (snd res) = console w
     | None =>
         routines (view (snd res)) = routines (view w)
         /\ console (snd res)
            = console w ++ [("Error fetching routines:", "Not authenticated")]
     end.
Proof.
  cbv zeta. unfold fetchRoutines. rewrite Huser. cbn [negb]. unfold read.
  destruct (session_user (backend w)) as [u|] eqn:Hu.
  - destruct (reads_answered (backend w) u Hu) as (Hr & _). rewrite Hr.
    rewrite (with_exercises_all _ _ u) by exact Hu. by cbn.
  - destruct (reads_rejected (backend w) Hu) as (Hr & _). rewrite Hr. by cbn.
Qed.

End Fetching.

Section HistoryPage.
Import Routes Observe Api Reads History.
Context `{Bcrypt}.

Lemma with_sets_all (rows : list Workout) :
  forall (x : Express) (u : SessionUser),
    session_user x = Some u ->
    History.promise_all History.with_sets rows x
    = (inr (map (fun w => mkCompletedWorkout w
                            (Storage.getWorkoutSets (w_id w) (db (server x)))) rows),
       mkExpress (sessionId x) (server x) (entropy x) (served x + length rows)).
Proof.
  induction rows as [|r rows IH]; intros x u Hu.
  - simpl. rewrite Nat.add_0_r. by destruct x.
  - cbn [History.promise_all]. unfold History.with_sets at 1.
    destruct (reads_answered x u Hu) as (_ & _ & _ & Hsets).
    rewrite Hsets. rewrite (IH _ u) by exact Hu. cbn. repeat f_equal. lia.
Qed.

(** X22. With a signed-in user on the page, [fetchWorkouts] always ends
    with [loading] false and never changes the server.  Under a valid
    session the page lists the workouts stored for the session's user that
    have an [end_time], each with the sets stored under its id; a workout
    still in progress is not listed.  Without a valid session the list is
    kept and the rejection is logged as "Error fetching workouts:". *)
Theorem history_lists_completed_workouts (p : Page Express)
  (Huser : user p = true) :
  let d := db (server (backend p)) in
  let p' := fetchWorkouts p in
  loading p' = false
  /\ server (backend p') = server (backend p)
  /\ match session_user (backend p) with
     | Some u =>
         workouts p'
         = map (fun w => mkCompletedWorkout w (Storage.getWorkoutSets (w_id w) d))
               (List.filter is_completed (Storage.getWorkoutsByUserId (su_id u) d))
         /\ (forall c, In c (workouts p') -> w_end_time (cw_row c) <> None)
         /\ console p' = console p
     | None =>
         workouts p' = workouts p
         /\ console p'
            = console p ++ [("Error fetching workouts:", "Not authenticated")]
     end.
Proof.
  cbv zeta. unfold fetchWorkouts. rewrite Huser. cbn [negb].
  destruct (session_user (backend p)) as [u|] eqn:Hu.
  - destruct (reads_answered (backend p) u Hu) as (_ & Hw & _). rewrite Hw.
    rewrite (with_sets_all _ _ u) by exact Hu. cbn.
    split; [done|]. split; [done|]. split; [done|]. split; [|done].
    intros c Hc. apply in_map_iff in Hc as (w & <- & Hin).
    apply filter_In in Hin as [_ Hdone]. unfold is_completed in Hdone. cbn.
    by destruct (w_end_time w).
  - destruct (reads_rejected (backend p) Hu) as (_ & Hw). rewrite Hw. by cbn.
Qed.

Lemma push_to_keys name set exercises :
  map fst (push_to name set exercises)
  = if bool_decide (name ∈ map fst exercises) then map fst exercises
    else map fst exercises ++ [name].
Proof.
  induction exercises as [|[key value] rest IH]; simpl; [done|].
  destruct (String.eqb key name) eqn:Heq.
  - apply String.eqb_eq in Heq. subst key. simpl.
    rewrite bool_decide_eq_true_2; [done|]. apply list_elem_of_here.
  - apply String.eqb_neq in Heq. simpl. rewrite IH.
    destruct (bool_decide (name ∈ map fst rest)) eqn:Hin.
    + apply bool_decide_eq_true_1 in Hin.
      rewrite bool_decide_eq_true_2; [done|]. by apply list_elem_of_further.
    + apply bool_decide_eq_false_1 in Hin.
      rewrite bool_decide_eq_false_2; [done|].
      intros Hel. apply elem_of_cons in Hel as [?|?]; congruence.
Qed.

Lemma push_to_entries name set exercises key value :
  NoDup (map fst exercises) ->
  In (key, value) (push_to name set exercises) <->
  (key <> name /\ In (key, value) exercises)
  \/ (key = name /\ exists old, value = old ++ [set]
        /\ (In (name, old) exercises
            \/ (old = [] /\ name ∉ map fst exercises))).
Proof.
  induction exercises as [|[k v] rest IH]; simpl.
  - intros _. split.
    + intros [[= <- <-]|[]]. right. split; [done|]. exists []. split; [done|].
      right. split; [done|]. apply not_elem_of_nil.
    + intros [[_ []]|(-> & old & -> & [[]|[-> _]])]. by left.
  - intros Hnd. apply NoDup_cons in Hnd as [Hk Hrest].
    destruct (String.eqb k name) eqn:Heq.
    + apply String.eqb_eq in Heq. subst k. simpl. split.
      * intros [[= <- <-]|Hin].
        -- right. split; [done|]. exists v. split; [done|]. left. by left.
        -- left. split; [|by right]. intros ->. apply Hk.
           apply list_elem_of_In. apply in_map_iff. by exists (name, value).
      * intros [[Hne [[= -> ->]|Hin]]|(-> & old & -> & [[[= ->]|Hin]|[-> Hno]])];
          try done.
        -- by right.
        -- by left.
        -- exfalso. apply Hk. apply list_elem_of_In. apply in_map_iff.
           by exists (name, old).
        -- exfalso. apply Hno. apply list_elem_of_here.
    + apply String.eqb_neq in Heq. simpl. rewrite (IH Hrest). split.
      * intros [[= <- <-]|[[Hne Hin]|(-> & old & -> & [Hin|[-> Hno]])]].
        -- left. split; [done|]. by left.
        -- left. split; [done|]. by right.
        -- right. split; [done|]. exists old. split; [done|]. left. by right.
        -- right. split; [done|]. exists []. split; [done|]. right. split; [done|].
           intros Hel. apply elem_of_cons in Hel as [?|?]; congruence.
      * intros [[Hne [[= -> ->]|Hin]]|(-> & old & -> & [[[= -> ->]|Hin]|[-> Hno]])];
          try done.
        -- by left.
        -- right. left. done.
        -- right. right. split; [done|]. exists old. split; [done|]. by left.
        -- right. right. split; [done|]. exists []. split; [done|]. right.
           split; [done|]. intros Hel. apply Hno. by apply list_elem_of_further.
Qed.

Lemma push_to_grouped seen set exercises :
  grouped seen exercises ->
  grouped (seen ++ [set]) (push_to (ws_exercise_name set) set exercises).
Proof.
  intros (Hnd & Hval & Hall). split; [|split].
  - rewrite push_to_keys. case_bool_decide; [done|].
    apply NoDup_app. split; [done|]. split; [|apply NoDup_singleton].
    intros k Hk Hin. apply list_elem_of_singleton in Hin. by subst k.
  - intros key value Hin. apply push_to_entries in Hin; [|done].
    rewrite List.filter_app. simpl.
    destruct Hin as [[Hne Hin]|(-> & old & -> & Hold)].
    + destruct (Hval key value Hin) as [Hnil ->]. split; [done|].
      assert (Hmiss : String.eqb (ws_exercise_name set) key = false).
      { apply String.eqb_neq. congruence. }
      by rewrite Hmiss, app_nil_r.
    + rewrite String.eqb_refl. split; [by destruct old|]. f_equal.
      destruct Hold as [Hin|[-> Hno]]; [by apply Hval|].
      symmetry. apply filter_none. apply not_true_is_false. intros Hex.
      apply existsb_exists in Hex as (s & Hs & Heq). apply String.eqb_eq in Heq.
      apply Hno. rewrite <- Heq. by apply Hall.
  - intros s Hs. rewrite push_to_keys.
    apply in_app_or in Hs as [Hs|[<-|[]]].
    + case_bool_decide; [by apply Hall|]. apply elem_of_app. left. by apply Hall.
    + case_bool_decide; [done|]. apply elem_of_app. right. apply list_elem_of_here.
Qed.

(** X23. [getUniqueExercises] groups the sets of a workout by exercise
    name: no name is listed twice, no group is empty, the group listed under
    a name holds exactly the sets with that name, in their order, and every
    set's name is listed. *)
Theorem sets_are_grouped_by_exercise (sets : list WorkoutSet) :
  let exercises := getUniqueExercises sets in
  NoDup (map fst exercises)
  /\ (forall key value, In (key, value) exercises ->
        value <> []
        /\ value = List.filter (fun s => String.eqb (ws_exercise_name s) key) sets)
  /\ (forall s, In s sets -> exists value, In (ws_exercise_name s, value) exercises).
Proof.
  cbv zeta.
  assert (Hgen : forall rest seen exercises,
             grouped seen exercises ->
             grouped (seen ++ rest)
               (fold_left (fun exercises set =>
                             push_to (ws_exercise_name set) set exercises)
                          rest exercises)).
  { induction rest as [|set rest IH]; intros seen exercises Hg; simpl.
    - by rewrite app_nil_r.
    - replace (seen ++ set :: rest) with ((seen ++ [set]) ++ rest)
        by (by rewrite <- app_assoc).
      apply IH. by apply push_to_grouped. }
  destruct (Hgen sets [] []) as (Hnd & Hval & Hall).
  { split; [apply NoDup_nil_2|]. split; [by intros ? ? []|by intros ? []]. }
  split; [exact Hnd|]. split; [exact Hval|].
  intros s Hs. specialize (Hall s Hs).
  apply list_elem_of_In, in_map_iff in Hall as ([key value] & Heq & Hin).
  simpl in Heq. subst key. by exists value.
Qed.

End HistoryPage.

Section FetchThenStart.
Import Routes Observe Api Session Terms Reads Loading.
Context `{Bcrypt} `{Zod}.

Lemma fetchRoutines_answered (loading : bool) (w : World Express) (u : SessionUser) :
  user (view w) = true ->
  session_user (backend w) = Some u ->
  let d := db (server (backend w)) in
  let mine := Storage.getRoutinesByUserId (su_id u) d in
  fetchRoutines loading w
  = (false,
     mkWorld
       (setRoutines
          (map (fun r => mkRoutine (r_id r) (r_name r)
                           (map of_exercise (Storage.getRoutineExercises (r_id r) d)))
               mine) (view w))
       (mkExpress (sessionId (backend w)) (server (backend w)) (entropy (backend w))
                  (S (served (backend w)) + length mine))
       (console w) (calls w) (refs w) (mounted w)).
Proof.
  intros Huser Hu d mine. unfold fetchRoutines. rewrite Huser. cbn [negb].
  unfold read. destruct (reads_answered (backend w) u Hu) as (Hr & _). rewrite Hr.
  by rewrite (with_exercises_all _ _ u) by exact Hu.
Qed.

Lemma find_by_key {A C} (key : A -> uuid) (key' : C -> uuid) (f : A -> C)
  (p : A -> bool) (l : list A) (a : A) :
  (forall x, key' (f x) = key x) ->
  NoDup (map key l) -> In a l -> p a = true ->
  List.find (fun c => String.eqb (key' c) (key a)) (map f (List.filter p l))
  = Some (f a).
Proof.
  intros Hkey. induction l as [|x l IH]; simpl; [done|].
  intros Hnd Hin Hp. apply NoDup_cons in Hnd as [Hx Hl].
  destruct Hin as [->|Hin].
  - rewrite Hp. simpl. by rewrite Hkey, String.eqb_refl.
  - destruct (p x); simpl; [|by apply IH].
    rewrite Hkey. destruct (String.eqb (key x) (key a)) eqn:Heq; [|by apply IH].
    apply String.eqb_eq in Heq. exfalso. apply Hx. rewrite Heq.
    apply list_elem_of_In, in_map, Hin.
Qed.

(** X24. Loading the routines, picking one of the user's stored routines
    and pressing start work together: under a valid session of a stored
    user, with the schema accepting the body and the uuid drawn being new,
    the workout that becomes active carries the routine's name and the
    exercises stored under the routine's id, and its row is appended to
    [workouts] for the session's user with that routine id, the start time
    given and no end time.  [Hkey] is the primary key of [routines]. *)
Theorem fetched_routine_starts
  (loading : bool) (w : World Express) (u : SessionUser) (row : Schema.Routine)
  (now : Z)
  (Hmounted : mounted w = true)
  (Huser : user (view w) = true)
  (Hidle : activeWorkout (view w) = None)
  (Hsession : session_user (backend w) = Some u)
  (Hknown : Storage.has_id u_id (su_id u) (users (db (server (backend w)))) = true)
  (Hkey : NoDup (map r_id (Schema.routines (db (server (backend w))))))
  (Hrow : In row (Schema.routines (db (server (backend w)))))
  (Hmine : r_user_id row = su_id u)
  (Hnamed : r_id row <> "")
  (Hschema : accepts_workout
               (workout_body (mkCreateWorkoutData (r_id row) (r_name row) now)) = true)
  (Hfresh : Storage.has_id w_id
              (e_uuid (entropy (backend w)
                         (S (served (backend w))
                          + length (Storage.getRoutinesByUserId (su_id u)
                                      (db (server (backend w))))))%nat)
              (workouts (db (server (backend w)))) = false) :
  let d := db (server (backend w)) in
  let w1 := snd (fetchRoutines loading w) in
  let w2 := run [ChooseRoutine (r_id row); StartWorkout now] w1 in
  exists aw,
    activeWorkout (view w2) = Some aw
    /\ aw_routine_name aw = r_name row
    /\ aw_start_time aw = now
    /\ aw_exercises aw = map of_exercise (Storage.getRoutineExercises (r_id row) d)
    /\ workouts (db (server (backend w2)))
       = workouts d ++ [mkWorkout (aw_id aw) (su_id u) (Some (r_id row)) (r_name row)
                                  now None]
    /\ calls w2 = calls w ++ [CallCreateWorkout
                                (mkCreateWorkoutData (r_id row) (r_name row) now)].
Proof.
  intros d w1 w2. subst w2 w1.
  rewrite (fetchRoutines_answered loading w u Huser Hsession). cbn [snd].
  fold d. set (mine := Storage.getRoutinesByUserId (su_id u) d).
  set (listed := map (fun r => mkRoutine (r_id r) (r_name r)
                                 (map of_exercise (Storage.getRoutineExercises (r_id r) d)))
                     mine).
  set (x1 := mkExpress (sessionId (backend w)) (server (backend w)) (entropy (backend w))
                       (S (served (backend w)) + length mine)).
  unfold run. cbn [fold_left].
  rewrite (dispatch_quiet (ChooseRoutine (r_id row))) by done. cbn [handler].
  set (w1 := set_view _ _).
  assert (Hfind : List.find (fun r => String.eqb (routine_id r) (r_id row)) listed
                  = Some (mkRoutine (r_id row) (r_name row)
                            (map of_exercise (Storage.getRoutineExercises (r_id row) d)))).
  { subst listed mine. unfold Storage.getRoutinesByUserId.
    apply (find_by_key r_id routine_id
             (fun r => mkRoutine (r_id r) (r_name r)
                         (map of_exercise (Storage.getRoutineExercises (r_id r) d)))
             (fun r => String.eqb (r_user_id r) (su_id u))); try done.
    rewrite Hmine. apply String.eqb_refl. }
  assert (Hstored : Storage.has_id r_id (r_id row) (Schema.routines d) = true).
  { apply has_id_true. by apply in_map. }
  set (wrow := mkWorkout (e_uuid (entropy x1 (served x1))) (su_id u) (Some (r_id row))
                         (r_name row) now None).
  assert (Hh : handler (StartWorkout now) w1
    = mkWorld
        (setCurrentExerciseIndex (fun _ => 0%Z)
           (setWorkoutSets (fun _ => [])
              (setActiveWorkout
                 (Some (mkActiveWorkout (refs w) (w_id wrow) (r_name row) now
                          (map of_exercise (Storage.getRoutineExercises (r_id row) d))))
                 (view w1))))
        (mkExpress (sessionId x1)
           (mkServer (sessions (server x1))
              (mkDB (users d) (Schema.routines d) (routine_exercises d)
                    (workouts d ++ [wrow]) (workout_sets d)))
           (entropy x1) (S (served x1)))
        (console w) (calls w ++ [CallCreateWorkout
                                   (mkCreateWorkoutData (r_id row) (r_name row) now)])
        (S (refs w)) (mounted w)).
  { cbn [handler]. unfold startWorkout. cbv zeta.
    subst w1. cbn [view set_view setSelectedRoutineId setRoutines user
                   selectedRoutineId routines].
    rewrite Huser, Hfind. apply String.eqb_neq in Hnamed. rewrite Hnamed.
    cbn [negb orb routine_name exercises]. unfold call.
    cbn [backend]. rewrite (createWorkout_stored x1 u) by done. done. }
  unfold dispatch. replace (mounted w1) with true by (by subst w1).
  rewrite Hh.
  match goal with |- context [deps_changed w1 ?w3] =>
    assert (Hch : deps_changed w1 w3 = true) end.
  { unfold deps_changed, deps. subst w1. cbn. by rewrite Hidle. }
  rewrite Hch.
  match goal with |- context [initEffect ?w3] =>
    destruct (initEffect_frame w3) as (Hb & Hc & _ & _ & Ha & _) end.
  rewrite Hb, Hc, Ha. cbn.
  eexists. split; [reflexivity|]. done.
Qed.

End FetchThenStart.


(** ** Signing in and out from the browser *)
Section Browser.
Import Routes Observe Api Auth.
Context `{Bcrypt}.

Lemma request_keeps_sessionId (req : Request) (x : Express) :
  sessionId (snd (request req x)) = sessionId x.
Proof.
  unfold request. destruct (handle _ _ _ _) as [res s'].
  destruct (response_ok res); [done|]. by destruct (body res).
Qed.

(** The two auth routes answer 200 only with [{ user, sessionId }], and
    [/api/auth/me] only with [{ user }]: the branches of [signUp], [signIn]
    and [getSession] for another answer are never taken. *)
Lemma auth_answers (req : Request) (x : Express) :
  match req, fst (request req x) with
  | (PostSignup _ | PostSignin _ _), inr (JSession _ _) => True
  | Api GetMe, inr (JMe _) => True
  | (PostSignup _ | PostSignin _ _ | Api GetMe), inr _ => False
  | _, _ => True
  end.
Proof.
  destruct req as [d|username password|username| |[]]; try done.
  - unfold request. cbn [handle]. unfold signup. destruct d as [userData|]; [|by cbn].
    destruct (Storage.getUserByUsername _ _); [by cbn|].
    destruct (Storage.createUser _ _ _) as [[user db']|]; by cbn.
  - unfold request. cbn [handle]. unfold signin.
    destruct (Storage.getUserByUsername _ _) as [user|]; [|by cbn].
    destruct (Storage.verifyPassword _ _); by cbn.
  - destruct (session_user x) as [u|] eqn:Hu.
    + rewrite (request_api x u) by done. by cbn.
    + rewrite request_rejected by done. by cbn.
Qed.

(** Every listener is called with the session. *)
Lemma trigger_reaches (session : option SessionUser) (l : list nat) :
  forall (hs : gmap nat AuthState) (h : nat),
    (h ∈ l -> fold_left (fun hs h => <[h := heard session]> hs) l hs !! h
              = Some (heard session))
    /\ (h ∉ l -> fold_left (fun hs h => <[h := heard session]> hs) l hs !! h = hs !! h).
Proof.
  induction l as [|h0 l IH]; intros hs h; simpl.
  - split; [by intros ?%elem_of_nil|done].
  - destruct (IH (<[h0 := heard session]> hs) h) as [Hin Hout]. split.
    + intros Hel. destruct (decide (h ∈ l)) as [Hl|Hl]; [by apply Hin|].
      rewrite Hout by done. apply elem_of_cons in Hel as [->|?]; [|done].
      by rewrite lookup_insert_eq.
    + intros Hel. apply not_elem_of_cons in Hel as [Hne Hl].
      rewrite Hout by done. by rewrite lookup_insert_ne.
Qed.

Lemma signIn_opens (username password : string) (t : Tab) (user : User) :
  Storage.getUserByUsername username (db (server (client t))) = Some user ->
  Storage.verifyPassword user password = true ->
  let x := client t in
  let su := mkSessionUser (u_id user) (u_username user) in
  let tok := generateSessionId (entropy x (served x)) in
  signIn username password t
  = (mkAnswer (Some su) None,
     triggerAuthStateChange (Some su)
       (remember (Some tok)
          (mkExpress (sessionId x)
             (mkServer (<[tok := su]> (sessions (server x))) (db (server x)))
             (entropy x) (S (served x))) t)).
Proof.
  intros Huser Hpw x su tok. subst x. unfold signIn, request. cbn [handle].
  unfold signin. rewrite Huser, Hpw. unfold open_session. by cbn.
Qed.

Lemma signOut_clears (t : Tab) :
  let x := client t in
  signOut t
  = (None,
     triggerAuthStateChange None
       (remember None
          (mkExpress (sessionId x)
             (snd (signout match sessionId x with
                           | Some sid => if String.eqb sid "" then None else Some sid
                           | None => None
                           end (server x)))
             (entropy x) (S (served x))) t)).
Proof.
  intros x. subst x. unfold signOut, request. cbn [handle].
  destruct (sessionId (client t)) as [sid|]; [|done]. unfold signout.
  destruct (String.eqb sid "") eqn:Hsid; cbn; by rewrite ?Hsid.
Qed.

Lemma getSession_answered (t : Tab) :
  getSession t
  = match sessionId (client t) with
    | None => (None, t)
    | Some sid =>
        if String.eqb sid "" then (None, t) else
        let x' := mkExpress (sessionId (client t)) (server (client t))
                            (entropy (client t)) (S (served (client t))) in
        match session_user (client t) with
        | Some u => (Some u, set_client x' t)
        | None => (None, remember None x' t)
        end
    end.
Proof.
  unfold getSession. destruct (sessionId (client t)) as [sid|] eqn:Hsid; [|done].
  destruct (String.eqb sid "") eqn:Hne; [done|].
  destruct (session_user (client t)) as [u|] eqn:Hu.
  - rewrite (request_api _ u) by done. cbn. by rewrite Hsid.
  - rewrite request_rejected by done. cbn. by rewrite ?Hsid.
Qed.

Lemma getSession_reports (t : Tab) :
  fst (getSession t) = session_user (client t)
  /\ session_user (client (snd (getSession t))) = session_user (client t)
  /\ listeners (snd (getSession t)) = listeners t
  /\ hooks (snd (getSession t)) = hooks t
  /\ spawned (snd (getSession t)) = spawned t
  /\ server (client (snd (getSession t))) = server (client t).
Proof.
  rewrite getSession_answered. unfold session_user.
  destruct (sessionId (client t)) as [sid|] eqn:Hsid;
    [|cbn; by rewrite ?Hsid].
  destruct (String.eqb sid "") eqn:Hne;
    [cbn; rewrite ?Hsid; cbn; by rewrite ?Hne|].
  destruct (sessions (server (client t)) !! sid) as [u|] eqn:Hu;
    cbn; rewrite ?Hsid; cbn; by rewrite ?Hne, ?Hu.
Qed.

(** X25. Signing in from the browser with a stored user's password
    resolves to that user with no error; the client keeps the token the
    server drew, in [this.sessionId] and in [localStorage]; every subscribed
    listener is called with the user; the store is not changed; and a
    [getSession] that follows is answered with the same user and keeps the
    token. *)
Theorem signin_then_session (username password : string) (t : Tab) (user : User)
  (Huser : Storage.getUserByUsername username (db (server (client t))) = Some user)
  (Hpassword : Storage.verifyPassword user password = true) :
  let su := mkSessionUser (u_id user) (u_username user) in
  let tok := generateSessionId (entropy (client t) (served (client t))) in
  let t1 := snd (signIn username password t) in
  fst (signIn username password t) = mkAnswer (Some su) None
  /\ sessionId (client t1) = Some tok /\ item t1 = Some tok
  /\ db (server (client t1)) = db (server (client t))
  /\ (forall h, h ∈ listeners t -> hooks t1 !! h = Some (heard (Some su)))
  /\ fst (getSession t1) = Some su
  /\ sessionId (client (snd (getSession t1))) = Some tok.
Proof.
  intros su tok t1. subst t1. rewrite (signIn_opens _ _ _ user) by done.
  fold su tok. cbn [fst snd].
  assert (Hne : String.eqb tok "" = false).
  { apply String.eqb_neq, generateSessionId_nonempty. }
  do 4 (split; [done|]). split; [|split].
  - intros h Hh. cbn. by apply trigger_reaches.
  - rewrite (proj1 (getSession_reports _)). unfold session_user. cbn.
    by rewrite Hne, lookup_insert_eq.
  - rewrite getSession_answered. unfold session_user. cbn.
    by rewrite Hne, lookup_insert_eq.
Qed.

(** X26. Signing out from the browser never fails against this server:
    it resolves with no error, forgets the token in [this.sessionId] and in
    [localStorage], calls every subscribed listener with no session, and
    leaves the store untouched; the server no longer knows the token, every
    later API call of this client is rejected with "Not authenticated", and
    [getSession] answers no session without sending a request. *)
Theorem signout_forgets_session (t : Tab) :
  let t1 := snd (signOut t) in
  fst (signOut t) = None
  /\ sessionId (client t1) = None /\ item t1 = None
  /\ db (server (client t1)) = db (server (client t))
  /\ (forall tok, sessionId (client t) = Some tok -> tok <> "" ->
        sessions (server (client t1)) !! tok = None)
  /\ (forall h, h ∈ listeners t -> hooks t1 !! h = Some (heard None))
  /\ (forall req, fst (request (Api req) (client t1)) = inl "Not authenticated")
  /\ getSession t1 = (None, t1).
Proof.
  cbv zeta. rewrite signOut_clears. cbn [fst snd].
  do 3 (split; [done|]). split; [|split; [|split; [|split]]].
  - cbn. destruct (sessionId (client t)) as [sid|]; [|done]. unfold signout.
    destruct (String.eqb sid "") eqn:Hsid; cbn; by rewrite ?Hsid.
  - intros tok Htok Hne. cbn. rewrite Htok. apply String.eqb_neq in Hne.
    rewrite Hne. unfold signout. rewrite Hne. cbn. by rewrite lookup_delete_eq.
  - intros h Hh. cbn. by apply trigger_reaches.
  - intros req. by rewrite request_rejected.
  - done.
Qed.

(** X27. [getSession] sends no request when the client holds no session
    id.  Otherwise it asks [/auth/me]: a token the server knows is answered
    with its user and kept; a token the server does not know is dropped
    from [this.sessionId] and from [localStorage] and the answer is no
    session.  In every case the answer is the user the server attaches to
    this client, the server is not changed, and no listener is called. *)
Theorem session_check_keeps_or_drops (t : Tab) :
  let t1 := snd (getSession t) in
  fst (getSession t) = session_user (client t)
  /\ server (client t1) = server (client t)
  /\ listeners t1 = listeners t /\ hooks t1 = hooks t
  /\ match sessionId (client t) with
     | None => t1 = t
     | Some sid =>
         if String.eqb sid "" then t1 = t else
         served (client t1) = S (served (client t))
         /\ match session_user (client t) with
            | Some _ => sessionId (client t1) = Some sid /\ item t1 = item t
            | None => sessionId (client t1) = None /\ item t1 = None
            end
     end.
Proof.
  cbv zeta. destruct (getSession_reports t) as (Hf & _ & Hl & Hh & _ & Hs).
  do 4 (split; [done|]). rewrite getSession_answered.
  destruct (sessionId (client t)) as [sid|] eqn:Hsid; [|done].
  destruct (String.eqb sid "") eqn:Hne; [done|].
  destruct (session_user (client t)) as [u|]; cbn; by rewrite ?Hsid.
Qed.

(** X28. A sign-in with an unknown username or a wrong password resolves
    (it does not reject) to no user and the error "Invalid credentials".
    The client keeps the session id it had, [localStorage] is not written,
    no listener is called, and the server's registry and store are as
    before: the only change is that one more request was served. *)
Theorem failed_signin_keeps_session (username password : string) (t : Tab)
  (Hwrong : forall user,
      Storage.getUserByUsername username (db (server (client t))) = Some user ->
      Storage.verifyPassword user password = false) :
  signIn username password t
  = (mkAnswer None (Some "Invalid credentials"),
     mkTab (mkExpress (sessionId (client t)) (server (client t))
                      (entropy (client t)) (S (served (client t))))
           (item t) (listeners t) (hooks t) (spawned t)).
Proof.
  unfold signIn, request. cbn [handle]. unfold signin.
  destruct (Storage.getUserByUsername username _) as [user|] eqn:Hfind; [|done].
  by rewrite (Hwrong user).
Qed.

Lemma act_keeps_item (a : Action) (t : Tab) :
  item t = sessionId (client t) -> item (act a t) = sessionId (client (act a t)).
Proof.
  intros Hit. destruct a as [username password|username password| | | |h]; cbn [act].
  - unfold signUp.
    pose proof (request_keeps_sessionId
                  (PostSignup (Some (mkInsertUser username password))) (client t)) as Hk.
    destruct (request _ (client t)) as [[err|j] x']; cbn in *; [congruence|].
    destruct j; cbn; congruence.
  - unfold signIn.
    pose proof (request_keeps_sessionId (PostSignin username password) (client t)) as Hk.
    destruct (request _ (client t)) as [[err|j] x']; cbn in *; [congruence|].
    destruct j; cbn; congruence.
  - by rewrite signOut_clears.
  - rewrite getSession_answered.
    destruct (sessionId (client t)) as [sid|] eqn:Hsid; [|cbn; congruence].
    destruct (String.eqb sid ""); [cbn; congruence|].
    destruct (session_user (client t)) as [u|]; cbn; [congruence|done].
  - unfold mount. rewrite getSession_answered.
    destruct (sessionId (client t)) as [sid|] eqn:Hsid; [|cbn; congruence].
    destruct (String.eqb sid ""); [cbn; congruence|].
    destruct (session_user (client t)) as [u|]; cbn; [congruence|done].
  - done.
Qed.

(** X29. In a tab, [this.sessionId] of the client and the [sessionId]
    item of [localStorage] never part: they are equal when the client is
    constructed and after any sequence of sign-ups, sign-ins, sign-outs,
    session checks and mounts and unmounts of [useAuth]. *)
Theorem stored_item_tracks_session
  (stored : option string) (s : Server) (ent : nat -> Entropy) (n : nat)
  (l : list Action) :
  let t := acts l (boot stored s ent n) in
  item t = sessionId (client t).
Proof.
  cbv zeta.
  assert (Hgen : forall t, item t = sessionId (client t) ->
                           item (acts l t) = sessionId (client (acts l t))).
  { induction l as [|a l IH]; intros t Ht; [done|].
    unfold acts. cbn [fold_left]. apply IH. by apply act_keeps_item. }
  by apply Hgen.
Qed.

Lemma unsubscribe_spec (h : nat) (l : list nat) :
  NoDup l ->
  NoDup (unsubscribe h l)
  /\ forall h', h' ∈ unsubscribe h l <-> h' ∈ l /\ h' <> h.
Proof.
  induction l as [|h0 l IH]; simpl; intros Hnd.
  - split; [done|]. intros h'. split; [by intros ?%elem_of_nil|].
    by intros [?%elem_of_nil _].
  - apply NoDup_cons in Hnd as [Hh0 Hl]. destruct (IH Hl) as [Hnd' Hiff].
    destruct (Nat.eqb h0 h) eqn:Heq.
    + apply Nat.eqb_eq in Heq. subst h0. split; [done|]. intros h'.
      rewrite elem_of_cons. split.
      * intros Hin. split; [by right|]. by intros ->.
      * intros [[->|Hin] Hne]; done.
    + apply Nat.eqb_neq in Heq. split.
      * apply NoDup_cons. split; [|done]. intros Hin. apply Hiff in Hin as [? _]. done.
      * intros h'. rewrite !elem_of_cons, Hiff. split.
        -- intros [->|[Hin Hne]]; [by split; [left|]|]. split; [by right|done].
        -- intros [[->|Hin] Hne]; [by left|]. by right.
Qed.

Lemma act_keeps_step (a : Action) (t : Tab) :
  wired t -> in_step t -> wired (act a t) /\ in_step (act a t).
Proof.
  intros [Hnd Hlt] Hstep.
  destruct a as [username password|username password| | | |h]; cbn [act].
  - (* signUp *)
    unfold signUp, request. cbn [handle]. unfold signup. cbn [iu_username].
    destruct (Storage.getUserByUsername _ _) as [taken|]; cbn; [done|].
    destruct (Storage.createUser _ _ _) as [[user db']|]; cbn; [|done].
    split; [done|]. intros h Hh. cbn.
    rewrite (proj1 (trigger_reaches _ _ _ h)) by done. unfold session_user. cbn.
    assert (Hne : String.eqb (generateSessionId
                                (entropy (client t) (served (client t)))) "" = false).
    { apply String.eqb_neq, generateSessionId_nonempty. }
    by rewrite Hne, lookup_insert_eq.
  - (* signIn *)
    unfold signIn, request. cbn [handle]. unfold signin.
    destruct (Storage.getUserByUsername _ _) as [user|]; cbn; [|done].
    destruct (Storage.verifyPassword _ _); cbn; [|done].
    split; [done|]. intros h Hh. cbn.
    rewrite (proj1 (trigger_reaches _ _ _ h)) by done. unfold session_user. cbn.
    assert (Hne : String.eqb (generateSessionId
                                (entropy (client t) (served (client t)))) "" = false).
    { apply String.eqb_neq, generateSessionId_nonempty. }
    by rewrite Hne, lookup_insert_eq.
  - (* signOut *)
    rewrite signOut_clears. cbn. split; [done|]. intros h Hh. cbn.
    by rewrite (proj1 (trigger_reaches _ _ _ h)).
  - (* getSession *)
    destruct (getSession_reports t) as (_ & Hu & Hl & Hh & Hsp & _).
    split.
    + split; rewrite Hl; [done|]. intros h Hin. rewrite Hsp. by apply Hlt.
    + intros h Hin. rewrite Hl in Hin. rewrite Hh, Hu. by apply Hstep.
  - (* mount *)
    unfold mount.
    destruct (getSession_reports t) as (Hf & Hu & Hl & Hh & Hsp & _).
    destruct (getSession t) as [session t1]. cbn in *. subst session.
    split; [split|].
    + rewrite Hl. apply NoDup_app. split; [done|]. split; [|apply NoDup_singleton].
      intros h Hin Hel. apply list_elem_of_singleton in Hel. subst h.
      specialize (Hlt _ Hin). lia.
    + intros h Hin. cbn in *. rewrite Hl in Hin. apply elem_of_app in Hin as [Hin|Hin].
      * specialize (Hlt _ Hin). lia.
      * apply list_elem_of_singleton in Hin. subst h. lia.
    + intros h Hin. cbn. rewrite Hl in Hin. rewrite Hu.
      apply elem_of_app in Hin as [Hin|Hin].
      * rewrite lookup_insert_ne by (specialize (Hlt _ Hin); lia).
        rewrite Hh. by apply Hstep.
      * apply list_elem_of_singleton in Hin. subst h. by rewrite lookup_insert_eq.
  - (* unmount *)
    destruct (unsubscribe_spec h _ Hnd) as [Hnd' Hiff]. split; [split; [done|]|].
    + intros h' Hin. apply Hiff in Hin as [Hin _]. by apply Hlt.
    + intros h' Hin. cbn in *. apply Hiff in Hin as [Hin Hne].
      rewrite lookup_delete_ne by done. by apply Hstep.
Qed.

(** X30. In a tab that alone talks to the server, every mounted [useAuth]
    instance shows the user the server attaches to the tab's requests (and
    is no longer loading), after any sequence of sign-ups, sign-ins,
    sign-outs, session checks, mounts and unmounts since the client was
    constructed. *)
Theorem hooks_show_the_session_user
  (stored : option string) (s : Server) (ent : nat -> Entropy) (n : nat)
  (l : list Action) :
  in_step (acts l (boot stored s ent n)).
Proof.
  assert (Hgen : forall t, wired t -> in_step t ->
                           wired (acts l t) /\ in_step (acts l t)).
  { induction l as [|a l IH]; intros t Hw Hs; [done|].
    unfold acts. cbn [fold_left].
    destruct (act_keeps_step a t Hw Hs) as [Hw' Hs']. by apply IH. }
  apply Hgen.
  - split; [apply NoDup_nil_2|]. by intros h ?%elem_of_nil.
  - by intros h ?%elem_of_nil.
Qed.

End Browser.

(** ** Concrete runs in the browser *)
Section BrowserRuns.
Import Routes Observe Integrity Api Session Reads Loading Auth Fixture.
#[local] Existing Instance plain_bcrypt.
#[local] Existing Instance Wire.repository.

Lemma served_registry_names_users_witness :
  let s := @serve plain_bcrypt
             [(None, draw 0, PostSignup (Some (mkInsertUser "ann" "pw-a")))]
             (mkServer ∅ emptyDB) in
  ann_token <> ""
  /\ exists u, In u (users (db s)) /\ u_id u = "id-0" /\ u_username u = "ann".
Proof.
  intros s.
  apply (@served_registry_names_users plain_bcrypt
           [(None, draw 0, PostSignup (Some (mkInsertUser "ann" "pw-a")))]
           ann_token (mkSessionUser "id-0" "ann")).
  vm_compute. reflexivity.
Defined.

Lemma fetched_routines_are_the_users_witness :
  let blank := mkWorld (mkView true [] "" None [] 0 None [] None)
                       (browser (Some ann_token)) [] [] 0 true in
  Session.routines (view (snd (fetchRoutines true blank)))
  = Session.routines (view idle).
Proof.
  intros blank.
  destruct (fetched_routines_are_the_users true blank) as (_ & _ & Hlist);
    [reflexivity|].
  assert (Hu : session_user (backend blank) = Some (mkSessionUser "id-0" "ann"))
    by (vm_compute; reflexivity).
  rewrite Hu in Hlist. destruct Hlist as [Hlist _]. rewrite Hlist.
  vm_compute. reflexivity.
Defined.

(** ann's first workout, which has a set, is closed by a [PATCH]; the one
    the page started stays open. *)
Lemma history_lists_completed_workouts_witness :
  let x := mkExpress (Some ann_token)
             (snd (handle (Some ann_token) (draw 10)
                     (Api (PatchWorkout "id-4"
                             (mkWorkoutUpdates (SetEndTime (Some 1750000000900%Z)) [])))
                     (server (backend drafted))))
             draw 11 in
  let p := History.fetchWorkouts (History.mkPage true [] true None x []) in
  length (Schema.workouts (db (server x))) = 2%nat
  /\ History.workouts p
     = [History.mkCompletedWorkout
          (mkWorkout "id-4" "id-0" (Some "id-2") "push day"
                     1750000000100 (Some 1750000000900))
          [Schema.mkWorkoutSet "id-5" "id-4" "bench press" 135 5 7 1]].
Proof.
  intros x p. split; [vm_compute; reflexivity|].
  destruct (history_lists_completed_workouts (History.mkPage true [] true None x []))
    as (_ & _ & Hlist); [reflexivity|].
  assert (Hu : session_user (History.backend (History.mkPage true [] true None x []))
               = Some (mkSessionUser "id-0" "ann"))
    by (vm_compute; reflexivity).
  rewrite Hu in Hlist. destruct Hlist as [Hlist _]. subst p. rewrite Hlist.
  vm_compute. reflexivity.
Defined.

Lemma signin_then_session_witness :
  let t := mount (boot None (snd seeded) draw (fst seeded)) in
  let t1 := snd (signIn "ann" "pw-a" t) in
  fst (getSession t1) = Some (mkSessionUser "id-0" "ann")
  /\ hooks t1 !! 0%nat = Some (heard (Some (mkSessionUser "id-0" "ann"))).
Proof.
  intros t t1.
  destruct (signin_then_session "ann" "pw-a" t ann)
    as (_ & _ & _ & _ & Hheard & Hme & _); [vm_compute; reflexivity..|].
  split; [exact Hme|]. apply Hheard.
  assert (Hl : listeners t = [0%nat]) by (vm_compute; reflexivity).
  rewrite Hl. apply list_elem_of_here.
Defined.

Lemma failed_signin_keeps_session_witness :
  let t := snd (signIn "ann" "pw-a" (boot None (snd seeded) draw (fst seeded))) in
  sessionId (client t) = Some (generateSessionId (draw 9))
  /\ fst (signIn "bob" "pw-a" t) = mkAnswer None (Some "Invalid credentials")
  /\ sessionId (client (snd (signIn "bob" "pw-a" t)))
     = Some (generateSessionId (draw 9)).
Proof.
  intros t. split; [vm_compute; reflexivity|].
  rewrite (failed_signin_keeps_session "bob" "pw-a" t).
  - split; [reflexivity|]. vm_compute. reflexivity.
  - intros user Hfind. vm_compute in Hfind. injection Hfind as <-.
    vm_compute. reflexivity.
Defined.

Lemma hooks_show_the_session_user_witness :
  hooks (acts [Mount; SignIn "ann" "pw-a"; Mount]
              (boot None (snd seeded) draw (fst seeded))) !! 1%nat
  = Some (heard (Some (mkSessionUser "id-0" "ann"))).
Proof.
  pose proof (hooks_show_the_session_user None (snd seeded) draw (fst seeded)
                [Mount; SignIn "ann" "pw-a"; Mount] 1%nat) as Hstep.
  assert (Hl : listeners (acts [Mount; SignIn "ann" "pw-a"; Mount]
                               (boot None (snd seeded) draw (fst seeded)))
               = [0%nat; 1%nat]) by (vm_compute; reflexivity).
  assert (Hu : session_user (client (acts [Mount; SignIn "ann" "pw-a"; Mount]
                                          (boot None (snd seeded) draw (fst seeded))))
               = Some (mkSessionUser "id-0" "ann")) by (vm_compute; reflexivity).
  rewrite Hl, Hu in Hstep. apply Hstep.
  apply list_elem_of_further, list_elem_of_here.
Defined.

End BrowserRuns.

Section FetchThenStartRuns.
Import Routes Observe Api Session Terms Reads Loading Fixture.
#[local] Existing Instance plain_bcrypt.
#[local] Existing Instance Wire.repository.

Lemma fetched_routine_starts_witness :
  let blank := mkWorld (mkView true [] "" None [] 0 None [] None)
                       (browser (Some ann_token)) [] [] 0 true in
  let w2 := run [ChooseRoutine "id-2"; StartWorkout 1750000000200]
                (snd (fetchRoutines true blank)) in
  exists aw,
    activeWorkout (view w2) = Some aw
    /\ aw_exercises aw = [bench; press]
    /\ length (workouts (db (server (backend w2)))) = 2%nat.
Proof.
  intros blank w2.
  destruct (fetched_routine_starts true blank (mkSessionUser "id-0" "ann") push_day
              1750000000200)
    as (aw & Hactive & _ & _ & Hex & Hrows & _);
    [reflexivity | reflexivity | reflexivity | vm_compute; reflexivity
     | vm_compute; reflexivity
     | apply (bool_decide_unpack _); vm_compute; exact I
     | vm_compute; auto | reflexivity | discriminate | reflexivity
     | vm_compute; reflexivity |].
  change (r_id push_day) with "id-2" in Hactive, Hex, Hrows.
  exists aw. split; [exact Hactive|]. split.
  - rewrite Hex. vm_compute. reflexivity.
  - subst w2. rewrite Hrows. rewrite length_app. vm_compute. reflexivity.
Defined.

End FetchThenStartRuns.
